(** * Genie CLI: session synchronisation and RPC bridging

    A shallow embedding of [src/api/rpc/RpcHandlerManager.ts] and of the
    session client [ApiSessionClient] (versioned documents, inbound update
    routing, inbound message queue, outbound sends), with the properties of
    the specification stated and settled against it; then the construction
    of the client, its socket events and the REST client [ApiClient] that
    creates it, with further properties of the code. *)

From Stdlib Require Import List String Ascii ZArith Bool Lia DecimalString.
Import ListNotations.
Local Open Scope string_scope.

(** ** JavaScript values *)

(** The JSON-shaped fragment of JavaScript values the code handles.  A number
    is an integer here: every number the modelled code compares or copies is
    a version counter or a token count.  An object is its list of own
    properties in insertion order. *)
#[warnings="-register-all"]
Inductive value : Type :=
| VUndefined
| VNull
| VBool (b : bool)
| VNum (n : Z)
| VStr (s : string)
| VArr (items : list value)
| VObj (fields : list (string * value)).

(** What a [throw] carries: an [Error] instance with its message, or any
    other thrown value. *)
Inductive jsError : Type :=
| ErrorObj (message : string)
| NonError (thrown : value).

(** How an evaluation ends: with a value, or with a [throw]. *)
Inductive outcome (A : Type) : Type :=
| Ret (a : A)
| Throw (e : jsError).
Arguments Ret {A} a.
Arguments Throw {A} e.

(** ** Insertion-ordered string-keyed tables

    Both a JavaScript object and a JavaScript [Map] keep their keys in
    insertion order; writing to a key that is present replaces the value and
    keeps the key where it is. *)
Module Assoc.
Section Table.
Context {V : Type}.

Fixpoint lookup (k : string) (t : list (string * V)) : option V :=
  match t with
  | [] => None
  | (k', v) :: rest => if String.eqb k k' then Some v else lookup k rest
  end.

Fixpoint set (k : string) (v : V) (t : list (string * V)) : list (string * V) :=
  match t with
  | [] => [(k, v)]
  | (k', v') :: rest =>
      if String.eqb k k' then (k, v) :: rest else (k', v') :: set k v rest
  end.

Definition keys (t : list (string * V)) : list string := map fst t.
End Table.
End Assoc.

Module JS.

Definition lookup := @Assoc.lookup value.

(** [o.k] for an [o] that is neither [null] nor [undefined], and [o?.k]
    for any [o]: a property that is absent reads as [undefined].  The keys
    the code reads are none of the built-in properties of strings and
    arrays ([length], indices), so those have no property here. *)
Definition get (k : string) (o : value) : value :=
  match o with
  | VObj fields => match lookup k fields with Some v => v | None => VUndefined end
  | _ => VUndefined
  end.

(** [k in o] for an object [o] *)
Definition has (k : string) (o : value) : bool :=
  match o with
  | VObj fields => match lookup k fields with Some _ => true | None => false end
  | _ => false
  end.

Definition nullish (o : value) : bool :=
  match o with
  | VNull | VUndefined => true
  | _ => false
  end.

Definition string_of_Z (n : Z) : string :=
  NilZero.string_of_int (Z.to_int n).

(** The elements of an array, each under its index as a key. *)
Fixpoint indexed (i : nat) (items : list value) : list (string * value) :=
  match items with
  | [] => []
  | item :: rest => (string_of_Z (Z.of_nat i), item) :: indexed (Datatypes.S i) rest
  end.

(** The characters of a string, each as a string of its own. *)
Fixpoint characters (s : string) : list value :=
  match s with
  | EmptyString => []
  | String c rest => VStr (String c EmptyString) :: characters rest
  end.

(** The own enumerable properties of a value, which an object spread
    copies: the fields of an object, the elements of an array and the
    characters of a string under their indices, and nothing for
    [undefined], [null], a boolean or a number. *)
Definition own_properties (o : value) : list (string * value) :=
  match o with
  | VObj fields => fields
  | VArr items => indexed 0 items
  | VStr s => indexed 0 (characters s)
  | _ => []
  end.

(** [{...o, k: v}] *)
Definition spread_with (o : value) (k : string) (v : value) : value :=
  VObj (Assoc.set k v (own_properties o)).

(** ToBoolean *)
Definition truthy (v : value) : bool :=
  match v with
  | VUndefined | VNull => false
  | VBool b => b
  | VNum n => negb (Z.eqb n 0)
  | VStr s => negb (String.eqb s "")
  | VArr _ | VObj _ => true
  end.

(** [v === 'literal'] for a string literal *)
Definition is_str (literal : string) (v : value) : bool :=
  match v with
  | VStr s => String.eqb s literal
  | _ => false
  end.

(** [typeof v === 'string'] *)
Definition is_string (v : value) : bool :=
  match v with VStr _ => true | _ => false end.

Fixpoint join (sep : string) (parts : list string) : string :=
  match parts with
  | [] => ""
  | [p] => p
  | p :: rest => p ++ sep ++ join sep rest
  end.

(** ToString, as applied by [JSON.parse] to an argument that is not a
    string. *)
Fixpoint ToString (v : value) : string :=
  match v with
  | VUndefined => "undefined"
  | VNull => "null"
  | VBool true => "true"
  | VBool false => "false"
  | VNum n => string_of_Z n
  | VStr s => s
  | VArr items =>
      join "," (map (fun x => match x with
                              | VUndefined | VNull => ""
                              | _ => ToString x
                              end) items)
  | VObj _ => "[object Object]"
  end.

(** [o.k]: reading a property of [null] or [undefined] throws a
    TypeError. *)
Definition prop (k : string) (o : value) : outcome value :=
  if nullish o
  then Throw (ErrorObj ("Cannot read properties of " ++ ToString o
                        ++ " (reading '" ++ k ++ "')"))
  else Ret (get k o).

(** [k in o]: a TypeError unless [o] is an object or an array. *)
Definition has_in (k : string) (o : value) : outcome bool :=
  match o with
  | VObj _ => Ret (has k o)
  | VArr _ => Ret false
  | _ => Throw (ErrorObj ("Cannot use 'in' operator to search for '" ++ k
                          ++ "' in " ++ ToString o))
  end.

End JS.

(** ** JSON.stringify *)

Module JSON.

Definition dquote : ascii := ascii_of_nat 34.
Definition backslash : ascii := ascii_of_nat 92.

Definition hex_digit (n : nat) : ascii :=
  if Nat.ltb n 10 then ascii_of_nat (48 + n) else ascii_of_nat (87 + n).

(** One character of a quoted JSON string. *)
Definition escape_char (c : ascii) : string :=
  let n := nat_of_ascii c in
  if Nat.eqb n 34 then String backslash (String dquote "")
  else if Nat.eqb n 92 then String backslash (String backslash "")
  else if Nat.eqb n 8 then String backslash "b"
  else if Nat.eqb n 12 then String backslash "f"
  else if Nat.eqb n 10 then String backslash "n"
  else if Nat.eqb n 13 then String backslash "r"
  else if Nat.eqb n 9 then String backslash "t"
  else if Nat.ltb n 32 then
    String backslash
      ("u00" ++ String (hex_digit (n / 16)) (String (hex_digit (n mod 16)) ""))
  else String c "".

Fixpoint escape (s : string) : string :=
  match s with
  | EmptyString => ""
  | String c rest => escape_char c ++ escape rest
  end.

Definition quote (s : string) : string :=
  String dquote (escape s ++ String dquote "").

(** [JSON.stringify v]; [None] is the result [undefined].  Inside an array
    [undefined] prints as [null]; inside an object a property whose value
    is [undefined] is left out. *)
Fixpoint stringify (v : value) : option string :=
  match v with
  | VUndefined => None
  | VNull => Some "null"
  | VBool true => Some "true"
  | VBool false => Some "false"
  | VNum n => Some (JS.string_of_Z n)
  | VStr s => Some (quote s)
  | VArr items =>
      Some ("[" ++ JS.join ","
              (map (fun x => match stringify x with
                             | Some s => s
                             | None => "null"
                             end) items) ++ "]")
  | VObj fields =>
      Some ("{" ++ JS.join ","
              (flat_map (fun kv => match stringify (snd kv) with
                                   | Some s => [quote (fst kv) ++ ":" ++ s]
                                   | None => []
                                   end) fields) ++ "}")
  end.

(** An object literal never stringifies to [undefined]. *)
Definition stringify_object (fields : list (string * value)) : string :=
  match stringify (VObj fields) with
  | Some s => s
  | None => ""
  end.

(** The value handed to the wire for [JSON.stringify(v)] used as a
    property: a string, or [undefined]. *)
Definition stringify_value (v : value) : value :=
  match stringify v with
  | Some s => VStr s
  | None => VUndefined
  end.

End JSON.

(** ** Effects

    What a method does besides changing its own object is recorded as a list
    of events, in program order. *)

(** A socket.io client socket, by identity. *)
Definition Socket := nat.

Inductive event : Type :=
| Log (msg : string)                   (* a logger call, by its message *)
| SocketEmit (sock : Socket) (ev : string) (payload : value)
| SocketVolatileEmit (sock : Socket) (ev : string) (payload : value)
| SocketEmitWithAck (sock : Socket) (ev : string) (payload : value)
| Invoke (method : string) (params : value)            (* an RPC handler is called *)
| Deliver (consumer : nat) (message : value)           (* the user-message callback is called *)
| EmitLocal (ev : string) (arg : value).               (* EventEmitter emit on the client *)

(** The result of running a method on an object in state [S]: how it ended,
    the state it left (assignments made before a [throw] stay), and what it
    did. *)
Record res (S A : Type) : Type := Res {
  out : outcome A;
  post : S;
  evs : list event
}.
Arguments Res {S A} out post evs.
Arguments out {S A} r.
Arguments post {S A} r.
Arguments evs {S A} r.

Definition M (S A : Type) : Type := S -> res S A.

Section Monad.
Context {S : Type}.

Definition ret {A} (a : A) : M S A := fun s => Res (Ret a) s [].

Definition throw {A} (e : jsError) : M S A := fun s => Res (Throw e) s [].

Definition bind {A B} (m : M S A) (k : A -> M S B) : M S B :=
  fun s =>
    let r := m s in
    match out r with
    | Ret a => let r' := k a (post r) in Res (out r') (post r') (evs r ++ evs r')
    | Throw e => Res (Throw e) (post r) (evs r)
    end.

(** [try { m } catch (e) { h e }] *)
Definition try_catch {A} (m : M S A) (h : jsError -> M S A) : M S A :=
  fun s =>
    let r := m s in
    match out r with
    | Ret a => r
    | Throw e => let r' := h e (post r) in Res (out r') (post r') (evs r ++ evs r')
    end.

(** An evaluation that touches neither the state nor the outside. *)
Definition lift {A} (o : outcome A) : M S A := fun s => Res o s [].

Definition get : M S S := fun s => Res (Ret s) s [].

Definition modify (f : S -> S) : M S unit := fun s => Res (Ret tt) (f s) [].

Definition tell (e : event) : M S unit := fun s => Res (Ret tt) s [e].

Definition log (msg : string) : M S unit := tell (Log msg).
End Monad.

Declare Scope js_scope.
Delimit Scope js_scope with js.
Notation "x <- m ;; k" := (bind m (fun x => k))
  (at level 61, m at next level, right associativity) : js_scope.
Notation "m ;; k" := (bind m (fun _ => k))
  (at level 61, right associativity) : js_scope.

Local Open Scope js_scope.

(** ** src/api/rpc/RpcHandlerManager.ts *)

Module Rpc.

(** [RpcHandler]: called with the decoded params, it returns (or resolves
    to) a value, or throws (or rejects). *)
Definition RpcHandler : Type := value -> outcome value.

(** [RpcHandlerMap = Map<string, RpcHandler>] *)
Definition RpcHandlerMap : Type := list (string * RpcHandler).

Record RpcRequest : Type := {
  method : string;
  params : string
}.

Record RpcHandlerConfig : Type := {
  cfg_scopePrefix : string
}.

Record RpcHandlerManager : Type := {
  handlers : RpcHandlerMap;
  scopePrefix : string;
  socket : option Socket
}.

Definition set_handlers (h : RpcHandlerMap) (m : RpcHandlerManager) :=
  {| handlers := h; scopePrefix := scopePrefix m; socket := socket m |}.

Definition set_socket (s : option Socket) (m : RpcHandlerManager) :=
  {| handlers := handlers m; scopePrefix := scopePrefix m; socket := s |}.

(** [constructor(config)]; the logger of the configuration is the [Log]
    event. *)
Definition new (config : RpcHandlerConfig) : RpcHandlerManager :=
  {| handlers := []; scopePrefix := cfg_scopePrefix config; socket := None |}.

Definition getPrefixedMethod (prefix method : string) : string :=
  prefix ++ ":" ++ method.

(** The payload of an ['rpc-register'] announcement. *)
Definition announcement (prefixedMethod : string) : value :=
  VObj [("method", VStr prefixedMethod)].

Definition registerHandler (method : string) (handler : RpcHandler)
  : M RpcHandlerManager unit :=
  this <- get ;;
  let prefixedMethod := getPrefixedMethod (scopePrefix this) method in
  modify (set_handlers (Assoc.set prefixedMethod handler (handlers this))) ;;
  match socket this with
  | Some sock => tell (SocketEmit sock "rpc-register" (announcement prefixedMethod))
  | None => ret tt
  end.

(** [await handler(params)] *)
Definition call (method : string) (handler : RpcHandler) (arg : value)
  : M RpcHandlerManager value :=
  tell (Invoke method arg) ;;
  match handler arg with
  | Ret v => ret v
  | Throw e => throw e
  end.

(** [error instanceof Error ? error.message : 'Unknown error'] *)
Definition error_message (e : jsError) : string :=
  match e with
  | ErrorObj message => message
  | NonError _ => "Unknown error"
  end.

(** Reading [response.length] when [JSON.stringify] gave [undefined]. *)
Definition length_of_undefined : jsError :=
  ErrorObj "Cannot read properties of undefined (reading 'length')".

Section WithJSON.
(** [JSON.parse]: the decoded value, or [None] for a [SyntaxError]. *)
Variable JSON_parse : string -> option value.

(** [try { params = JSON.parse(request.params) } catch { params = request.params }] *)
Definition decode_params (raw : string) : value :=
  match JSON_parse raw with
  | Some v => v
  | None => VStr raw
  end.

Definition handleRequest (request : RpcRequest) : M RpcHandlerManager string :=
  try_catch
    (this <- get ;;
     match Assoc.lookup (method request) (handlers this) with
     | None =>
         log "[RPC] [ERROR] Method not found" ;;
         ret (JSON.stringify_object [("error", VStr "Method not found")])
     | Some handler =>
         let params := decode_params (params request) in
         log "[RPC] Calling handler" ;;
         result <- call (method request) handler params ;;
         log "[RPC] Handler returned" ;;
         match JSON.stringify result with
         | None => throw length_of_undefined
         | Some response =>
             log "[RPC] Sending response" ;;
             ret response
         end
     end)
    (fun error =>
       log "[RPC] [ERROR] Error handling request" ;;
       ret (JSON.stringify_object [("error", VStr (error_message error))])).
End WithJSON.

(** [for (const [prefixedMethod] of this.handlers) socket.emit('rpc-register', ...)] *)
Fixpoint announce_all (sock : Socket) (prefixedMethods : list string)
  : M RpcHandlerManager unit :=
  match prefixedMethods with
  | [] => ret tt
  | prefixedMethod :: rest =>
      tell (SocketEmit sock "rpc-register" (announcement prefixedMethod)) ;;
      announce_all sock rest
  end.

Definition onSocketConnect (sock : Socket) : M RpcHandlerManager unit :=
  modify (set_socket (Some sock)) ;;
  this <- get ;;
  announce_all sock (Assoc.keys (handlers this)).

Definition onSocketDisconnect : M RpcHandlerManager unit :=
  modify (set_socket None).

Definition getHandlerCount (this : RpcHandlerManager) : nat :=
  List.length (handlers this).

Definition hasHandler (method : string) (this : RpcHandlerManager) : bool :=
  match Assoc.lookup (getPrefixedMethod (scopePrefix this) method) (handlers this) with
  | Some _ => true
  | None => false
  end.

Definition clearHandlers : M RpcHandlerManager unit :=
  modify (set_handlers []) ;;
  log "Cleared all RPC handlers".

(** The calls a manager can receive, and a sequence of them run from a
    given state. *)
Inductive op : Type :=
| Register (method : string) (handler : RpcHandler)
| Connect (sock : Socket)
| Disconnect
| Request (request : RpcRequest)
| Clear.

Definition step (JSON_parse : string -> option value) (o : op)
  : M RpcHandlerManager unit :=
  match o with
  | Register method handler => registerHandler method handler
  | Connect sock => onSocketConnect sock
  | Disconnect => onSocketDisconnect
  | Request request => _ <- handleRequest JSON_parse request ;; ret tt
  | Clear => clearHandlers
  end.

Definition exec (JSON_parse : string -> option value) (ops : list op)
  (this : RpcHandlerManager) : RpcHandlerManager :=
  fold_left (fun m o => post (step JSON_parse o m)) ops this.

(** The methods whose registration is in force after [ops]: those
    registered since the last [clearHandlers]. *)
Fixpoint registered_from (acc : list string) (ops : list op) : list string :=
  match ops with
  | [] => acc
  | Register method _ :: rest => registered_from (acc ++ [method]) rest
  | Clear :: rest => registered_from [] rest
  | _ :: rest => registered_from acc rest
  end.

Definition registered (ops : list op) : list string := registered_from [] ops.

End Rpc.

(** ** The backoff and lock primitives *)

Module Sync.
Section Primitives.
Context {S A : Type}.

(** Modelled from the spec: the backoff primitive of [@/utils/time], a
    generic retry-until-success executor.  It runs its callback again
    after every failure and returns the first result that is not a
    failure; there is no bound on the number of attempts.  The n-th run
    of the callback is the n-th element of [attempts] (what a run does
    depends on what the remote side answers to it); the result is [None]
    when every run listed has failed, that is, while the primitive is
    still retrying.  The delay between runs is not represented. *)
Fixpoint backoff (attempts : list (M S A)) : M S (option A) :=
  match attempts with
  | [] => ret None
  | attempt :: later =>
      try_catch (a <- attempt ;; ret (Some a)) (fun _ => backoff later)
  end.

(** Modelled from the spec: the per-document mutual-exclusion primitive
    of [@/utils/lock].  A caller runs its region once the previous
    holder has fully resolved; the calls of this model are run one after
    the other, so the region is entered at once. *)
Definition inLock (region : M S A) : M S A := region.
End Primitives.
End Sync.

(** ** The session client (ApiSessionClient) *)

Module Session.

(** A versioned document as an ['update-session'] push carries it. *)
Record Versioned : Type := {
  version : Z;
  doc : value
}.

(** [Update]: the body of a server ['update'] event, by its tag [t]. *)
Inductive UpdateBody : Type :=
| NewMessage (content : value)                  (* t = 'new-message'; body.message.content *)
| UpdateSession (metadata agentState : option Versioned)   (* t = 'update-session' *)
| UpdateMachine                                 (* t = 'update-machine' *)
| OtherBody (body : value).

Record Update : Type := {
  body : option UpdateBody
}.

(** The answer to a conditional write. *)
Record Answer : Type := {
  result : string;
  answer_version : Z;
  answer_doc : value          (* answer.metadata, answer.agentState *)
}.

(** How [socket.emitWithAck] settles: with the remote answer, or by
    rejecting. *)
Inductive Ack : Type :=
| Answered (answer : Answer)
| Rejected (e : jsError).

Record Usage : Type := {
  input_tokens : Z;
  output_tokens : Z;
  cache_creation_input_tokens : option Z;
  cache_read_input_tokens : option Z
}.

Record ApiSessionClient : Type := {
  sessionId : string;
  metadata : value;
  metadataVersion : Z;
  agentState : value;
  agentStateVersion : Z;
  socket : Socket;
  connected : bool;                       (* socket.connected *)
  pendingMessages : list value;
  pendingMessageCallback : option nat     (* the consumer, by identity *)
}.

Definition set_metadata (v : value) (c : ApiSessionClient) :=
  {| sessionId := sessionId c; metadata := v; metadataVersion := metadataVersion c;
     agentState := agentState c; agentStateVersion := agentStateVersion c;
     socket := socket c; connected := connected c;
     pendingMessages := pendingMessages c;
     pendingMessageCallback := pendingMessageCallback c |}.

Definition set_metadataVersion (n : Z) (c : ApiSessionClient) :=
  {| sessionId := sessionId c; metadata := metadata c; metadataVersion := n;
     agentState := agentState c; agentStateVersion := agentStateVersion c;
     socket := socket c; connected := connected c;
     pendingMessages := pendingMessages c;
     pendingMessageCallback := pendingMessageCallback c |}.

Definition set_agentState (v : value) (c : ApiSessionClient) :=
  {| sessionId := sessionId c; metadata := metadata c; metadataVersion := metadataVersion c;
     agentState := v; agentStateVersion := agentStateVersion c;
     socket := socket c; connected := connected c;
     pendingMessages := pendingMessages c;
     pendingMessageCallback := pendingMessageCallback c |}.

Definition set_agentStateVersion (n : Z) (c : ApiSessionClient) :=
  {| sessionId := sessionId c; metadata := metadata c; metadataVersion := metadataVersion c;
     agentState := agentState c; agentStateVersion := n;
     socket := socket c; connected := connected c;
     pendingMessages := pendingMessages c;
     pendingMessageCallback := pendingMessageCallback c |}.

Definition set_pendingMessages (l : list value) (c : ApiSessionClient) :=
  {| sessionId := sessionId c; metadata := metadata c; metadataVersion := metadataVersion c;
     agentState := agentState c; agentStateVersion := agentStateVersion c;
     socket := socket c; connected := connected c;
     pendingMessages := l;
     pendingMessageCallback := pendingMessageCallback c |}.

Definition set_pendingMessageCallback (cb : option nat) (c : ApiSessionClient) :=
  {| sessionId := sessionId c; metadata := metadata c; metadataVersion := metadataVersion c;
     agentState := agentState c; agentStateVersion := agentStateVersion c;
     socket := socket c; connected := connected c;
     pendingMessages := pendingMessages c;
     pendingMessageCallback := cb |}.

Definition set_connected (b : bool) (c : ApiSessionClient) :=
  {| sessionId := sessionId c; metadata := metadata c; metadataVersion := metadataVersion c;
     agentState := agentState c; agentStateVersion := agentStateVersion c;
     socket := socket c; connected := b;
     pendingMessages := pendingMessages c;
     pendingMessageCallback := pendingMessageCallback c |}.

Definition SyntaxError : jsError := ErrorObj "Unexpected token in JSON".

(** [new Error('Metadata version mismatch')] *)
Definition metadata_mismatch : jsError := ErrorObj "Metadata version mismatch".

(** [new Error('Agent state version mismatch')] *)
Definition agentState_mismatch : jsError := ErrorObj "Agent state version mismatch".

Definition meta_cli : string * value := ("meta", VObj [("sentFrom", VStr "cli")]).

Section WithEnvironment.
(** [JSON.parse]: the decoded value, or [None] for a [SyntaxError]. *)
Variable JSON_parse : string -> option value.
(** [UserMessageSchema.safeParse] of [./types]: the validated message,
    or [None] when the schema does not match. *)
Variable safeParse : value -> option value.
(** What calling a user-message callback does: the consumer of the given
    identity, handed a message, returns or throws.  A consumer does not
    call back into the client. *)
Variable consumers : nat -> value -> outcome unit.

Definition parse (s : string) : M ApiSessionClient value :=
  match JSON_parse s with
  | Some v => ret v
  | None => throw SyntaxError
  end.

(** [typeof v === 'string' ? JSON.parse(v) : v] *)
Definition decode_metadata (v : value) : M ApiSessionClient value :=
  match v with
  | VStr s => parse s
  | _ => ret v
  end.

(** [v ? (typeof v === 'string' ? JSON.parse(v) : v) : null] *)
Definition decode_agentState (v : value) : M ApiSessionClient value :=
  if JS.truthy v then decode_metadata v else ret VNull.

(** *** socket.on('update') *)

(** [callback(data)]: the call is recorded, and what the consumer throws
    is thrown by the call. *)
Definition deliver (callback : nat) (data : value) : M ApiSessionClient unit :=
  tell (Deliver callback data) ;;
  lift (consumers callback data).

(** From [UserMessageSchema.safeParse(body)] on. *)
Definition route (body : value) : M ApiSessionClient unit :=
  log "[SOCKET] [UPDATE] Received message:" ;;
  match safeParse body with
  | Some data =>
      this <- get ;;
      match pendingMessageCallback this with
      | Some callback => deliver callback data
      | None => modify (set_pendingMessages (pendingMessages this ++ [data]))
      end
  | None => tell (EmitLocal "message" body)
  end.

Definition on_new_message (content : value) : M ApiSessionClient unit :=
  t <- lift (JS.prop "t" content) ;;
  if JS.is_str "encrypted" t then
    match JSON_parse (JS.ToString (JS.get "c" content)) with
    | Some body =>
        log "[SOCKET] [UPDATE] Parsed message from encrypted wrapper" ;;
        route body
    | None =>
        log "[SOCKET] [UPDATE] Failed to parse encrypted message content - skipping"
    end
  else route content.

Definition push_metadata (pushed : option Versioned) : M ApiSessionClient unit :=
  this <- get ;;
  match pushed with
  | Some m =>
      if (version m >? metadataVersion this)%Z then
        try_catch
          (v <- decode_metadata (doc m) ;;
           modify (set_metadata v) ;;
           modify (set_metadataVersion (version m)))
          (fun _ => log "[SOCKET] Failed to parse metadata")
      else ret tt
  | None => ret tt
  end.

Definition push_agentState (pushed : option Versioned) : M ApiSessionClient unit :=
  this <- get ;;
  match pushed with
  | Some a =>
      if (version a >? agentStateVersion this)%Z then
        try_catch
          (v <- decode_agentState (doc a) ;;
           modify (set_agentState v) ;;
           modify (set_agentStateVersion (version a)))
          (fun _ => log "[SOCKET] Failed to parse agentState")
      else ret tt
  | None => ret tt
  end.

Definition on_update (data : Update) : M ApiSessionClient unit :=
  try_catch
    (log "[SOCKET] [UPDATE] Received update:" ;;
     match body data with
     | None => log "[SOCKET] [UPDATE] [ERROR] No body in update!"
     | Some (NewMessage content) => on_new_message content
     | Some (UpdateSession pushed_metadata pushed_agentState) =>
         push_metadata pushed_metadata ;;
         push_agentState pushed_agentState
     | Some UpdateMachine =>
         log "[SOCKET] WARNING: Session client received unexpected machine update - ignoring"
     | Some (OtherBody b) => tell (EmitLocal "message" b)
     end)
    (fun _ => log "[SOCKET] [UPDATE] [ERROR] Error handling update").

(** *** onUserMessage *)

(** [while (this.pendingMessages.length > 0) callback(this.pendingMessages.shift()!)];
    the consumer does not call back into the client, so the loop runs at
    most once per message buffered when it starts.  There is no [try]
    around the call: when the consumer throws, the loop ends there, with
    the message it was handed already taken from the buffer and the later
    ones still in it. *)
Fixpoint drain (fuel : nat) (callback : nat) : M ApiSessionClient unit :=
  match fuel with
  | O => ret tt
  | Datatypes.S fuel' =>
      this <- get ;;
      match pendingMessages this with
      | [] => ret tt
      | first :: rest =>
          modify (set_pendingMessages rest) ;;
          deliver callback first ;;
          drain fuel' callback
      end
  end.

Definition onUserMessage (callback : nat) : M ApiSessionClient unit :=
  modify (set_pendingMessageCallback (Some callback)) ;;
  this <- get ;;
  drain (List.length (pendingMessages this)) callback.

(** *** Conditional writes *)

Definition update_metadata_request (this : ApiSessionClient) (updated : value) : value :=
  VObj [("sid", VStr (sessionId this));
        ("expectedVersion", VNum (metadataVersion this));
        ("metadata", JSON.stringify_value updated)].

(** The attempt up to its [await]: the mutator is applied to the local
    document and the conditional write is sent. *)
Definition metadata_send (handler : value -> value) : M ApiSessionClient unit :=
  this <- get ;;
  let updated := handler (metadata this) in
  tell (SocketEmitWithAck (socket this) "update-metadata"
          (update_metadata_request this updated)).

(** The attempt from its [await] on, once the acknowledgement is in. *)
Definition metadata_receive (ack : Ack) : M ApiSessionClient unit :=
  match ack with
  | Rejected e => throw e
  | Answered answer =>
      if String.eqb (result answer) "success" then
        v <- decode_metadata (answer_doc answer) ;;
        modify (set_metadata v) ;;
        modify (set_metadataVersion (answer_version answer))
      else if String.eqb (result answer) "version-mismatch" then
        this <- get ;;
        (if (answer_version answer >? metadataVersion this)%Z then
           modify (set_metadataVersion (answer_version answer)) ;;
           v <- decode_metadata (answer_doc answer) ;;
           modify (set_metadata v)
         else ret tt) ;;
        throw metadata_mismatch
      else ret tt
  end.

Definition metadata_attempt (handler : value -> value) (ack : Ack)
  : M ApiSessionClient unit :=
  metadata_send handler ;; metadata_receive ack.

(** [updateMetadata(handler)]; [acks] is how the successive conditional
    writes of the call are acknowledged. *)
Definition updateMetadata (handler : value -> value) (acks : list Ack)
  : M ApiSessionClient unit :=
  _ <- Sync.inLock (Sync.backoff (map (metadata_attempt handler) acks)) ;;
  ret tt.

Definition update_state_request (this : ApiSessionClient) (updated : value) : value :=
  VObj [("sid", VStr (sessionId this));
        ("expectedVersion", VNum (agentStateVersion this));
        ("agentState",
         if JS.truthy updated then JSON.stringify_value updated else VNull)].

Definition agentState_send (handler : value -> value) : M ApiSessionClient unit :=
  this <- get ;;
  let updated :=
    handler (if JS.truthy (agentState this) then agentState this else VObj []) in
  tell (SocketEmitWithAck (socket this) "update-state"
          (update_state_request this updated)).

Definition agentState_receive (ack : Ack) : M ApiSessionClient unit :=
  match ack with
  | Rejected e => throw e
  | Answered answer =>
      if String.eqb (result answer) "success" then
        v <- decode_agentState (answer_doc answer) ;;
        modify (set_agentState v) ;;
        modify (set_agentStateVersion (answer_version answer)) ;;
        log "Agent state updated"
      else if String.eqb (result answer) "version-mismatch" then
        this <- get ;;
        (if (answer_version answer >? agentStateVersion this)%Z then
           modify (set_agentStateVersion (answer_version answer)) ;;
           v <- decode_agentState (answer_doc answer) ;;
           modify (set_agentState v)
         else ret tt) ;;
        throw agentState_mismatch
      else ret tt
  end.

Definition agentState_attempt (handler : value -> value) (ack : Ack)
  : M ApiSessionClient unit :=
  agentState_send handler ;; agentState_receive ack.

Definition updateAgentState (handler : value -> value) (acks : list Ack)
  : M ApiSessionClient unit :=
  log "Updating agent state" ;;
  _ <- Sync.inLock (Sync.backoff (map (agentState_attempt handler) acks)) ;;
  ret tt.

(** *** Outbound sends *)

Definition message_packet (this : ApiSessionClient) (content : value) : value :=
  VObj [("sid", VStr (sessionId this)); ("message", JSON.stringify_value content)].

Definition or_zero (n : option Z) : Z :=
  match n with
  | Some k => k
  | None => 0%Z
  end.

Definition sendUsageData (usage : Usage) : M ApiSessionClient unit :=
  this <- get ;;
  let totalTokens :=
    (input_tokens usage + output_tokens usage
     + or_zero (cache_creation_input_tokens usage)
     + or_zero (cache_read_input_tokens usage))%Z in
  let usageReport :=
    VObj [("key", VStr "claude-session");
          ("sessionId", VStr (sessionId this));
          ("tokens",
           VObj [("total", VNum totalTokens);
                 ("input", VNum (input_tokens usage));
                 ("output", VNum (output_tokens usage));
                 ("cache_creation", VNum (or_zero (cache_creation_input_tokens usage)));
                 ("cache_read", VNum (or_zero (cache_read_input_tokens usage)))]);
          ("cost",
           VObj [("total", VNum 0); ("input", VNum 0); ("output", VNum 0)])] in
  log "[SOCKET] Sending usage data:" ;;
  tell (SocketEmit (socket this) "usage-report" usageReport).

(** [body.message.usage] read at its declared type [Usage]. *)
Definition as_usage (v : value) : Usage :=
  let num x := match x with VNum n => n | _ => 0%Z end in
  let opt x := match x with VNum n => Some n | _ => None end in
  {| input_tokens := num (JS.get "input_tokens" v);
     output_tokens := num (JS.get "output_tokens" v);
     cache_creation_input_tokens := opt (JS.get "cache_creation_input_tokens" v);
     cache_read_input_tokens := opt (JS.get "cache_read_input_tokens" v) |}.

(** [v === true] *)
Definition is_true (v : value) : bool :=
  match v with VBool true => true | _ => false end.

(** The [content] that [sendClaudeSessionMessage] builds first; reading
    [body.type] and, for a user message, [body.message.content] throws when
    [body], respectively [body.message], is [null] or [undefined]. *)
Definition claude_content (body : value) : M ApiSessionClient value :=
  type <- lift (JS.prop "type" body) ;;
  text <- (if JS.is_str "user" type
           then lift (JS.prop "content" (JS.get "message" body))
           else ret VUndefined) ;;
  if JS.is_str "user" type
     && JS.is_string text
     && negb (is_true (JS.get "isSidechain" body))
     && negb (is_true (JS.get "isMeta" body))
  then
    ret (VObj [("role", VStr "user");
               ("content", VObj [("type", VStr "text"); ("text", text)]);
               meta_cli])
  else
    ret (VObj [("role", VStr "agent");
               ("content", VObj [("type", VStr "output"); ("data", body)]);
               meta_cli]).

(** [sendClaudeSessionMessage(body)]; [now] is the clock reading of the
    summary mutator and [acks] the acknowledgements of the metadata
    write a summary message starts. *)
Definition sendClaudeSessionMessage (body : value) (now : Z) (acks : list Ack)
  : M ApiSessionClient unit :=
  content <- claude_content body ;;
  log "[SOCKET] Sending message through socket:" ;;
  this <- get ;;
  if negb (connected this) then
    log "[API] Socket not connected, cannot send Claude session message. Message will be lost:"
  else
    tell (SocketEmit (socket this) "message" (message_packet this content)) ;;
    (if JS.is_str "assistant" (JS.get "type" body) && JS.truthy (JS.get "usage" (JS.get "message" body))
     then
       try_catch
         (sendUsageData (as_usage (JS.get "usage" (JS.get "message" body))))
         (fun _ => log "[SOCKET] Failed to send usage data:")
     else ret tt) ;;
    (if JS.is_str "summary" (JS.get "type" body) && JS.has "summary" body && JS.has "leafUuid" body
     then
       updateMetadata
         (fun metadata =>
            JS.spread_with metadata "summary"
              (VObj [("text", JS.get "summary" body); ("updatedAt", VNum now)]))
         acks
     else ret tt).

Definition sendCodexMessage (body : value) : M ApiSessionClient unit :=
  let content :=
    VObj [("role", VStr "agent");
          ("content", VObj [("type", VStr "codex"); ("data", body)]);
          meta_cli] in
  this <- get ;;
  if negb (connected this) then
    log "[API] Socket not connected, cannot send message."
  else
    tell (SocketEmit (socket this) "message" (message_packet this content)).

(** [sendAgentMessage(provider, body)]; the arguments of its logger call
    read [body.type] and ['message' in body]. *)
Definition sendAgentMessage (provider : string) (body : value)
  : M ApiSessionClient unit :=
  let content :=
    VObj [("role", VStr "agent");
          ("content",
           VObj [("type", VStr "acp"); ("provider", VStr provider); ("data", body)]);
          meta_cli] in
  _ <- lift (JS.prop "type" body) ;;
  _ <- lift (JS.has_in "message" body) ;;
  log ("[SOCKET] Sending ACP message from " ++ provider ++ ":") ;;
  this <- get ;;
  tell (SocketEmit (socket this) "message" (message_packet this content)).

(** [keepAlive(thinking, mode)]; [debug] is whether [process.env.DEBUG]
    is set and [now] the clock reading. *)
Definition keepAlive (thinking : bool) (mode : string) (debug : bool) (now : Z)
  : M ApiSessionClient unit :=
  (if debug
   then log ("[API] Sending keep alive message: " ++ (if thinking then "true" else "false"))
   else ret tt) ;;
  this <- get ;;
  tell (SocketVolatileEmit (socket this) "session-alive"
          (VObj [("sid", VStr (sessionId this));
                 ("time", VNum now);
                 ("thinking", VBool thinking);
                 ("mode", VStr mode)])).

(** *** Runs *)

(** What can happen to a client between two of its own calls: an update
    arrives, or the acknowledgement of a pending conditional write is
    processed. *)
Inductive op : Type :=
| Arrive (data : Update)
| MetadataAck (ack : Ack)
| AgentStateAck (ack : Ack).

Definition step (o : op) : M ApiSessionClient unit :=
  match o with
  | Arrive data => on_update data
  | MetadataAck ack => metadata_receive ack
  | AgentStateAck ack => agentState_receive ack
  end.

Definition exec (ops : list op) (this : ApiSessionClient) : ApiSessionClient :=
  fold_left (fun c o => post (step o c)) ops this.
End WithEnvironment.
End Session.

(** ** A reference JSON.parse

    The properties below hold for every behaviour of [JSON.parse]; concrete
    scenarios are run with this reader of the integer-only fragment of JSON
    (no fractions, exponents or [\u] escapes, which make it fail). *)

Module Reader.

Definition is_ws (c : ascii) : bool :=
  let n := nat_of_ascii c in
  Nat.eqb n 32 || Nat.eqb n 9 || Nat.eqb n 10 || Nat.eqb n 13.

Fixpoint skip_ws (cs : list ascii) : list ascii :=
  match cs with
  | c :: rest => if is_ws c then skip_ws rest else cs
  | [] => []
  end.

Definition digit (c : ascii) : option Z :=
  let n := nat_of_ascii c in
  if Nat.leb 48 n && Nat.leb n 57 then Some (Z.of_nat (n - 48)) else None.

Fixpoint digits (acc : Z) (cs : list ascii) : Z * list ascii :=
  match cs with
  | c :: rest =>
      match digit c with
      | Some d => digits (10 * acc + d) rest
      | None => (acc, cs)
      end
  | [] => (acc, [])
  end.

(** A number that continues with a fraction or an exponent is outside the
    fragment. *)
Definition ends_number (cs : list ascii) : bool :=
  match cs with
  | c :: _ =>
      let n := nat_of_ascii c in
      negb (Nat.eqb n 46 || Nat.eqb n 101 || Nat.eqb n 69)
  | [] => true
  end.

Definition natural (cs : list ascii) : option (Z * list ascii) :=
  match cs with
  | c :: rest =>
      match digit c with
      | Some 0%Z =>
          match rest with
          | c' :: _ => match digit c' with
                       | Some _ => None
                       | None => if ends_number rest then Some (0%Z, rest) else None
                       end
          | [] => Some (0%Z, [])
          end
      | Some d =>
          let '(n, rest') := digits d rest in
          if ends_number rest' then Some (n, rest') else None
      | None => None
      end
  | [] => None
  end.

Definition unescape (c : ascii) : option ascii :=
  let n := nat_of_ascii c in
  if Nat.eqb n 34 || Nat.eqb n 92 || Nat.eqb n 47 then Some c
  else if Nat.eqb n 98 then Some (ascii_of_nat 8)
  else if Nat.eqb n 102 then Some (ascii_of_nat 12)
  else if Nat.eqb n 110 then Some (ascii_of_nat 10)
  else if Nat.eqb n 114 then Some (ascii_of_nat 13)
  else if Nat.eqb n 116 then Some (ascii_of_nat 9)
  else None.

(** The rest of a string literal, after its opening quote. *)
Fixpoint text (cs : list ascii) : option (string * list ascii) :=
  match cs with
  | [] => None
  | c :: rest =>
      let n := nat_of_ascii c in
      if Nat.eqb n 34 then Some ("", rest)
      else if Nat.eqb n 92 then
        match rest with
        | e :: rest' =>
            match unescape e, text rest' with
            | Some c', Some (s, out) => Some (String c' s, out)
            | _, _ => None
            end
        | [] => None
        end
      else if Nat.ltb n 32 then None
      else match text rest with
           | Some (s, out) => Some (String c s, out)
           | None => None
           end
  end.

Definition starts (word : string) (cs : list ascii) : option (list ascii) :=
  let w := list_ascii_of_string word in
  if String.eqb (string_of_list_ascii (firstn (List.length w) cs)) word
  then Some (skipn (List.length w) cs)
  else None.

Fixpoint element (fuel : nat) (cs : list ascii) {struct fuel}
  : option (value * list ascii) :=
  match fuel with
  | O => None
  | S fuel' =>
      match skip_ws cs with
      | [] => None
      | c :: rest =>
          let n := nat_of_ascii c in
          if Nat.eqb n 34 then
            match text rest with
            | Some (s, out) => Some (VStr s, out)
            | None => None
            end
          else if Nat.eqb n 91 then
            match skip_ws rest with
            | c' :: out =>
                if Nat.eqb (nat_of_ascii c') 93 then Some (VArr [], out)
                else items fuel' [] rest
            | [] => None
            end
          else if Nat.eqb n 123 then
            match skip_ws rest with
            | c' :: out =>
                if Nat.eqb (nat_of_ascii c') 125 then Some (VObj [], out)
                else members fuel' [] rest
            | [] => None
            end
          else if Nat.eqb n 45 then
            match natural rest with
            | Some (k, out) => Some (VNum (- k), out)
            | None => None
            end
          else if Nat.eqb n 110 then
            match starts "null" (c :: rest) with
            | Some out => Some (VNull, out)
            | None => None
            end
          else if Nat.eqb n 116 then
            match starts "true" (c :: rest) with
            | Some out => Some (VBool true, out)
            | None => None
            end
          else if Nat.eqb n 102 then
            match starts "false" (c :: rest) with
            | Some out => Some (VBool false, out)
            | None => None
            end
          else
            match natural (c :: rest) with
            | Some (k, out) => Some (VNum k, out)
            | None => None
            end
      end
  end
with items (fuel : nat) (acc : list value) (cs : list ascii) {struct fuel}
  : option (value * list ascii) :=
  match fuel with
  | O => None
  | S fuel' =>
      match element fuel' cs with
      | Some (v, out) =>
          match skip_ws out with
          | c :: out' =>
              if Nat.eqb (nat_of_ascii c) 44 then items fuel' (acc ++ [v]) out'
              else if Nat.eqb (nat_of_ascii c) 93 then Some (VArr (acc ++ [v]), out')
              else None
          | [] => None
          end
      | None => None
      end
  end
with members (fuel : nat) (acc : list (string * value)) (cs : list ascii) {struct fuel}
  : option (value * list ascii) :=
  match fuel with
  | O => None
  | S fuel' =>
      match skip_ws cs with
      | q :: rest =>
          if Nat.eqb (nat_of_ascii q) 34 then
            match text rest with
            | Some (k, out) =>
                match skip_ws out with
                | colon :: out' =>
                    if Nat.eqb (nat_of_ascii colon) 58 then
                      match element fuel' out' with
                      | Some (v, out'') =>
                          match skip_ws out'' with
                          | c :: more =>
                              if Nat.eqb (nat_of_ascii c) 44
                              then members fuel' (Assoc.set k v acc) more
                              else if Nat.eqb (nat_of_ascii c) 125
                              then Some (VObj (Assoc.set k v acc), more)
                              else None
                          | [] => None
                          end
                      | None => None
                      end
                    else None
                | [] => None
                end
            | None => None
            end
          else None
      | [] => None
      end
  end.

Definition parse (s : string) : option value :=
  let cs := list_ascii_of_string s in
  match element (2 * List.length cs + 2) cs with
  | Some (v, out) =>
      match skip_ws out with
      | [] => Some v
      | _ :: _ => None
      end
  | None => None
  end.

End Reader.

(** ** Observations on event lists and pushes *)

Module Obs.

Definition is_log (e : event) : bool :=
  match e with Log _ => true | _ => false end.

(** The events other than logger calls. *)
Definition effects (es : list event) : list event :=
  filter (fun e => negb (is_log e)) es.

(** The calls of the user-message consumer, in order. *)
Fixpoint deliveries (es : list event) : list (nat * value) :=
  match es with
  | [] => []
  | Deliver consumer message :: rest => (consumer, message) :: deliveries rest
  | _ :: rest => deliveries rest
  end.

(** The calls of RPC handlers, in order. *)
Fixpoint invocations (es : list event) : list (string * value) :=
  match es with
  | [] => []
  | Invoke method arg :: rest => (method, arg) :: invocations rest
  | _ :: rest => invocations rest
  end.

(** A string delimited by double quotes, nothing escaped. *)
Definition q (s : string) : string := String JSON.dquote (s ++ String JSON.dquote "").

(** The structured error payload [{error: message}] as a JSON string. *)
Definition error_payload (message : string) : string :=
  "{" ++ q "error" ++ ":" ++ JSON.quote message ++ "}".

(** What the caller of an RPC gets for an outcome of the handler: the
    serialized result, or a structured error payload. *)
Definition reply_of (o : outcome value) : string :=
  match o with
  | Ret v =>
      match JSON.stringify v with
      | Some response => response
      | None => error_payload "Cannot read properties of undefined (reading 'length')"
      end
  | Throw (ErrorObj message) => error_payload message
  | Throw (NonError _) => error_payload "Unknown error"
  end.

(** What a run keeps true of the handler map of a manager: its keys are
    distinct, and they are the prefixed names of the methods in force. *)
Definition tracks (this : Rpc.RpcHandlerManager) (methods : list string) : Prop :=
  NoDup (Assoc.keys (Rpc.handlers this))
  /\ forall k, In k (Assoc.keys (Rpc.handlers this)) <->
               exists method, In method methods
                              /\ k = Rpc.getPrefixedMethod (Rpc.scopePrefix this) method.

Section WithEnvironment.
Variable JSON_parse : string -> option value.
Variable safeParse : value -> option value.
Variable consumers : nat -> value -> outcome unit.

(** The document a wire value stands for: [typeof v === 'string' ?
    JSON.parse(v) : v], [None] when the parse throws. *)
Definition decoded_metadata (v : value) : option value :=
  match v with
  | VStr s => JSON_parse s
  | _ => Some v
  end.

Definition decoded_agentState (v : value) : option value :=
  if JS.truthy v then decoded_metadata v else Some VNull.

(** The events of a run, step by step. *)
Fixpoint trace (ops : list Session.op) (this : Session.ApiSessionClient) : list event :=
  match ops with
  | [] => []
  | o :: rest =>
      let r := Session.step JSON_parse safeParse consumers o this in
      evs r ++ trace rest (post r)
  end.

(** The versions an operation carries from the remote side, per
    document. *)
Definition carried_metadataVersion (o : Session.op) : list Z :=
  match o with
  | Session.Arrive {| Session.body := Some (Session.UpdateSession (Some m) _) |} =>
      [Session.version m]
  | Session.MetadataAck (Session.Answered a) => [Session.answer_version a]
  | _ => []
  end.

Definition carried_agentStateVersion (o : Session.op) : list Z :=
  match o with
  | Session.Arrive {| Session.body := Some (Session.UpdateSession _ (Some a)) |} =>
      [Session.version a]
  | Session.AgentStateAck (Session.Answered a) => [Session.answer_version a]
  | _ => []
  end.

(** A success answer confirms forward when the version it carries is not
    below the local one at the time it is processed. *)
Definition confirms_forward (o : Session.op) (this : Session.ApiSessionClient) : Prop :=
  match o with
  | Session.MetadataAck (Session.Answered a) =>
      Session.result a = "success" ->
      (Session.metadataVersion this <= Session.answer_version a)%Z
  | Session.AgentStateAck (Session.Answered a) =>
      Session.result a = "success" ->
      (Session.agentStateVersion this <= Session.answer_version a)%Z
  | _ => True
  end.

Fixpoint all_confirm_forward (ops : list Session.op) (this : Session.ApiSessionClient)
  : Prop :=
  match ops with
  | [] => True
  | o :: rest =>
      confirms_forward o this
      /\ all_confirm_forward rest (post (Session.step JSON_parse safeParse consumers o this))
  end.

(** The user message a ['new-message'] update carries, if it carries
    one: the content (not [null]), unwrapped when it is the legacy wrapper,
    has to match the user-message schema. *)
Definition user_message_of (data : Session.Update) : option value :=
  match Session.body data with
  | Some (Session.NewMessage content) =>
      if JS.nullish content then None
      else if JS.is_str "encrypted" (JS.get "t" content) then
        match JSON_parse (JS.ToString (JS.get "c" content)) with
        | Some payload => safeParse payload
        | None => None
        end
      else safeParse content
  | _ => None
  end.
End WithEnvironment.
End Obs.

(** ** Concrete inputs *)

Module Samples.
Import Obs.

(** A user-message schema: role [user], content [{type:'text', text}]
    with a string text. *)
Definition user_text_schema (v : value) : option value :=
  if JS.is_str "user" (JS.get "role" v)
     && JS.is_str "text" (JS.get "type" (JS.get "content" v))
     && JS.is_string (JS.get "text" (JS.get "content" v))
  then Some v
  else None.

Definition user_text (text : string) : value :=
  VObj [("role", VStr "user");
        ("content", VObj [("type", VStr "text"); ("text", VStr text)])].

Definition wrapper (c : string) : value :=
  VObj [("t", VStr "encrypted"); ("c", VStr c)].

Definition new_message (content : value) : Session.Update :=
  {| Session.body := Some (Session.NewMessage content) |}.

Definition push (m a : option Session.Versioned) : Session.Update :=
  {| Session.body := Some (Session.UpdateSession m a) |}.

(** A session client at metadata version 5 and agent-state version 5,
    with no consumer attached. *)
Definition client (is_connected : bool) : Session.ApiSessionClient :=
  {| Session.sessionId := "s1";
     Session.metadata := VObj [("path", VStr "/work")];
     Session.metadataVersion := 5;
     Session.agentState := VNull;
     Session.agentStateVersion := 5;
     Session.socket := 0;
     Session.connected := is_connected;
     Session.pendingMessages := [];
     Session.pendingMessageCallback := None |}.

Definition answer (result : string) (version : Z) (doc : value) : Session.Ack :=
  Session.Answered
    {| Session.result := result;
       Session.answer_version := version;
       Session.answer_doc := doc |}.

(** [m => ({...m, summary: 'x'})] *)
Definition set_summary (m : value) : value := JS.spread_with m "summary" (VStr "x").

Definition config : Rpc.RpcHandlerConfig := {| Rpc.cfg_scopePrefix := "s1" |}.

Definition echo : Rpc.RpcHandler := fun v => Ret v.
Definition failing : Rpc.RpcHandler := fun _ => Throw (ErrorObj "boom").
Definition rejecting : Rpc.RpcHandler := fun _ => Throw (NonError (VStr "boom")).

Definition manager : Rpc.RpcHandlerManager :=
  Rpc.exec Reader.parse
    [Rpc.Register "echo" echo; Rpc.Connect 0; Rpc.Register "fail" failing;
     Rpc.Register "reject" rejecting]
    (Rpc.new config).

Definition request (method params : string) : Rpc.RpcRequest :=
  {| Rpc.method := method; Rpc.params := params |}.

(** Scenario A: the metadata the remote side holds at version 7, the
    version-mismatch answer that carries it, and the success answer that
    echoes the second write at version 8. *)
Definition base7 : value := VObj [("path", VStr "/work"); ("title", VStr "t")].

Definition mismatch7 : Session.Answer :=
  {| Session.result := "version-mismatch";
     Session.answer_version := 7;
     Session.answer_doc := JSON.stringify_value base7 |}.

(** A mismatch of version 7 whose value is a string that is not JSON. *)
Definition garbled7 : Session.Answer :=
  {| Session.result := "version-mismatch";
     Session.answer_version := 7;
     Session.answer_doc := VStr "{oops" |}.

Definition success8 : Session.Ack :=
  answer "success" 8 (JSON.stringify_value (set_summary base7)).

(** Three methods, one of them registered twice, around a first connect. *)
Definition three_registrations : list Rpc.op :=
  [Rpc.Register "echo" echo; Rpc.Connect 0; Rpc.Register "fail" failing;
   Rpc.Register "echo" echo; Rpc.Register "reject" rejecting].

(** Consumers: [attentive] ones return whatever they are handed;
    [fragile] ones throw on the message 'two'. *)
Definition attentive (consumer : nat) (message : value) : outcome unit := Ret tt.

Definition fragile (consumer : nat) (message : value) : outcome unit :=
  if JS.is_str "two" (JS.get "text" (JS.get "content" message))
  then Throw (ErrorObj "cannot handle 'two'")
  else Ret tt.

Definition m1 : value := user_text "one".
Definition m2 : value := user_text "two".
Definition m3 : value := user_text "three".
Definition m4 : value := user_text "four".

(** [m1] arrives in the legacy wrapper, [m2] and [m3] plain, all before a
    consumer is attached; [m4] arrives afterwards. *)
Definition early : list Session.Update :=
  [new_message (wrapper (JSON.stringify_object
                           [("role", VStr "user");
                            ("content", VObj [("type", VStr "text"); ("text", VStr "one")])]));
   new_message m2; new_message m3].

(** Two pushed documents of version 7: one whose value is a string that is
    not JSON, one whose value is an object. *)
Definition unparsable7 : Session.Versioned :=
  {| Session.version := 7; Session.doc := VStr "{oops" |}.

Definition object7 : Session.Versioned :=
  {| Session.version := 7; Session.doc := VObj [("state", VStr "idle")] |}.

(** The payload [{role:'user', content:'hi'}] of Scenario C, and its JSON
    text. *)
Definition hi : value := VObj [("role", VStr "user"); ("content", VStr "hi")].

Definition hi_text : string :=
  JSON.stringify_object [("role", VStr "user"); ("content", VStr "hi")].

(** A wrapper around the JSON text of the user message [m1], and the JSON
    text of that wrapper. *)
Definition inner_wrapper : value :=
  wrapper (JSON.stringify_object
             [("role", VStr "user");
              ("content", VObj [("type", VStr "text"); ("text", VStr "one")])]).

Definition inner_wrapper_text : string :=
  match JSON.stringify inner_wrapper with
  | Some s => s
  | None => ""
  end.

(** An assistant message with usage figures, an ACP message body and a
    usage record. *)
Definition assistant_message : value :=
  VObj [("type", VStr "assistant");
        ("message", VObj [("usage", VObj [("input_tokens", VNum 1);
                                          ("output_tokens", VNum 2)])])].


Definition acp_message : value := VObj [("type", VStr "message"); ("message", VStr "hi")].

Definition usage : Session.Usage :=
  {| Session.input_tokens := 10;
     Session.output_tokens := 20;
     Session.cache_creation_input_tokens := None;
     Session.cache_read_input_tokens := Some 5%Z |}.
End Samples.

(** ** Sessions and machines as the server describes them

    The object literals that [getOrCreateSession] and [getOrCreateMachine]
    build, field by field.  The fields are copied from the response unread,
    so each of them is a JavaScript value. *)

Module Types.

Record Session : Type := {
  id : value;
  seq : value;
  metadata : value;
  metadataVersion : value;
  agentState : value;
  agentStateVersion : value
}.

Record Machine : Type := {
  machine_id : value;
  machine_metadata : value;
  machine_metadataVersion : value;
  daemonState : value;
  daemonStateVersion : value
}.

End Types.

(** ** The session client, continued: construction, socket events and
    the remaining sends *)

Module Lifecycle.

(** A field of declared type [string], respectively [number], read at
    that type. *)
Definition as_string (v : value) : string :=
  match v with VStr s => s | _ => "" end.

Definition as_number (v : value) : Z :=
  match v with VNum n => n | _ => 0%Z end.

(** [sendSessionEvent(event, id?)]; [id] is [undefined] when the argument
    is left out and [uuid] is what [randomUUID()] returns. *)
Definition sendSessionEvent (event id : value) (uuid : string)
  : M Session.ApiSessionClient unit :=
  let content :=
    VObj [("role", VStr "agent");
          ("content",
           VObj [("id", if JS.nullish id then VStr uuid else id);
                 ("type", VStr "event");
                 ("data", event)])] in
  this <- get ;;
  tell (SocketEmit (Session.socket this) "message" (Session.message_packet this content)).

(** [sendSessionDeath()]; [now] is the clock reading. *)
Definition sendSessionDeath (now : Z) : M Session.ApiSessionClient unit :=
  this <- get ;;
  tell (SocketEmit (Session.socket this) "session-end"
          (VObj [("sid", VStr (Session.sessionId this)); ("time", VNum now)])).

(** [flush()]: nothing when the socket is not connected; otherwise a
    ['ping'] that asks for an acknowledgement.  The promise resolves when
    the acknowledgement arrives or after ten seconds, whichever is first,
    and never rejects; the wait is not represented. *)
Definition flush : M Session.ApiSessionClient unit :=
  this <- get ;;
  if negb (Session.connected this) then ret tt
  else tell (SocketEmitWithAck (Session.socket this) "ping" VUndefined).

(** The client as a whole: the [ApiSessionClient] fields and its
    [rpcHandlerManager]. *)
Record Client : Type := {
  session : Session.ApiSessionClient;
  rpcHandlerManager : Rpc.RpcHandlerManager
}.

(** A method of one of the two parts, run on the whole. *)
Definition on_session {A} (m : M Session.ApiSessionClient A) : M Client A :=
  fun this =>
    let r := m (session this) in
    Res (out r) {| session := post r; rpcHandlerManager := rpcHandlerManager this |} (evs r).

Definition on_manager {A} (m : M Rpc.RpcHandlerManager A) : M Client A :=
  fun this =>
    let r := m (rpcHandlerManager this) in
    Res (out r) {| session := session this; rpcHandlerManager := post r |} (evs r).

Fixpoint register_all (handlers : list (string * Rpc.RpcHandler))
  : M Rpc.RpcHandlerManager unit :=
  match handlers with
  | [] => ret tt
  | (method, handler) :: rest =>
      Rpc.registerHandler method handler ;; register_all rest
  end.

(** The events of the socket the constructor subscribes to. *)
Inductive SocketEvent : Type :=
| OnConnect
| OnRpcRequest (data : Rpc.RpcRequest)
| OnDisconnect
| OnConnectError
| OnUpdate (data : Session.Update)
| OnError.

Section WithEnvironment.
Variable JSON_parse : string -> option value.
Variable safeParse : value -> option value.
Variable consumers : nat -> value -> outcome unit.
(** [registerCommonHandlers] of [../modules/common]: the methods it
    registers on the manager for a working directory, with their
    handlers. *)
Variable commonHandlers : value -> list (string * Rpc.RpcHandler).

(** [new ApiSessionClient(token, session)] as a run: how it ends, and
    what it does on the way, which is what [registerCommonHandlers] does on
    the new manager.  [sock] is the socket [io] creates.  Reading
    [this.metadata.path] throws when the metadata of the session is
    [null].  The socket is created with [autoConnect: false] and asked to
    connect at the end, so it is not connected yet when the constructor
    returns. *)
Definition construction (token : string) (session : Types.Session) (sock : Socket)
  : res unit Client :=
  let this :=
    {| Session.sessionId := as_string (Types.id session);
       Session.metadata := Types.metadata session;
       Session.metadataVersion := as_number (Types.metadataVersion session);
       Session.agentState := Types.agentState session;
       Session.agentStateVersion := as_number (Types.agentStateVersion session);
       Session.socket := sock;
       Session.connected := false;
       Session.pendingMessages := [];
       Session.pendingMessageCallback := None |} in
  let manager := Rpc.new {| Rpc.cfg_scopePrefix := Session.sessionId this |} in
  match JS.prop "path" (Session.metadata this) with
  | Throw e => Res (Throw e) tt []
  | Ret path =>
      let registered := register_all (commonHandlers path) manager in
      Res (Ret {| session := this; rpcHandlerManager := post registered |}) tt
        (evs registered)
  end.

(** The client the constructor returns, or what it throws. *)
Definition constructor (token : string) (session : Types.Session) (sock : Socket)
  : outcome Client :=
  out (construction token session sock).

(** What the handler subscribed to an event does; the result is the
    argument the ['rpc-request'] callback is called with.
    [socket.connected] is kept by the socket itself: no handler writes
    it. *)
Definition on (ev : SocketEvent) : M Client (option string) :=
  match ev with
  | OnConnect =>
      log "Socket connected successfully" ;;
      this <- get ;;
      on_manager (Rpc.onSocketConnect (Session.socket (session this))) ;;
      ret None
  | OnRpcRequest data =>
      response <- on_manager (Rpc.handleRequest JSON_parse data) ;;
      ret (Some response)
  | OnDisconnect =>
      log "[API] Socket disconnected:" ;;
      on_manager Rpc.onSocketDisconnect ;;
      ret None
  | OnConnectError =>
      log "[API] Socket connection error:" ;;
      on_manager Rpc.onSocketDisconnect ;;
      ret None
  | OnUpdate data =>
      on_session (Session.on_update JSON_parse safeParse consumers data) ;;
      ret None
  | OnError =>
      log "[API] Socket error:" ;;
      ret None
  end.

(** What happens to a client between construction and disposal: a socket
    event, or a call of [rpcHandlerManager.registerHandler] by its owner. *)
Inductive op : Type :=
| Event (ev : SocketEvent)
| RegisterHandler (method : string) (handler : Rpc.RpcHandler).

Definition step (o : op) : M Client (option string) :=
  match o with
  | Event ev => on ev
  | RegisterHandler method handler =>
      on_manager (Rpc.registerHandler method handler) ;; ret None
  end.

Definition exec (ops : list op) (this : Client) : Client :=
  fold_left (fun c o => post (step o c)) ops this.

Fixpoint trace (ops : list op) (this : Client) : list event :=
  match ops with
  | [] => []
  | o :: rest => (evs (step o this) ++ trace rest (post (step o this)))%list
  end.
End WithEnvironment.
End Lifecycle.

(** ** The REST client (ApiClient) *)

Module Api.

(** What a [catch (error)] clause receives: whether it is an [Error]
    instance, and the thrown value with its properties (for an [Error]:
    [message], and what the thrower added, [code], [response],
    [isAxiosError]). *)
Record Thrown : Type := {
  instanceof_Error : bool;
  properties : value
}.

Definition of_jsError (e : jsError) : Thrown :=
  match e with
  | ErrorObj message =>
      {| instanceof_Error := true; properties := VObj [("message", VStr message)] |}
  | NonError thrown => {| instanceof_Error := false; properties := thrown |}
  end.

(** [new Error(message)] *)
Definition new_Error (message : string) : Thrown := of_jsError (ErrorObj message).

(** How an [axios] request settles: with a response, or by rejecting. *)
Inductive Reply : Type :=
| Resolves (status : Z) (data : value)
| Rejects (error : Thrown).

Record AxiosResponse : Type := {
  status : Z;
  data : value
}.

(** What a method does besides returning, in program order. *)
Inductive effect : Type :=
| Debug (msg : string)                              (* logger.debug *)
| ConnectionFailed (report : value)                 (* connectionState.fail *)
| ConsoleLog (line : string)                        (* console.log; colour not represented *)
| HttpPost (url : string) (body : value) (bearer : string)
| HttpGet (url : string) (bearer : string).

Inductive settled (A : Type) : Type :=
| Fulfilled (a : A)
| Failed (error : Thrown).
Arguments Fulfilled {A} a.
Arguments Failed {A} error.

Record Task (A : Type) : Type := Run {
  result : settled A;
  effects : list effect
}.
Arguments Run {A} result effects.
Arguments result {A} t.
Arguments effects {A} t.

Definition ret {A} (a : A) : Task A := Run (Fulfilled a) [].

Definition raise {A} (error : Thrown) : Task A := Run (Failed error) [].

Definition bind {A B} (m : Task A) (k : A -> Task B) : Task B :=
  match result m with
  | Fulfilled a => Run (result (k a)) (effects m ++ effects (k a))
  | Failed error => Run (Failed error) (effects m)
  end.

(** [try { m } catch (error) { h error }] *)
Definition try_catch {A} (m : Task A) (h : Thrown -> Task A) : Task A :=
  match result m with
  | Fulfilled a => m
  | Failed error => Run (result (h error)) (effects m ++ effects (h error))
  end.

Definition lift {A} (o : outcome A) : Task A :=
  match o with
  | Ret a => ret a
  | Throw e => raise (of_jsError e)
  end.

Definition perform (e : effect) : Task unit := Run (Fulfilled tt) [e].

Definition debug (msg : string) : Task unit := perform (Debug msg).

Declare Scope api_scope.
Delimit Scope api_scope with api.
Notation "x <- m ;; k" := (bind m (fun x => k))
  (at level 61, m at next level, right associativity) : api_scope.
Notation "m ;; k" := (bind m (fun _ => k))
  (at level 61, right associativity) : api_scope.
Local Open Scope api_scope.

Definition settle (reply : Reply) : Task AxiosResponse :=
  match reply with
  | Resolves status data => ret {| status := status; data := data |}
  | Rejects error => raise error
  end.

(** [await axios.post(url, body, {headers: {Authorization: `Bearer ${bearer}`}})] *)
Definition axios_post (url : string) (body : value) (bearer : string) (reply : Reply)
  : Task AxiosResponse :=
  perform (HttpPost url body bearer) ;; settle reply.

(** [await axios.get(url, {headers: {Authorization: `Bearer ${bearer}`}})] *)
Definition axios_get (url : string) (bearer : string) (reply : Reply)
  : Task AxiosResponse :=
  perform (HttpGet url bearer) ;; settle reply.

(** [error instanceof Error ? error.message : 'Unknown error'], inside a
    template literal *)
Definition message_of (error : Thrown) : string :=
  if instanceof_Error error
  then JS.ToString (JS.get "message" (properties error))
  else "Unknown error".

(** [typeof v === 'object'] for a truthy [v] *)
Definition is_object (v : value) : bool :=
  match v with VObj _ | VArr _ => true | _ => false end.

(** [axios.isAxiosError(error)]: an object whose [isAxiosError] is [true] *)
Definition isAxiosError (error : Thrown) : bool :=
  is_object (properties error)
  && Session.is_true (JS.get "isAxiosError" (properties error)).

(** [error.response?.status] *)
Definition response_status (error : Thrown) : value :=
  JS.get "status" (JS.get "response" (properties error)).

(** [v === n] for a number literal *)
Definition is_num (n : Z) (v : value) : bool :=
  match v with VNum k => Z.eqb k n | _ => false end.

(** [v >= n] for a number literal; [v] is a status, a number wherever it
    is not [undefined] *)
Definition at_least (n : Z) (v : value) : bool :=
  match v with VNum k => Z.leb n k | _ => false end.

(** [v || fallback] *)
Definition or_else (v fallback : value) : value :=
  if JS.truthy v then v else fallback.

(** [v === null] *)
Definition is_null (v : value) : bool :=
  match v with VNull => true | _ => false end.

(** [Object.keys(v).length] for an object or an array *)
Definition count_keys (v : value) : nat :=
  match v with
  | VObj fields => List.length fields
  | VArr items => List.length items
  | _ => 0
  end.

(** The error [axios] rejects with: an [Error] that carries
    [isAxiosError: true], the [code] of the failure when it has one and,
    when the server answered, the [response] with its [status]. *)
Definition AxiosError (message : string) (code : option string) (response : option Z)
  : Thrown :=
  {| instanceof_Error := true;
     properties :=
       VObj ([("message", VStr message);
              ("name", VStr "AxiosError");
              ("isAxiosError", VBool true)]
             ++ match code with
                | Some c => [("code", VStr c)]
                | None => []
                end
             ++ match response with
                | Some status => [("response", VObj [("status", VNum status)])]
                | None => []
                end) |}.

(** The connection failures reported among the effects. *)
Fixpoint reports (es : list effect) : list value :=
  match es with
  | [] => []
  | ConnectionFailed report :: rest => report :: reports rest
  | _ :: rest => reports rest
  end.

(** The lines printed on the console among the effects. *)
Fixpoint printed (es : list effect) : list string :=
  match es with
  | [] => []
  | ConsoleLog line :: rest => line :: printed rest
  | _ :: rest => printed rest
  end.

Section WithEnvironment.
(** [JSON.parse]: the decoded value, or [None] for a [SyntaxError]. *)
Variable JSON_parse : string -> option value.
(** [isNetworkError] of [@/utils/serverConnectionErrors] *)
Variable isNetworkError : value -> bool.
(** [configuration.relayServerUrl] and [this.credential.access_token] *)
Variable relayServerUrl : string.
Variable access_token : string.

Definition parse (s : string) : Task value :=
  match JSON_parse s with
  | Some v => ret v
  | None => raise (of_jsError Session.SyntaxError)
  end.

(** [typeof v === 'string' ? JSON.parse(v) : v] *)
Definition decode (v : value) : Task value :=
  match v with
  | VStr s => parse s
  | _ => ret v
  end.

(** [v ? (typeof v === 'string' ? JSON.parse(v) : v) : fallback] *)
Definition decode_or (v fallback : value) : Task value :=
  if JS.truthy v then decode v else ret fallback.

Definition getOrCreateSession (tag : string) (metadata state : value) (reply : Reply)
  : Task (option Types.Session) :=
  let url := relayServerUrl ++ "/v1/sessions" in
  try_catch
    (response <- axios_post url
                   (VObj [("tag", VStr tag);
                          ("metadata", JSON.stringify_value metadata);
                          ("agentState",
                           if JS.truthy state then JSON.stringify_value state else VNull)])
                   access_token reply ;;
     raw <- lift (JS.prop "session" (data response)) ;;
     id <- lift (JS.prop "id" raw) ;;
     debug ("Session created/loaded: " ++ JS.ToString id ++ " (tag: " ++ tag ++ ")") ;;
     metadata <- decode (JS.get "metadata" raw) ;;
     agentState <- decode_or (JS.get "agentState" raw) VNull ;;
     ret (Some {| Types.id := id;
                  Types.seq := JS.get "seq" raw;
                  Types.metadata := metadata;
                  Types.metadataVersion := JS.get "metadataVersion" raw;
                  Types.agentState := agentState;
                  Types.agentStateVersion := JS.get "agentStateVersion" raw |}))
    (fun error =>
       debug "[API] [ERROR] Failed to get or create session:" ;;
       let e := properties error in
       if JS.truthy e && is_object e && JS.has "code" e && isNetworkError (JS.get "code" e)
       then
         perform (ConnectionFailed
                    (VObj [("operation", VStr "Session creation");
                           ("caller", VStr "api.getOrCreateSession");
                           ("errorCode", JS.get "code" e);
                           ("url", VStr url)])) ;;
         ret None
       else if (isAxiosError error && is_num 404 (response_status error))
               || (JS.truthy e && is_object e && JS.has "response" e
                   && is_num 404 (response_status error))
       then
         perform (ConnectionFailed
                    (VObj [("operation", VStr "Session creation");
                           ("errorCode", VStr "404");
                           ("url", VStr url)])) ;;
         ret None
       else if isAxiosError error && JS.truthy (response_status error)
               && at_least 500 (response_status error)
       then
         perform (ConnectionFailed
                    (VObj [("operation", VStr "Session creation");
                           ("errorCode", VStr (JS.ToString (response_status error)));
                           ("url", VStr url);
                           ("details",
                            VArr [VStr "Server encountered an error, will retry automatically"])])) ;;
         ret None
       else
         raise (new_Error ("Failed to get or create session: " ++ message_of error))).

(** [createMinimalMachine()] *)
Definition createMinimalMachine (machineId : string) (metadata daemonState : value)
  : Types.Machine :=
  {| Types.machine_id := VStr machineId;
     Types.machine_metadata := metadata;
     Types.machine_metadataVersion := VNum 0;
     Types.daemonState := or_else daemonState VNull;
     Types.daemonStateVersion := VNum 0 |}.

(** [getOrCreateMachine(opts)]; [daemonState] is [undefined] when the
    option is left out. *)
Definition getOrCreateMachine (machineId : string) (metadata daemonState : value)
  (reply : Reply) : Task Types.Machine :=
  let url := relayServerUrl ++ "/v1/machines" in
  let minimal := createMinimalMachine machineId metadata daemonState in
  try_catch
    (response <- axios_post url
                   (VObj [("id", VStr machineId);
                          ("metadata", JSON.stringify_value metadata);
                          ("daemonState",
                           if JS.truthy daemonState
                           then JSON.stringify_value daemonState
                           else VUndefined)])
                   access_token reply ;;
     raw <- lift (JS.prop "machine" (data response)) ;;
     debug ("[API] Machine " ++ machineId ++ " registered/updated with server") ;;
     id <- lift (JS.prop "id" raw) ;;
     machine_metadata <- decode_or (JS.get "metadata" raw) metadata ;;
     machine_daemonState <- decode_or (JS.get "daemonState" raw) VNull ;;
     ret {| Types.machine_id := id;
            Types.machine_metadata := machine_metadata;
            Types.machine_metadataVersion := or_else (JS.get "metadataVersion" raw) (VNum 0);
            Types.daemonState := machine_daemonState;
            Types.daemonStateVersion :=
              or_else (JS.get "daemonStateVersion" raw) (VNum 0) |})
    (fun error =>
       let e := properties error in
       let status := response_status error in
       if isAxiosError error && JS.truthy (JS.get "code" e) && isNetworkError (JS.get "code" e)
       then
         perform (ConnectionFailed
                    (VObj [("operation", VStr "Machine registration");
                           ("caller", VStr "api.getOrCreateMachine");
                           ("errorCode", JS.get "code" e);
                           ("url", VStr url)])) ;;
         ret minimal
       else if isAxiosError error && JS.truthy status then
         if is_num 403 status || is_num 409 status then
           perform (ConsoleLog ("Warning: Machine registration rejected by the server with status "
                                ++ JS.ToString status)) ;;
           perform (ConsoleLog
                      "   This machine ID is already registered to another account on the server") ;;
           perform (ConsoleLog
                      "   Run 'genie doctor clean' to reset local state and generate a new machine ID") ;;
           ret minimal
         else if at_least 500 status then
           perform (ConnectionFailed
                      (VObj [("operation", VStr "Machine registration");
                             ("errorCode", VStr (JS.ToString status));
                             ("url", VStr url);
                             ("details",
                              VArr [VStr "Server encountered an error, will retry automatically"])])) ;;
           ret minimal
         else if is_num 404 status then
           perform (ConnectionFailed
                      (VObj [("operation", VStr "Machine registration");
                             ("errorCode", VStr "404");
                             ("url", VStr url)])) ;;
           ret minimal
         else raise error
       else raise error).

(** [registerVendorToken(vendor, apiKey)] *)
Definition registerVendorToken (vendor : string) (apiKey : value) (reply : Reply)
  : Task unit :=
  try_catch
    (response <- axios_post (relayServerUrl ++ "/v1/connect/" ++ vendor ++ "/register")
                   (VObj [("token", JSON.stringify_value apiKey)])
                   access_token reply ;;
     if negb (Z.eqb (status response) 200) && negb (Z.eqb (status response) 201) then
       raise (new_Error ("Server returned status " ++ JS.string_of_Z (status response)))
     else
       debug ("[API] Vendor token for " ++ vendor ++ " registered successfully"))
    (fun error =>
       debug "[API] [ERROR] Failed to register vendor token:" ;;
       raise (new_Error ("Failed to register vendor token: " ++ message_of error))).

(** [getVendorToken(vendor)]; the result [null] is [VNull].  The first part
    ends either in an early [return null] or with [tokenData]. *)
Definition getVendorToken (vendor : string) (reply : Reply) : Task value :=
  try_catch
    (response <- axios_get (relayServerUrl ++ "/v1/connect/" ++ vendor ++ "/token")
                   access_token reply ;;
     if Z.eqb (status response) 404 then
       debug ("[API] No vendor token found for " ++ vendor) ;;
       ret VNull
     else if negb (Z.eqb (status response) 200) then
       raise (new_Error ("Server returned status " ++ JS.string_of_Z (status response)))
     else
       (* among the arguments of the logger call: ['token' in (response.data || {})] *)
       _ <- lift (JS.has_in "token" (or_else (data response) (VObj []))) ;;
       debug "[API] Raw vendor token response:" ;;
       let token := JS.get "token" (data response) in
       found <-
         (if JS.truthy token then
            match token with
            | VStr s =>
                ret (inr match JSON_parse s with
                         | Some v => v
                         | None => token
                         end)
            | VNull =>
                debug ("[API] Token is null for " ++ vendor ++ ", treating as not found") ;;
                ret (inl VNull)
            | _ => ret (inr token)
            end
          else if JS.truthy (data response) && is_object (data response) then
            if is_null token && Nat.eqb (count_keys (data response)) 1 then
              debug ("[API] Response contains only null token for " ++ vendor
                     ++ ", treating as not found") ;;
              ret (inl VNull)
            else ret (inr (data response))
          else ret (inr VNull)) ;;
       match found with
       | inl early => ret early
       | inr tokenData =>
           if is_null tokenData then
             debug ("[API] Token data is null for " ++ vendor) ;;
             ret VNull
           else
             debug ("[API] Vendor token for " ++ vendor ++ " retrieved successfully") ;;
             ret tokenData
       end)
    (fun error =>
       if isAxiosError error && is_num 404 (response_status error) then
         debug ("[API] No vendor token found for " ++ vendor) ;;
         ret VNull
       else
         debug "[API] [ERROR] Failed to get vendor token:" ;;
         ret VNull).

(** [sessionSyncClient(session)]: [new ApiSessionClient(access_token, session)] *)
Definition sessionSyncClient
  (commonHandlers : value -> list (string * Rpc.RpcHandler))
  (session : Types.Session) (sock : Socket) : outcome Lifecycle.Client :=
  Lifecycle.constructor commonHandlers access_token session sock.
End WithEnvironment.
End Api.

(** ** Observations, continued *)

Module Observe.

(** Two pushes of a document can be told apart by their versions. *)
Definition versions_differ (p q : option Session.Versioned) : Prop :=
  match p, q with
  | Some x, Some y => Session.version x <> Session.version y
  | _, _ => True
  end.

(** An answer on which the attempt of a conditional write returns
    normally: a success whose document decodes, or a result that is
    neither ['success'] nor ['version-mismatch']. *)
Definition settles (decoded : value -> option value) (a : Session.Answer) : Prop :=
  (Session.result a = "success" /\ decoded (Session.answer_doc a) <> None)
  \/ (Session.result a <> "success" /\ Session.result a <> "version-mismatch").

(** An acknowledgement on which the attempt fails before it has assigned
    anything: the emit rejects, a success carries a document that does not
    decode, or a version mismatch carries a version that is not above the
    local one. *)
Definition fails_early (decoded : value -> option value) (local : Z) (ack : Session.Ack)
  : Prop :=
  match ack with
  | Session.Rejected _ => True
  | Session.Answered a =>
      (Session.result a = "success" /\ decoded (Session.answer_doc a) = None)
      \/ (Session.result a = "version-mismatch" /\ (Session.answer_version a <= local)%Z)
  end.

(** The conditional writes among the events, by their payloads. *)
Fixpoint requests (es : list event) : list value :=
  match es with
  | [] => []
  | SocketEmitWithAck _ _ payload :: rest => payload :: requests rest
  | _ :: rest => requests rest
  end.

(** The packets handed to a socket, whatever the kind of emit. *)
Fixpoint packets (es : list event) : list (Socket * string * value) :=
  match es with
  | [] => []
  | SocketEmit sock ev payload :: rest => (sock, ev, payload) :: packets rest
  | SocketVolatileEmit sock ev payload :: rest => (sock, ev, payload) :: packets rest
  | SocketEmitWithAck sock ev payload :: rest => (sock, ev, payload) :: packets rest
  | _ :: rest => packets rest
  end.

(** How a consumer gets through a buffer: the messages it is handed,
    oldest first, up to and including the first on which it throws, and
    the messages it leaves behind. *)
Fixpoint handed (consumers : nat -> value -> outcome unit) (callback : nat)
  (waiting : list value) : list value :=
  match waiting with
  | [] => []
  | first :: rest =>
      first :: match consumers callback first with
               | Ret _ => handed consumers callback rest
               | Throw _ => []
               end
  end.

Fixpoint left_behind (consumers : nat -> value -> outcome unit) (callback : nat)
  (waiting : list value) : list value :=
  match waiting with
  | [] => []
  | first :: rest =>
      match consumers callback first with
      | Ret _ => left_behind consumers callback rest
      | Throw _ => rest
      end
  end.

(** The fields of a client that neither document's write touches. *)
Definition kept (c this : Session.ApiSessionClient) : Prop :=
  Session.sessionId c = Session.sessionId this
  /\ Session.socket c = Session.socket this
  /\ Session.connected c = Session.connected this
  /\ Session.pendingMessages c = Session.pendingMessages this
  /\ Session.pendingMessageCallback c = Session.pendingMessageCallback this.

(** A packet for the event [ev] on the socket of the client, naming the
    session of the client. *)
Definition addressed (ev : string) (this : Session.ApiSessionClient)
  (packet : Socket * string * value) : Prop :=
  fst (fst packet) = Session.socket this /\ snd (fst packet) = ev
  /\ JS.get "sid" (snd packet) = VStr (Session.sessionId this).

(** A call that leaves the client as it was and hands at most one packet
    to a socket, the client's own. *)
Definition sends_at_most_one {A} (this : Session.ApiSessionClient)
  (r : res Session.ApiSessionClient A) : Prop :=
  post r = this
  /\ List.length (packets (evs r)) <= 1
  /\ Forall (fun packet => fst (fst packet) = Session.socket this) (packets (evs r)).

(** A method name under the scope [prefix], as a wire value. *)
Definition in_scope (prefix : string) (v : value) : Prop :=
  exists method, v = VStr (Rpc.getPrefixedMethod prefix method).

(** The ['rpc-register'] announcements among the events, by method. *)
Fixpoint announced (es : list event) : list value :=
  match es with
  | [] => []
  | SocketEmit _ ev payload :: rest =>
      if String.eqb ev "rpc-register"
      then JS.get "method" payload :: announced rest
      else announced rest
  | _ :: rest => announced rest
  end.

End Observe.

(** ** Concrete inputs, continued *)

Module MoreSamples.
Import Samples.

(** A handler that returns nothing. *)
Definition silent : Rpc.RpcHandler := fun _ => Ret VUndefined.

Definition quiet_manager : Rpc.RpcHandlerManager :=
  post (Rpc.registerHandler "silent" silent manager).

(** A message of an agent, which the user-message schema refuses. *)
Definition agent_output : value :=
  VObj [("role", VStr "agent"); ("content", VObj [("type", VStr "output")])].

(** The answers of a metadata write: one the code has no branch for, the
    success that echoes version 8, and a mismatch that is not ahead of a
    client at version 5. *)
Definition refused : Session.Answer :=
  {| Session.result := "error";
     Session.answer_version := 0;
     Session.answer_doc := VUndefined |}.

Definition accepted8 : Session.Answer :=
  {| Session.result := "success";
     Session.answer_version := 8;
     Session.answer_doc := JSON.stringify_value (set_summary base7) |}.

Definition stale5 : Session.Answer :=
  {| Session.result := "version-mismatch";
     Session.answer_version := 5;
     Session.answer_doc := JSON.stringify_value base7 |}.

(** A summary line of a Claude session. *)
Definition summary_message : value :=
  VObj [("type", VStr "summary"); ("summary", VStr "Fixed the build");
        ("leafUuid", VStr "u1")].

(** What the server answers to a session request: the session [s1] at
    metadata version 5, its metadata as a JSON string. *)
Definition session_response : value :=
  VObj [("session",
         VObj [("id", VStr "s1");
               ("seq", VNum 3);
               ("metadata", JSON.stringify_value (VObj [("path", VStr "/work")]));
               ("metadataVersion", VNum 5);
               ("agentState", VNull);
               ("agentStateVersion", VNum 0)])].

Definition session : Types.Session :=
  {| Types.id := VStr "s1";
     Types.seq := VNum 3;
     Types.metadata := VObj [("path", VStr "/work")];
     Types.metadataVersion := VNum 5;
     Types.agentState := VNull;
     Types.agentStateVersion := VNum 0 |}.

(** Common handlers: one method, whatever the working directory. *)
Definition commonHandlers (path : value) : list (string * Rpc.RpcHandler) :=
  [("bash", echo)].

(** The client built for [session] on socket 0. *)
Definition built : Lifecycle.Client :=
  {| Lifecycle.session :=
       {| Session.sessionId := "s1";
          Session.metadata := VObj [("path", VStr "/work")];
          Session.metadataVersion := 5;
          Session.agentState := VNull;
          Session.agentStateVersion := 0;
          Session.socket := 0;
          Session.connected := false;
          Session.pendingMessages := [];
          Session.pendingMessageCallback := None |};
     Lifecycle.rpcHandlerManager :=
       post (Rpc.registerHandler "bash" echo (Rpc.new config)) |}.

(** A connect, a registration, an update and a disconnect. *)
Definition day : list Lifecycle.op :=
  [Lifecycle.Event Lifecycle.OnConnect;
   Lifecycle.RegisterHandler "abort" echo;
   Lifecycle.Event (Lifecycle.OnUpdate (new_message m1));
   Lifecycle.Event Lifecycle.OnDisconnect].

(** No error code counts as a network error. *)
Definition never_offline (code : value) : bool := false.

End MoreSamples.

(** * Properties *)

(** ** Tables *)

Module AssocFacts.
Section Table.
Context {V : Type}.
Implicit Types (t : list (string * V)) (k : string) (v : V).

Lemma lookup_none_iff k t : Assoc.lookup k t = None <-> ~ In k (Assoc.keys t).
Proof.
  induction t as [|[k' v'] t IH]; simpl.
  - tauto.
  - destruct (String.eqb_spec k k') as [->|Hne].
    + split; [discriminate | intros H; exfalso; apply H; now left].
    + rewrite IH. split.
      * intros H [Heq|Hin]; [now apply Hne | now apply H].
      * intros H Hin. apply H. now right.
Qed.

Lemma keys_set_present k v t :
  In k (Assoc.keys t) -> Assoc.keys (Assoc.set k v t) = Assoc.keys t.
Proof.
  induction t as [|[k' v'] t IH]; simpl; [tauto|].
  intros Hin. destruct (String.eqb_spec k k') as [->|Hne]; simpl.
  - reflexivity.
  - f_equal. apply IH. destruct Hin as [Heq|Hin]; [congruence | exact Hin].
Qed.

Lemma keys_set_absent k v t :
  ~ In k (Assoc.keys t) -> Assoc.keys (Assoc.set k v t) = (Assoc.keys t ++ [k])%list.
Proof.
  induction t as [|[k' v'] t IH]; simpl; [reflexivity|].
  intros Hnin. destruct (String.eqb_spec k k') as [->|Hne]; simpl.
  - exfalso. apply Hnin. now left.
  - f_equal. apply IH. intros Hin. apply Hnin. now right.
Qed.

Lemma in_keys_set k k' v t :
  In k' (Assoc.keys (Assoc.set k v t)) <-> k' = k \/ In k' (Assoc.keys t).
Proof.
  destruct (in_dec string_dec k (Assoc.keys t)) as [Hin|Hnin].
  - rewrite keys_set_present by exact Hin. split; [tauto|].
    intros [->|H]; assumption.
  - rewrite keys_set_absent by exact Hnin. rewrite in_app_iff. simpl.
    split; intros [H|H]; auto; destruct H as [H|[]]; auto.
Qed.

Lemma NoDup_keys_set k v t :
  NoDup (Assoc.keys t) -> NoDup (Assoc.keys (Assoc.set k v t)).
Proof.
  intros Hnd. destruct (in_dec string_dec k (Assoc.keys t)) as [Hin|Hnin].
  - now rewrite keys_set_present.
  - rewrite keys_set_absent by exact Hnin.
    apply NoDup_app; [exact Hnd | repeat constructor; simpl; tauto |].
    intros x Hx [<-|[]]. contradiction.
Qed.
End Table.
End AssocFacts.

(** ** The RPC handler registry *)

Module RpcProps.
Import Obs.

Lemma error_payload_stringify message :
  JSON.stringify_object [("error", VStr message)] = error_payload message.
Proof. reflexivity. Qed.

Lemma announce_all_run sock keys (this : Rpc.RpcHandlerManager) :
  let r := Rpc.announce_all sock keys this in
  out r = Ret tt /\ post r = this
  /\ evs r = map (fun k => SocketEmit sock "rpc-register" (Rpc.announcement k)) keys.
Proof.
  induction keys as [|k keys IH]; simpl.
  - auto.
  - destruct IH as (Ho & Hp & He).
    unfold bind, tell. simpl. rewrite Ho, Hp, He. auto.
Qed.

Section WithJSON.
Variable JSON_parse : string -> option value.

Lemma handleRequest_post request this :
  post (Rpc.handleRequest JSON_parse request this) = this.
Proof.
  cbv [Rpc.handleRequest Rpc.call try_catch bind get log tell ret throw out post evs app].
  destruct (Assoc.lookup (Rpc.method request) (Rpc.handlers this)) as [h|]; [|reflexivity].
  destruct (h _) as [v|e]; [|reflexivity].
  destruct (JSON.stringify v); reflexivity.
Qed.

Lemma handleRequest_hit request this handler :
  Assoc.lookup (Rpc.method request) (Rpc.handlers this) = Some handler ->
  let arg := Rpc.decode_params JSON_parse (Rpc.params request) in
  let r := Rpc.handleRequest JSON_parse request this in
  out r = Ret (reply_of (handler arg))
  /\ invocations (evs r) = [(Rpc.method request, arg)].
Proof.
  intros Hl. cbv zeta.
  cbv [Rpc.handleRequest Rpc.call try_catch bind get log tell ret throw out post evs app].
  rewrite Hl. unfold reply_of.
  destruct (handler _) as [v|[m|x]]; [|split; reflexivity..].
  destruct (JSON.stringify v); split; reflexivity.
Qed.

Lemma handleRequest_miss request this :
  Assoc.lookup (Rpc.method request) (Rpc.handlers this) = None ->
  let r := Rpc.handleRequest JSON_parse request this in
  out r = Ret (error_payload "Method not found") /\ evs r = [Log "[RPC] [ERROR] Method not found"].
Proof.
  intros Hl. cbv zeta.
  cbv [Rpc.handleRequest Rpc.call try_catch bind get log tell ret throw out post evs app].
  rewrite Hl. split; reflexivity.
Qed.

(** C3. [handleRequest] always returns a response and never throws, and
    it leaves the manager, so its handler map, as it was.  A method that
    is not in the map gets the JSON string [{"error":"Method not found"}]
    and no handler is called.  When the handler found throws an [Error],
    the response is the JSON object whose [error] is the message of the
    error; when it throws anything else, the [error] is 'Unknown error'. *)
Theorem handleRequest_answers_every_fault (request : Rpc.RpcRequest)
  (this : Rpc.RpcHandlerManager) :
  let r := Rpc.handleRequest JSON_parse request this in
  let arg := Rpc.decode_params JSON_parse (Rpc.params request) in
  (exists response, out r = Ret response)
  /\ post r = this
  /\ (Assoc.lookup (Rpc.method request) (Rpc.handlers this) = None ->
      out r = Ret ("{" ++ q "error" ++ ":" ++ q "Method not found" ++ "}")
      /\ invocations (evs r) = [])
  /\ (forall handler message,
         Assoc.lookup (Rpc.method request) (Rpc.handlers this) = Some handler ->
         handler arg = Throw (ErrorObj message) ->
         out r = Ret ("{" ++ q "error" ++ ":" ++ JSON.quote message ++ "}"))
  /\ (forall handler thrown,
         Assoc.lookup (Rpc.method request) (Rpc.handlers this) = Some handler ->
         handler arg = Throw (NonError thrown) ->
         out r = Ret ("{" ++ q "error" ++ ":" ++ q "Unknown error" ++ "}")).
Proof.
  intros r arg. subst r arg. repeat split.
  - destruct (Assoc.lookup (Rpc.method request) (Rpc.handlers this)) as [h|] eqn:Hl.
    + destruct (handleRequest_hit request this h Hl) as [Ho _]. eexists. exact Ho.
    + destruct (handleRequest_miss request this Hl) as [Ho _]. eexists. exact Ho.
  - apply handleRequest_post.
  - now destruct (handleRequest_miss request this H) as [Ho _].
  - destruct (handleRequest_miss request this H) as [_ He]. now rewrite He.
  - intros handler message Hl Hthrow.
    destruct (handleRequest_hit request this handler Hl) as [Ho _].
    rewrite Ho, Hthrow. reflexivity.
  - intros handler thrown Hl Hthrow.
    destruct (handleRequest_hit request this handler Hl) as [Ho _].
    rewrite Ho, Hthrow. reflexivity.
Qed.

(** C9. When the method of a request has a handler, the handler is
    called exactly once: with the value [request.params] parses to, or,
    when it does not parse, with the raw params string itself.  Either
    way the response is what the outcome of that call determines, so
    params that are not JSON never produce an error response on their
    own. *)
Theorem handleRequest_passes_params_through (request : Rpc.RpcRequest)
  (this : Rpc.RpcHandlerManager) (handler : Rpc.RpcHandler) :
  Assoc.lookup (Rpc.method request) (Rpc.handlers this) = Some handler ->
  let r := Rpc.handleRequest JSON_parse request this in
  (forall v, JSON_parse (Rpc.params request) = Some v ->
             invocations (evs r) = [(Rpc.method request, v)]
             /\ out r = Ret (reply_of (handler v)))
  /\ (JSON_parse (Rpc.params request) = None ->
      invocations (evs r) = [(Rpc.method request, VStr (Rpc.params request))]
      /\ out r = Ret (reply_of (handler (VStr (Rpc.params request))))).
Proof.
  intros Hl r. subst r.
  destruct (handleRequest_hit request this handler Hl) as [Ho Hi].
  unfold Rpc.decode_params in Ho, Hi. split.
  - intros v Hp. rewrite Hp in Ho, Hi. auto.
  - intros Hp. rewrite Hp in Ho, Hi. auto.
Qed.

Lemma registerHandler_post method handler this :
  post (Rpc.registerHandler method handler this)
  = Rpc.set_handlers
      (Assoc.set (Rpc.getPrefixedMethod (Rpc.scopePrefix this) method) handler
         (Rpc.handlers this)) this.
Proof.
  unfold Rpc.registerHandler, bind, get, modify. simpl.
  destruct (Rpc.socket this); reflexivity.
Qed.

Lemma onSocketConnect_run sock this :
  let r := Rpc.onSocketConnect sock this in
  out r = Ret tt /\ post r = Rpc.set_socket (Some sock) this
  /\ evs r = map (fun k => SocketEmit sock "rpc-register" (Rpc.announcement k))
               (Assoc.keys (Rpc.handlers this)).
Proof.
  destruct (announce_all_run sock (Assoc.keys (Rpc.handlers this))
              (Rpc.set_socket (Some sock) this)) as (Ho & Hp & He).
  unfold Rpc.onSocketConnect, bind, modify, get. simpl.
  rewrite Ho, Hp, He. auto.
Qed.

Lemma step_tracks o this methods :
  tracks this methods ->
  let this' := post (Rpc.step JSON_parse o this) in
  Rpc.scopePrefix this' = Rpc.scopePrefix this
  /\ tracks this' (Rpc.registered_from methods [o]).
Proof.
  intros [Hnd Hkeys].
  destruct o as [method handler|sock| |request|];
    cbn [Rpc.step Rpc.registered_from].
  - rewrite registerHandler_post. split; [reflexivity|]. split; simpl.
    + now apply AssocFacts.NoDup_keys_set.
    + intros k. rewrite AssocFacts.in_keys_set, Hkeys. split.
      * intros [->|(m & Hm & ->)].
        -- exists method. split; [apply in_or_app; right; now left | reflexivity].
        -- exists m. split; [apply in_or_app; now left | reflexivity].
      * intros (m & Hm & ->). apply in_app_or in Hm. destruct Hm as [Hm|[<-|[]]].
        -- right. now exists m.
        -- now left.
  - destruct (onSocketConnect_run sock this) as (_ & Hp & _). rewrite Hp.
    split; [reflexivity|]. split; assumption.
  - split; [reflexivity|]. split; assumption.
  - unfold bind. cbn [post].
    pose proof (handleRequest_post request this) as Hp.
    destruct (out (Rpc.handleRequest JSON_parse request this)); cbn [post ret];
      rewrite Hp; (split; [reflexivity|]; split; assumption).
  - split; [reflexivity|]. split; simpl.
    + constructor.
    + intros k. split; [intros [] | intros (m & [] & _)].
Qed.

Lemma registered_from_cons methods o ops :
  Rpc.registered_from methods (o :: ops)
  = Rpc.registered_from (Rpc.registered_from methods [o]) ops.
Proof. destruct o; reflexivity. Qed.

Lemma exec_tracks ops : forall this methods,
  tracks this methods ->
  let this' := Rpc.exec JSON_parse ops this in
  Rpc.scopePrefix this' = Rpc.scopePrefix this
  /\ tracks this' (Rpc.registered_from methods ops).
Proof.
  induction ops as [|o ops IH]; intros this methods Ht.
  - simpl. auto.
  - destruct (step_tracks o this methods Ht) as [Hs Ht'].
    rewrite registered_from_cons.
    destruct (IH _ _ Ht') as [Hs' Ht'']. split; [|exact Ht''].
    simpl. simpl in Hs'. congruence.
Qed.

(** C6. Take a manager after any sequence of calls.  The disconnect
    notification announces nothing and changes only the socket marker,
    which it clears; the handler map is kept.  The connect notification
    that follows emits, on the new socket, one ['rpc-register'] per key of
    the handler map, with the payload [{method: key}], and nothing else.
    The methods announced are exactly the prefixed names of the methods
    registered before (and not cleared since), each of them once. *)
Theorem reconnect_announces_each_handler_once (config : Rpc.RpcHandlerConfig)
  (ops : list Rpc.op) (sock : Socket) :
  let before := Rpc.exec JSON_parse ops (Rpc.new config) in
  let down := Rpc.onSocketDisconnect before in
  let up := Rpc.onSocketConnect sock (post down) in
  let prefixed := Rpc.getPrefixedMethod (Rpc.cfg_scopePrefix config) in
  (out down = Ret tt /\ evs down = []
   /\ Rpc.handlers (post down) = Rpc.handlers before
   /\ Rpc.socket (post down) = None)
  /\ (out up = Ret tt
      /\ Rpc.handlers (post up) = Rpc.handlers before
      /\ Rpc.socket (post up) = Some sock)
  /\ exists names,
       evs up
       = map (fun k => SocketEmit sock "rpc-register" (VObj [("method", VStr k)])) names
       /\ (forall method, In method (Rpc.registered ops) ->
                          count_occ string_dec names (prefixed method) = 1)
       /\ (forall k, In k names ->
                     exists method, In method (Rpc.registered ops) /\ k = prefixed method).
Proof.
  intros before down up prefixed.
  assert (tracks (Rpc.new config) []) as H0.
  { split; simpl; [constructor|]. intros k. split; [intros [] | intros (m & [] & _)]. }
  destruct (exec_tracks ops _ _ H0) as [Hs [Hnd Hkeys]]. fold before in Hs, Hnd, Hkeys.
  simpl in Hs.
  destruct (onSocketConnect_run sock (post down)) as (Ho & Hp & He). fold up in Ho, Hp, He.
  split; [repeat split|]. split; [rewrite Hp; repeat split; assumption|].
  exists (Assoc.keys (Rpc.handlers before)). split; [exact He|]. split.
  - intros method Hm.
    assert (In (prefixed method) (Assoc.keys (Rpc.handlers before))) as Hin.
    { apply Hkeys. exists method. split; [exact Hm|]. unfold prefixed. now rewrite Hs. }
    apply (proj1 (NoDup_count_occ' string_dec _) Hnd _ Hin).
  - intros k Hk. apply Hkeys in Hk. destruct Hk as (m & Hm & ->).
    exists m. split; [exact Hm|]. unfold prefixed. now rewrite Hs.
Qed.
End WithJSON.
End RpcProps.

(** ** The session client *)

Module SessionProps.
Import Obs Session.

Ltac unfold_monad :=
  unfold try_catch, bind, get, modify, tell, log, ret, throw in *.

Section WithEnvironment.
Variable JSON_parse : string -> option value.
Variable safeParse : value -> option value.
Variable consumers : nat -> value -> outcome unit.

#[local] Abbreviation decoded_metadata := (Obs.decoded_metadata JSON_parse).
#[local] Abbreviation decoded_agentState := (Obs.decoded_agentState JSON_parse).
#[local] Abbreviation on_update := (Session.on_update JSON_parse safeParse consumers).
#[local] Abbreviation step := (Session.step JSON_parse safeParse consumers).
#[local] Abbreviation exec := (Session.exec JSON_parse safeParse consumers).
#[local] Abbreviation trace := (Obs.trace JSON_parse safeParse consumers).
#[local] Abbreviation carries m :=
  (fun data => Obs.user_message_of JSON_parse safeParse data = Some m).

Lemma exec_cons o ops this : exec (o :: ops) this = exec ops (post (step o this)).
Proof. reflexivity. Qed.

Lemma exec_app ops ops' this : exec (ops ++ ops') this = exec ops' (exec ops this).
Proof. apply fold_left_app. Qed.

Lemma trace_cons o ops this :
  trace (o :: ops) this = (evs (step o this) ++ trace ops (post (step o this)))%list.
Proof. reflexivity. Qed.

(** *** Decoding *)

Lemma decode_metadata_run v this :
  Session.decode_metadata JSON_parse v this
  = match decoded_metadata v with
    | Some x => Res (Ret x) this []
    | None => Res (Throw SyntaxError) this []
    end.
Proof.
  destruct v; try reflexivity. simpl. unfold Session.parse.
  destruct (JSON_parse s); reflexivity.
Qed.

Lemma decode_agentState_run v this :
  Session.decode_agentState JSON_parse v this
  = match decoded_agentState v with
    | Some x => Res (Ret x) this []
    | None => Res (Throw SyntaxError) this []
    end.
Proof.
  unfold Session.decode_agentState, Obs.decoded_agentState.
  destruct (JS.truthy v); [apply decode_metadata_run | reflexivity].
Qed.

(** *** Inbound pushes, one document at a time *)

Lemma push_metadata_run pushed this :
  Session.push_metadata JSON_parse pushed this
  = match pushed with
    | Some m =>
        if (version m >? metadataVersion this)%Z then
          match decoded_metadata (doc m) with
          | Some v =>
              Res (Ret tt) (set_metadataVersion (version m) (set_metadata v this)) []
          | None => Res (Ret tt) this [Log "[SOCKET] Failed to parse metadata"]
          end
        else Res (Ret tt) this []
    | None => Res (Ret tt) this []
    end.
Proof.
  unfold Session.push_metadata. destruct pushed as [m|]; [|reflexivity].
  unfold bind at 1. unfold get. cbn [out post evs].
  destruct (version m >? metadataVersion this)%Z; [|reflexivity].
  unfold try_catch, bind. rewrite decode_metadata_run.
  destruct (decoded_metadata (doc m)); reflexivity.
Qed.

Lemma push_agentState_run pushed this :
  Session.push_agentState JSON_parse pushed this
  = match pushed with
    | Some a =>
        if (version a >? agentStateVersion this)%Z then
          match decoded_agentState (doc a) with
          | Some v =>
              Res (Ret tt) (set_agentStateVersion (version a) (set_agentState v this)) []
          | None => Res (Ret tt) this [Log "[SOCKET] Failed to parse agentState"]
          end
        else Res (Ret tt) this []
    | None => Res (Ret tt) this []
    end.
Proof.
  unfold Session.push_agentState. destruct pushed as [a|]; [|reflexivity].
  unfold bind at 1. unfold get. cbn [out post evs].
  destruct (version a >? agentStateVersion this)%Z; [|reflexivity].
  unfold try_catch, bind. rewrite decode_agentState_run.
  destruct (decoded_agentState (doc a)); reflexivity.
Qed.

Lemma on_update_session pushed_metadata pushed_agentState this :
  let data := {| body := Some (UpdateSession pushed_metadata pushed_agentState) |} in
  let first := Session.push_metadata JSON_parse pushed_metadata this in
  let second := Session.push_agentState JSON_parse pushed_agentState (post first) in
  out (on_update data this) = Ret tt
  /\ post (on_update data this) = post second
  /\ effects (evs (on_update data this)) = [].
Proof.
  intros data first second. subst data first second.
  unfold Session.on_update. cbn [body].
  unfold try_catch, bind, log, tell. cbn [out post evs].
  rewrite push_metadata_run.
  destruct pushed_metadata as [m|]; cbn [out post evs].
  2:{ rewrite push_agentState_run.
      destruct pushed_agentState as [a|]; cbn [out post evs]; auto.
      destruct (version a >? _)%Z; cbn [out post evs]; auto.
      destruct (decoded_agentState (doc a)); cbn [out post evs]; auto. }
  destruct (version m >? _)%Z; cbn [out post evs];
    [destruct (decoded_metadata (doc m)); cbn [out post evs]|];
    rewrite push_agentState_run;
    (destruct pushed_agentState as [a|]; cbn [out post evs]; auto;
     destruct (version a >? _)%Z; cbn [out post evs]; auto;
     destruct (decoded_agentState (doc a)); cbn [out post evs]; auto).
Qed.

(** What one document's push does to the fields of the other. *)
Lemma push_metadata_keeps pushed this :
  let c := post (Session.push_metadata JSON_parse pushed this) in
  agentState c = agentState this /\ agentStateVersion c = agentStateVersion this.
Proof.
  cbv zeta. rewrite push_metadata_run.
  destruct pushed as [m|]; [|now cbn].
  destruct (version m >? _)%Z; [|now cbn].
  destruct (decoded_metadata (doc m)); now cbn.
Qed.

Lemma push_agentState_keeps pushed this :
  let c := post (Session.push_agentState JSON_parse pushed this) in
  metadata c = metadata this /\ metadataVersion c = metadataVersion this.
Proof.
  cbv zeta. rewrite push_agentState_run.
  destruct pushed as [a|]; [|now cbn].
  destruct (version a >? _)%Z; [|now cbn].
  destruct (decoded_agentState (doc a)); now cbn.
Qed.

Lemma push_agentState_local pushed this other :
  agentState other = agentState this ->
  agentStateVersion other = agentStateVersion this ->
  let c := post (Session.push_agentState JSON_parse pushed this) in
  let c' := post (Session.push_agentState JSON_parse pushed other) in
  agentState c' = agentState c /\ agentStateVersion c' = agentStateVersion c.
Proof.
  intros Hs Hv. cbv zeta. rewrite !push_agentState_run.
  destruct pushed as [a|]; [|now cbn].
  rewrite Hv. destruct (version a >? _)%Z; [|now cbn].
  destruct (decoded_agentState (doc a)); now cbn.
Qed.

(** The fields of a client after an ['update-session'] push, document by
    document. *)
Lemma on_update_session_fields pushed_metadata pushed_agentState this :
  let r := on_update {| body := Some (UpdateSession pushed_metadata pushed_agentState) |} this in
  let m := post (Session.push_metadata JSON_parse pushed_metadata this) in
  let a := post (Session.push_agentState JSON_parse pushed_agentState this) in
  metadata (post r) = metadata m /\ metadataVersion (post r) = metadataVersion m
  /\ agentState (post r) = agentState a /\ agentStateVersion (post r) = agentStateVersion a.
Proof.
  cbv zeta.
  destruct (on_update_session pushed_metadata pushed_agentState this) as (_ & Hp & _).
  cbv zeta in Hp. rewrite Hp.
  destruct (push_agentState_keeps pushed_agentState
              (post (Session.push_metadata JSON_parse pushed_metadata this))) as [H1 H2].
  destruct (push_metadata_keeps pushed_metadata this) as [H3 H4].
  destruct (push_agentState_local pushed_agentState this _ H3 H4) as [H5 H6].
  cbv zeta in *. auto.
Qed.

Lemma metadata_pushed pushed this :
  let c := post (Session.push_metadata JSON_parse pushed this) in
  (exists m v, pushed = Some m /\ (version m > metadataVersion this)%Z
               /\ decoded_metadata (doc m) = Some v
               /\ metadata c = v /\ metadataVersion c = version m)
  \/ (metadata c = metadata this /\ metadataVersion c = metadataVersion this
      /\ forall m, pushed = Some m -> (version m > metadataVersion this)%Z ->
                   decoded_metadata (doc m) = None).
Proof.
  cbv zeta. rewrite push_metadata_run.
  destruct pushed as [m|]; [|right; cbn; repeat split; discriminate].
  destruct (Z.gtb_spec (version m) (metadataVersion this)) as [Hgt|Hle].
  - destruct (decoded_metadata (doc m)) as [v|] eqn:Hd.
    + left. exists m, v. cbn. repeat split; auto. lia.
    + right. cbn. repeat split. intros ? [= <-] _. exact Hd.
  - right. cbn. repeat split. intros ? [= <-] ?. lia.
Qed.

Lemma agentState_pushed pushed this :
  let c := post (Session.push_agentState JSON_parse pushed this) in
  (exists a v, pushed = Some a /\ (version a > agentStateVersion this)%Z
               /\ decoded_agentState (doc a) = Some v
               /\ agentState c = v /\ agentStateVersion c = version a)
  \/ (agentState c = agentState this /\ agentStateVersion c = agentStateVersion this
      /\ forall a, pushed = Some a -> (version a > agentStateVersion this)%Z ->
                   decoded_agentState (doc a) = None).
Proof.
  cbv zeta. rewrite push_agentState_run.
  destruct pushed as [a|]; [|right; cbn; repeat split; discriminate].
  destruct (Z.gtb_spec (version a) (agentStateVersion this)) as [Hgt|Hle].
  - destruct (decoded_agentState (doc a)) as [v|] eqn:Hd.
    + left. exists a, v. cbn. repeat split; auto. lia.
    + right. cbn. repeat split. intros ? [= <-] _. exact Hd.
  - right. cbn. repeat split. intros ? [= <-] ?. lia.
Qed.

(** C10. An ['update-session'] push whose metadata value is a string that
    does not parse leaves the local metadata and its version as they were,
    and likewise for the agent state (whose value is parsed when it is a
    string other than the empty one, which stands for null).  More generally the version of a
    document changes only together with its value: after any push, a
    version that differs from the one before is the version pushed, and
    the local value is then the value the push carried, decoded. *)
Theorem malformed_push_changes_neither_value_nor_version
  (pushed_metadata pushed_agentState : option Versioned) (this : ApiSessionClient) :
  let r := on_update {| body := Some (UpdateSession pushed_metadata pushed_agentState) |} this in
  (forall m s, pushed_metadata = Some m -> doc m = VStr s -> JSON_parse s = None ->
               metadata (post r) = metadata this
               /\ metadataVersion (post r) = metadataVersion this)
  /\ (forall a s, pushed_agentState = Some a -> doc a = VStr s -> s <> "" ->
                  JSON_parse s = None ->
                  agentState (post r) = agentState this
                  /\ agentStateVersion (post r) = agentStateVersion this)
  /\ (metadataVersion (post r) <> metadataVersion this ->
      exists m, pushed_metadata = Some m
                /\ metadataVersion (post r) = version m
                /\ decoded_metadata (doc m) = Some (metadata (post r)))
  /\ (agentStateVersion (post r) <> agentStateVersion this ->
      exists a, pushed_agentState = Some a
                /\ agentStateVersion (post r) = version a
                /\ decoded_agentState (doc a) = Some (agentState (post r))).
Proof.
  cbv zeta.
  destruct (on_update_session_fields pushed_metadata pushed_agentState this)
    as (-> & -> & -> & ->).
  pose proof (metadata_pushed pushed_metadata this) as Hm.
  pose proof (agentState_pushed pushed_agentState this) as Ha.
  cbv zeta in Hm, Ha. split; [|split; [|split]].
  - intros m s E Hs Hd. destruct Hm as [(m' & v & E' & _ & Hd' & _)|(? & ? & _)]; auto.
    assert (m' = m) as -> by congruence. rewrite Hs in Hd'. cbn in Hd'. congruence.
  - intros a s E Hs Hne Hd. destruct Ha as [(a' & v & E' & _ & Hd' & _)|(? & ? & _)]; auto.
    assert (a' = a) as -> by congruence. rewrite Hs in Hd'.
    unfold Obs.decoded_agentState in Hd'. cbn in Hd'.
    destruct (String.eqb_spec s ""); [contradiction|]. cbn in Hd'. congruence.
  - intros Hne. destruct Hm as [(m & v & E & _ & Hd & Hv & Hn)|(_ & ? & _)]; [|contradiction].
    exists m. rewrite Hv. auto.
  - intros Hne. destruct Ha as [(a & v & E & _ & Hd & Hv & Hn)|(_ & ? & _)]; [|contradiction].
    exists a. rewrite Hv. auto.
Qed.


(** C5, as amended. An ['update-session'] push changes the local metadata
    or its version exactly when it carries a metadata entry whose version
    is strictly greater than the local one and whose value decodes (it is
    not a string that fails to parse); the local value and version are then
    the decoded value and the version pushed.  A push whose version is equal
    to or less than the local one leaves both unchanged.  The same holds
    for the agent state. *)
Theorem push_applies_iff_newer_and_decodable
  (pushed_metadata pushed_agentState : option Versioned) (this : ApiSessionClient) :
  let r := on_update {| body := Some (UpdateSession pushed_metadata pushed_agentState) |} this in
  ((metadata (post r), metadataVersion (post r)) <> (metadata this, metadataVersion this)
   <-> exists m v, pushed_metadata = Some m
                   /\ (version m > metadataVersion this)%Z
                   /\ decoded_metadata (doc m) = Some v)
  /\ (forall m v, pushed_metadata = Some m ->
                  (version m > metadataVersion this)%Z ->
                  decoded_metadata (doc m) = Some v ->
                  metadata (post r) = v /\ metadataVersion (post r) = version m)
  /\ (forall m, pushed_metadata = Some m ->
                (version m <= metadataVersion this)%Z ->
                metadata (post r) = metadata this
                /\ metadataVersion (post r) = metadataVersion this)
  /\ ((agentState (post r), agentStateVersion (post r))
      <> (agentState this, agentStateVersion this)
      <-> exists a v, pushed_agentState = Some a
                      /\ (version a > agentStateVersion this)%Z
                      /\ decoded_agentState (doc a) = Some v)
  /\ (forall a v, pushed_agentState = Some a ->
                  (version a > agentStateVersion this)%Z ->
                  decoded_agentState (doc a) = Some v ->
                  agentState (post r) = v /\ agentStateVersion (post r) = version a)
  /\ (forall a, pushed_agentState = Some a ->
                (version a <= agentStateVersion this)%Z ->
                agentState (post r) = agentState this
                /\ agentStateVersion (post r) = agentStateVersion this).
Proof.
  cbv zeta.
  destruct (on_update_session_fields pushed_metadata pushed_agentState this)
    as (-> & -> & -> & ->).
  pose proof (metadata_pushed pushed_metadata this) as Hm.
  pose proof (agentState_pushed pushed_agentState this) as Ha.
  cbv zeta in Hm, Ha. split; [|split; [|split; [|split; [|split]]]].
  - split.
    + intros Hne. destruct Hm as [(m & v & E & Hgt & Hd & _)|(Hv & Hn & _)].
      * exists m, v. auto.
      * exfalso. apply Hne. now rewrite Hv, Hn.
    + intros (m & v & E & Hgt & Hd) Heq.
      pose proof (f_equal snd Heq) as Hn. cbn [snd] in Hn.
      destruct Hm as [(m' & v' & E' & _ & _ & _ & Hn')|(_ & _ & Hnone)].
      * assert (m' = m) as -> by congruence. lia.
      * rewrite (Hnone m E Hgt) in Hd. discriminate.
  - intros m v E Hgt Hd. destruct Hm as [(m' & v' & E' & _ & Hd' & Hv & Hn)|(_ & _ & Hnone)].
    + assert (m' = m) as -> by congruence. split; congruence.
    + rewrite (Hnone m E Hgt) in Hd. discriminate.
  - intros m E Hle. destruct Hm as [(m' & v' & E' & Hgt & _)|(Hv & Hn & _)]; auto.
    assert (m' = m) as -> by congruence. lia.
  - split.
    + intros Hne. destruct Ha as [(a & v & E & Hgt & Hd & _)|(Hv & Hn & _)].
      * exists a, v. auto.
      * exfalso. apply Hne. now rewrite Hv, Hn.
    + intros (a & v & E & Hgt & Hd) Heq.
      pose proof (f_equal snd Heq) as Hn. cbn [snd] in Hn.
      destruct Ha as [(a' & v' & E' & _ & _ & _ & Hn')|(_ & _ & Hnone)].
      * assert (a' = a) as -> by congruence. lia.
      * rewrite (Hnone a E Hgt) in Hd. discriminate.
  - intros a v E Hgt Hd. destruct Ha as [(a' & v' & E' & _ & Hd' & Hv & Hn)|(_ & _ & Hnone)].
    + assert (a' = a) as -> by congruence. split; congruence.
    + rewrite (Hnone a E Hgt) in Hd. discriminate.
  - intros a E Hle. destruct Ha as [(a' & v' & E' & Hgt & _)|(Hv & Hn & _)]; auto.
    assert (a' = a) as -> by congruence. lia.
Qed.


(** *** Inbound messages *)

Lemma deliver_run callback data this :
  Session.deliver consumers callback data this
  = Res (consumers callback data) this [Deliver callback data].
Proof. reflexivity. Qed.

Lemma route_run payload this :
  Session.route safeParse consumers payload this
  = match safeParse payload with
    | Some data =>
        match pendingMessageCallback this with
        | Some callback =>
            Res (consumers callback data) this
              [Log "[SOCKET] [UPDATE] Received message:"; Deliver callback data]
        | None =>
            Res (Ret tt) (set_pendingMessages (pendingMessages this ++ [data]) this)
              [Log "[SOCKET] [UPDATE] Received message:"]
        end
    | None =>
        Res (Ret tt) this
          [Log "[SOCKET] [UPDATE] Received message:"; EmitLocal "message" payload]
    end.
Proof.
  unfold Session.route, bind, log, tell, get, modify. cbn [out post evs].
  destruct (safeParse payload); [|reflexivity].
  cbn [out post evs]. destruct (pendingMessageCallback this); reflexivity.
Qed.

Lemma effects_app es es' : effects (es ++ es') = (effects es ++ effects es')%list.
Proof. apply filter_app. Qed.

(** Whatever handling the content does, the update handler returns; a
    throw only adds a logger call. *)
Lemma on_update_new_message content this :
  let r := on_update {| body := Some (NewMessage content) |} this in
  let inner := Session.on_new_message JSON_parse safeParse consumers content this in
  out r = Ret tt /\ post r = post inner /\ effects (evs r) = effects (evs inner).
Proof.
  cbv zeta. unfold Session.on_update. cbn [body].
  unfold try_catch, bind, log, tell. cbn [out post evs].
  destruct (out (Session.on_new_message JSON_parse safeParse consumers content this));
    cbn [out post evs app]; repeat split.
  - now destruct a.
  - change (effects (evs (Session.on_new_message JSON_parse safeParse consumers content this)
                     ++ [Log "[SOCKET] [UPDATE] [ERROR] Error handling update"])
            = effects (evs (Session.on_new_message JSON_parse safeParse consumers content this))).
    rewrite effects_app. cbn. now rewrite app_nil_r.
Qed.

Lemma on_new_message_null content this :
  JS.nullish content = true ->
  exists e,
    Session.on_new_message JSON_parse safeParse consumers content this = Res (Throw e) this [].
Proof.
  intros Hnull. unfold Session.on_new_message, bind, lift, JS.prop. rewrite Hnull.
  cbn. eauto.
Qed.

Lemma on_new_message_wrapped content s this :
  JS.get "t" content = VStr "encrypted" ->
  JS.get "c" content = VStr s ->
  Session.on_new_message JSON_parse safeParse consumers content this
  = match JSON_parse s with
    | Some payload =>
        let r := Session.route safeParse consumers payload this in
        Res (out r) (post r)
          (Log "[SOCKET] [UPDATE] Parsed message from encrypted wrapper" :: evs r)
    | None =>
        Res (Ret tt) this
          [Log "[SOCKET] [UPDATE] Failed to parse encrypted message content - skipping"]
    end.
Proof.
  intros Ht Hc. unfold Session.on_new_message, bind, lift, JS.prop.
  assert (JS.nullish content = false) as -> by (destruct content; try discriminate; reflexivity).
  cbn [out post evs]. rewrite Ht, Hc. cbn [JS.ToString JS.is_str].
  change (String.eqb "encrypted" "encrypted") with true. cbv iota.
  destruct (JSON_parse s); reflexivity.
Qed.

Lemma on_new_message_plain content this :
  JS.nullish content = false ->
  JS.get "t" content <> VStr "encrypted" ->
  Session.on_new_message JSON_parse safeParse consumers content this
  = let r := Session.route safeParse consumers content this in Res (out r) (post r) (evs r).
Proof.
  intros Hnull Ht. unfold Session.on_new_message, bind, lift, JS.prop, JS.is_str.
  rewrite Hnull. cbn [out post evs].
  destruct (JS.get "t" content) as [| | | |t| |]; try reflexivity.
  destruct (String.eqb_spec t "encrypted") as [->|Hne]; [contradiction|reflexivity].
Qed.

(** Handling a content leaves the client as it is or appends one message
    to its buffer. *)
Lemma on_new_message_post content this :
  let c := post (Session.on_new_message JSON_parse safeParse consumers content this) in
  c = this \/ exists m, c = set_pendingMessages (pendingMessages this ++ [m]) this.
Proof.
  cbv zeta. unfold Session.on_new_message, bind, lift, JS.prop.
  destruct (JS.nullish content); cbn [out post evs]; [now left|].
  assert (forall payload,
             post (Session.route safeParse consumers payload this) = this
             \/ exists m, post (Session.route safeParse consumers payload this)
                          = set_pendingMessages (pendingMessages this ++ [m]) this) as Hroute.
  { intros payload. rewrite route_run.
    destruct (safeParse payload) as [m|]; [|now left].
    destruct (pendingMessageCallback this); [now left | right; now exists m]. }
  destruct (JS.is_str "encrypted" (JS.get "t" content)).
  - destruct (JSON_parse _) as [payload|]; [|now left].
    unfold log, tell. cbn [out post evs]. apply Hroute.
  - apply Hroute.
Qed.

(** C7, as amended. Take a ['new-message'] update whose content is the
    legacy wrapper [{t:'encrypted', c:s}].  When [s] parses to a payload
    that is not [null] and is not itself tagged [t:'encrypted'], handling
    the update leaves the same client state and produces the same effects
    (delivery to the consumer, buffering, or emission of a generic
    message), logger calls apart, as handling an update whose content is
    that payload.  When [s] does not parse, the update is dropped: the
    handler returns normally, the client is unchanged and nothing but
    logger calls happens. *)
Theorem wrapper_routes_like_its_payload (content : value) (s : string)
  (this : ApiSessionClient) :
  JS.get "t" content = VStr "encrypted" ->
  JS.get "c" content = VStr s ->
  let wrapped := on_update {| body := Some (NewMessage content) |} this in
  out wrapped = Ret tt
  /\ (forall payload,
         JSON_parse s = Some payload ->
         JS.nullish payload = false ->
         JS.get "t" payload <> VStr "encrypted" ->
         let direct := on_update {| body := Some (NewMessage payload) |} this in
         out direct = Ret tt
         /\ post wrapped = post direct
         /\ effects (evs wrapped) = effects (evs direct))
  /\ (JSON_parse s = None -> post wrapped = this /\ effects (evs wrapped) = []).
Proof.
  intros Ht Hc. cbv zeta.
  destruct (on_update_new_message content this) as (Ho & Hp & He).
  rewrite Ho, Hp, He, (on_new_message_wrapped content s this Ht Hc).
  split; [reflexivity|]. split.
  - intros payload Hparse Hobject Hplain.
    destruct (on_update_new_message payload this) as (Ho' & Hp' & He').
    rewrite Ho', Hp', He', Hparse, (on_new_message_plain payload this Hobject Hplain).
    cbn. auto.
  - intros Hparse. rewrite Hparse. cbn. auto.
Qed.

(** *** The inbound message queue *)

Lemma arrival_run data m this :
  user_message_of JSON_parse safeParse data = Some m ->
  let r := on_update data this in
  out r = Ret tt
  /\ match pendingMessageCallback this with
     | Some callback => post r = this /\ effects (evs r) = [Deliver callback m]
     | None =>
         post r = set_pendingMessages (pendingMessages this ++ [m]) this
         /\ effects (evs r) = []
     end.
Proof.
  unfold user_message_of. destruct data as [[[content| | |]|]]; cbn [body]; try discriminate.
  intros Hm. cbv zeta.
  destruct (on_update_new_message content this) as (Ho & Hp & He).
  rewrite Ho, Hp, He. split; [reflexivity|].
  unfold Session.on_new_message, bind, lift, JS.prop.
  destruct (JS.nullish content); [discriminate|]. cbn [out post evs].
  destruct (JS.is_str "encrypted" (JS.get "t" content)).
  - destruct (JSON_parse _) as [payload|]; [|discriminate].
    unfold log, tell. cbn [out post evs]. rewrite route_run, Hm.
    destruct (pendingMessageCallback this); cbn; auto.
  - rewrite route_run, Hm. destruct (pendingMessageCallback this); cbn; auto.
Qed.

(** One turn of the loop of [onUserMessage]. *)
Lemma drain_step callback first rest this fuel :
  pendingMessages this = first :: rest ->
  Session.drain consumers (Datatypes.S fuel) callback this
  = match consumers callback first with
    | Ret _ =>
        let r := Session.drain consumers fuel callback (set_pendingMessages rest this) in
        Res (out r) (post r) (Deliver callback first :: evs r)
    | Throw e => Res (Throw e) (set_pendingMessages rest this) [Deliver callback first]
    end.
Proof.
  intros Hw. cbn [Session.drain]. unfold bind, get, modify. cbn [out post evs].
  rewrite Hw. cbn [out post evs]. rewrite deliver_run. cbn [out post evs].
  destruct (consumers callback first) as [[]|e]; cbn [out post evs app]; reflexivity.
Qed.

(** A consumer that returns on every buffered message is handed them
    all. *)
Lemma drain_run callback : forall waiting this fuel,
  pendingMessages this = waiting ->
  List.length waiting <= fuel ->
  Forall (fun m => consumers callback m = Ret tt) waiting ->
  Session.drain consumers fuel callback this
  = Res (Ret tt) (set_pendingMessages [] this) (map (Deliver callback) waiting).
Proof.
  induction waiting as [|first rest IH]; intros this fuel Hw Hf Hok.
  - destruct fuel; cbn.
    + destruct this; cbn in *; subst; reflexivity.
    + unfold bind, get. cbn [out post evs]. rewrite Hw.
      destruct this; cbn in *; subst; reflexivity.
  - destruct fuel; cbn in Hf; [lia|].
    rewrite (drain_step callback first rest this fuel Hw).
    inversion Hok as [|? ? Hfirst Hrest]; subst. rewrite Hfirst. cbv zeta.
    rewrite (IH (set_pendingMessages rest this) fuel eq_refl) by (assumption || lia).
    reflexivity.
Qed.

Lemma onUserMessage_unfold callback this :
  Session.onUserMessage consumers callback this
  = Session.drain consumers (List.length (pendingMessages this)) callback
      (set_pendingMessageCallback (Some callback) this).
Proof.
  unfold Session.onUserMessage, bind at 1. unfold modify. cbn [out post evs].
  unfold bind, get. cbn [out post evs].
  now destruct (Session.drain _ _ _ _).
Qed.

Lemma onUserMessage_run callback this :
  Forall (fun m => consumers callback m = Ret tt) (pendingMessages this) ->
  Session.onUserMessage consumers callback this
  = Res (Ret tt)
      (set_pendingMessages [] (set_pendingMessageCallback (Some callback) this))
      (map (Deliver callback) (pendingMessages this)).
Proof.
  intros Hok. rewrite onUserMessage_unfold.
  rewrite (drain_run callback (pendingMessages this)); [reflexivity|reflexivity| |exact Hok].
  cbn. lia.
Qed.


Lemma deliveries_effects es : deliveries (effects es) = deliveries es.
Proof.
  induction es as [|e es IH]; [reflexivity|].
  destruct e; cbn; fold (effects es); rewrite ?IH; reflexivity.
Qed.

Lemma deliveries_app es es' : deliveries (es ++ es') = (deliveries es ++ deliveries es')%list.
Proof.
  induction es as [|e es IH]; [reflexivity|].
  destruct e; cbn; try rewrite IH; reflexivity.
Qed.

Lemma deliveries_Deliver consumer messages :
  deliveries (map (Deliver consumer) messages) = map (pair consumer) messages.
Proof.
  induction messages as [|m messages IH]; cbn; [reflexivity | now rewrite IH].
Qed.

(** Arrivals while no consumer is attached. *)
Lemma arrivals_wait arrivals messages :
  Forall2 (fun data m => carries m data) arrivals messages ->
  forall this,
    pendingMessageCallback this = None ->
    pendingMessages (exec (map Arrive arrivals) this)
    = (pendingMessages this ++ messages)%list
    /\ pendingMessageCallback (exec (map Arrive arrivals) this) = None
    /\ deliveries (trace (map Arrive arrivals) this) = [].
Proof.
  induction 1 as [|data m arrivals messages Hm _ IH]; intros this Hcb.
  - cbn. rewrite app_nil_r. auto.
  - destruct (arrival_run data m this Hm) as [_ Hrun]. rewrite Hcb in Hrun.
    destruct Hrun as [Hp He].
    rewrite map_cons, exec_cons, trace_cons. cbn [Session.step].
    rewrite Hp. destruct (IH (set_pendingMessages (pendingMessages this ++ [m]) this) Hcb)
      as (Hq & Hc & Hd).
    rewrite Hq, Hc, deliveries_app, Hd, <- deliveries_effects, He.
    cbn. rewrite <- app_assoc. auto.
Qed.

(** Arrivals once a consumer is attached. *)
Lemma arrivals_pass arrivals messages :
  Forall2 (fun data m => carries m data) arrivals messages ->
  forall this consumer,
    pendingMessageCallback this = Some consumer ->
    exec (map Arrive arrivals) this = this
    /\ deliveries (trace (map Arrive arrivals) this) = map (pair consumer) messages.
Proof.
  induction 1 as [|data m arrivals messages Hm _ IH]; intros this consumer Hcb.
  - cbn. auto.
  - destruct (arrival_run data m this Hm) as [_ Hrun]. rewrite Hcb in Hrun.
    destruct Hrun as [Hp He].
    rewrite map_cons, exec_cons, trace_cons. cbn [Session.step].
    rewrite Hp. destruct (IH this consumer Hcb) as (Hq & Hd).
    rewrite Hq, deliveries_app, Hd, <- deliveries_effects, He. cbn. auto.
Qed.

(** C4, as amended. Start from a client with no consumer attached and let
    updates arrive that carry the user messages [messages], in this order.
    None is delivered; they are appended to the buffer in arrival order.
    Attaching a consumer that returns normally on each buffered message
    then calls it once for each of them, oldest first, and for nothing
    else, and leaves the buffer empty.  Every user message that arrives
    afterwards is handed to the consumer while its update is handled, and
    the client, so its buffer, stays as it was. *)
Theorem buffered_messages_reach_the_consumer_in_order
  (this : ApiSessionClient) (arrivals later : list Update)
  (messages later_messages : list value) (consumer : nat) :
  pendingMessageCallback this = None ->
  Forall2 (fun data m => carries m data) arrivals messages ->
  Forall2 (fun data m => carries m data) later later_messages ->
  Forall (fun m => consumers consumer m = Ret tt) (pendingMessages this ++ messages) ->
  let waiting := exec (map Arrive arrivals) this in
  let attach := Session.onUserMessage consumers consumer waiting in
  (deliveries (trace (map Arrive arrivals) this) = []
   /\ pendingMessages waiting = (pendingMessages this ++ messages)%list)
  /\ (out attach = Ret tt
      /\ deliveries (evs attach) = map (pair consumer) (pendingMessages this ++ messages)
      /\ pendingMessages (post attach) = []
      /\ pendingMessageCallback (post attach) = Some consumer)
  /\ (deliveries (trace (map Arrive later) (post attach)) = map (pair consumer) later_messages
      /\ exec (map Arrive later) (post attach) = post attach).
Proof.
  intros Hcb Harr Hlater Hok. cbv zeta.
  destruct (arrivals_wait arrivals messages Harr this Hcb) as (Hq & Hc & Hd).
  rewrite onUserMessage_run by (rewrite Hq; exact Hok). cbn [out post evs]. rewrite Hq.
  split; [auto|]. split.
  - split; [reflexivity|]. split; [apply deliveries_Deliver|]. split; reflexivity.
  - destruct (arrivals_pass later later_messages Hlater
                (set_pendingMessages []
                   (set_pendingMessageCallback (Some consumer)
                      (exec (map Arrive arrivals) this)))
                consumer eq_refl) as (He & Hdl).
    auto.
Qed.


(** *** Conditional writes *)

Lemma metadata_receive_run ack this :
  Session.metadata_receive JSON_parse ack this
  = match ack with
    | Rejected e => Res (Throw e) this []
    | Answered a =>
        if String.eqb (result a) "success" then
          match decoded_metadata (answer_doc a) with
          | Some v =>
              Res (Ret tt) (set_metadataVersion (answer_version a) (set_metadata v this)) []
          | None => Res (Throw SyntaxError) this []
          end
        else if String.eqb (result a) "version-mismatch" then
          if (answer_version a >? metadataVersion this)%Z then
            match decoded_metadata (answer_doc a) with
            | Some v =>
                Res (Throw metadata_mismatch)
                  (set_metadata v (set_metadataVersion (answer_version a) this)) []
            | None =>
                Res (Throw SyntaxError) (set_metadataVersion (answer_version a) this) []
            end
          else Res (Throw metadata_mismatch) this []
        else Res (Ret tt) this []
    end.
Proof.
  destruct ack as [a|e]; [|reflexivity]. unfold Session.metadata_receive.
  destruct (String.eqb (result a) "success").
  - unfold bind. rewrite decode_metadata_run.
    destruct (decoded_metadata (answer_doc a)); reflexivity.
  - destruct (String.eqb (result a) "version-mismatch"); [|reflexivity].
    unfold bind at 1. unfold get. cbn [out post evs].
    destruct (answer_version a >? metadataVersion this)%Z; [|reflexivity].
    unfold bind, modify. cbn [out post evs]. rewrite decode_metadata_run.
    destruct (decoded_metadata (answer_doc a)); reflexivity.
Qed.

Lemma agentState_receive_run ack this :
  Session.agentState_receive JSON_parse ack this
  = match ack with
    | Rejected e => Res (Throw e) this []
    | Answered a =>
        if String.eqb (result a) "success" then
          match decoded_agentState (answer_doc a) with
          | Some v =>
              Res (Ret tt) (set_agentStateVersion (answer_version a) (set_agentState v this))
                [Log "Agent state updated"]
          | None => Res (Throw SyntaxError) this []
          end
        else if String.eqb (result a) "version-mismatch" then
          if (answer_version a >? agentStateVersion this)%Z then
            match decoded_agentState (answer_doc a) with
            | Some v =>
                Res (Throw agentState_mismatch)
                  (set_agentState v (set_agentStateVersion (answer_version a) this)) []
            | None =>
                Res (Throw SyntaxError) (set_agentStateVersion (answer_version a) this) []
            end
          else Res (Throw agentState_mismatch) this []
        else Res (Ret tt) this []
    end.
Proof.
  destruct ack as [a|e]; [|reflexivity]. unfold Session.agentState_receive.
  destruct (String.eqb (result a) "success").
  - unfold bind. rewrite decode_agentState_run.
    destruct (decoded_agentState (answer_doc a)); reflexivity.
  - destruct (String.eqb (result a) "version-mismatch"); [|reflexivity].
    unfold bind at 1. unfold get. cbn [out post evs].
    destruct (answer_version a >? agentStateVersion this)%Z; [|reflexivity].
    unfold bind, modify. cbn [out post evs]. rewrite decode_agentState_run.
    destruct (decoded_agentState (answer_doc a)); reflexivity.
Qed.


(** *** Versions along a run *)

Lemma on_update_versions_elsewhere data this :
  (forall m a, body data <> Some (UpdateSession m a)) ->
  metadataVersion (post (on_update data this)) = metadataVersion this
  /\ agentStateVersion (post (on_update data this)) = agentStateVersion this.
Proof.
  intros Hother. destruct data as [[[content|m a| |b]|]]; try (cbn; auto; fail).
  - destruct (on_update_new_message content this) as (_ & Hp & _). rewrite Hp.
    destruct (on_new_message_post content this) as [->|[m ->]]; cbn; auto.
  - exfalso. now apply (Hother m a).
Qed.

Ltac elsewhere :=
  match goal with
  | |- context [Session.on_update ?p ?sp ?cs ?d ?c] =>
      let H := fresh in
      assert (forall m a, body d <> Some (UpdateSession m a)) as H
        by (cbn; intros; discriminate);
      let Hm := fresh in
      let Ha := fresh in
      destruct (on_update_versions_elsewhere d c H) as [Hm Ha];
      rewrite ?Hm, ?Ha
  end.

Lemma step_metadataVersion o this :
  let c := post (step o this) in
  (metadataVersion c = metadataVersion this
   \/ In (metadataVersion c) (carried_metadataVersion o))
  /\ (confirms_forward o this -> (metadataVersion this <= metadataVersion c)%Z).
Proof.
  cbv zeta. destruct o as [data|ack|ack]; cbn [Session.step].
  - destruct data as [[[content|m a| |b]|]];
      try (elsewhere; split; [now left | intros _; lia]).
    destruct (on_update_session_fields m a this) as (_ & -> & _ & _).
    destruct (metadata_pushed m this) as [(x & v & -> & Hgt & _ & _ & ->)|(_ & -> & _)].
    + split; [right; cbn; now left | intros _; lia].
    + split; [now left | intros _; lia].
  - rewrite metadata_receive_run. destruct ack as [a|e]; [|cbn; split; [now left|lia]].
    cbn [carried_metadataVersion confirms_forward].
    destruct (String.eqb_spec (result a) "success") as [Hs|Hs].
    + destruct (decoded_metadata (answer_doc a)); cbn; split; auto; lia.
    + destruct (String.eqb (result a) "version-mismatch");
        [|cbn; split; [now left|lia]].
      destruct (Z.gtb_spec (answer_version a) (metadataVersion this));
        [|cbn; split; [now left|lia]].
      destruct (decoded_metadata (answer_doc a)); cbn; split; auto; lia.
  - rewrite agentState_receive_run. destruct ack as [a|e]; [|cbn; split; [now left|lia]].
    destruct (String.eqb (result a) "success").
    + destruct (decoded_agentState (answer_doc a)); cbn; split; auto; lia.
    + destruct (String.eqb (result a) "version-mismatch");
        [|cbn; split; [now left|lia]].
      destruct (answer_version a >? agentStateVersion this)%Z;
        [|cbn; split; [now left|lia]].
      destruct (decoded_agentState (answer_doc a)); cbn; split; auto; lia.
Qed.

Lemma step_agentStateVersion o this :
  let c := post (step o this) in
  (agentStateVersion c = agentStateVersion this
   \/ In (agentStateVersion c) (carried_agentStateVersion o))
  /\ (confirms_forward o this -> (agentStateVersion this <= agentStateVersion c)%Z).
Proof.
  cbv zeta. destruct o as [data|ack|ack]; cbn [Session.step].
  - destruct data as [[[content|m a| |b]|]];
      try (elsewhere; split; [now left | intros _; lia]).
    destruct (on_update_session_fields m a this) as (_ & _ & _ & ->).
    destruct (agentState_pushed a this) as [(x & v & -> & Hgt & _ & _ & ->)|(_ & -> & _)].
    + split; [right; destruct m; cbn; now left | intros _; lia].
    + split; [now left | intros _; lia].
  - rewrite metadata_receive_run. destruct ack as [a|e]; [|cbn; split; [now left|lia]].
    destruct (String.eqb (result a) "success").
    + destruct (decoded_metadata (answer_doc a)); cbn; split; auto; lia.
    + destruct (String.eqb (result a) "version-mismatch");
        [|cbn; split; [now left|lia]].
      destruct (answer_version a >? metadataVersion this)%Z;
        [|cbn; split; [now left|lia]].
      destruct (decoded_metadata (answer_doc a)); cbn; split; auto; lia.
  - rewrite agentState_receive_run. destruct ack as [a|e]; [|cbn; split; [now left|lia]].
    cbn [carried_agentStateVersion confirms_forward].
    destruct (String.eqb_spec (result a) "success") as [Hs|Hs].
    + destruct (decoded_agentState (answer_doc a)); cbn; split; auto; lia.
    + destruct (String.eqb (result a) "version-mismatch");
        [|cbn; split; [now left|lia]].
      destruct (Z.gtb_spec (answer_version a) (agentStateVersion this));
        [|cbn; split; [now left|lia]].
      destruct (decoded_agentState (answer_doc a)); cbn; split; auto; lia.
Qed.


Lemma exec_versions ops : forall this,
  ((metadataVersion (exec ops this) = metadataVersion this
    \/ In (metadataVersion (exec ops this)) (flat_map carried_metadataVersion ops))
   /\ (agentStateVersion (exec ops this) = agentStateVersion this
       \/ In (agentStateVersion (exec ops this))
            (flat_map carried_agentStateVersion ops)))
  /\ (all_confirm_forward JSON_parse safeParse consumers ops this ->
      (metadataVersion this <= metadataVersion (exec ops this))%Z
      /\ (agentStateVersion this <= agentStateVersion (exec ops this))%Z).
Proof.
  induction ops as [|o ops IH]; intros this.
  - cbn. split; [auto | intros _; lia].
  - rewrite exec_cons. cbn [flat_map all_confirm_forward].
    destruct (step_metadataVersion o this) as [Hm Hm'].
    destruct (step_agentStateVersion o this) as [Ha Ha'].
    destruct (IH (post (step o this))) as [[IHm IHa] IHle]. cbv zeta in *.
    split; [split|].
    + destruct IHm as [->|Hin]; [|right; apply in_or_app; now right].
      destruct Hm as [->|Hin]; [now left | right; apply in_or_app; now left].
    + destruct IHa as [->|Hin]; [|right; apply in_or_app; now right].
      destruct Ha as [->|Hin]; [now left | right; apply in_or_app; now left].
    + intros [Hc Hrest]. specialize (Hm' Hc). specialize (Ha' Hc).
      destruct (IHle Hrest). lia.
Qed.

Lemma all_confirm_forward_app before : forall after this,
  all_confirm_forward JSON_parse safeParse consumers (before ++ after) this ->
  all_confirm_forward JSON_parse safeParse consumers after (exec before this).
Proof.
  induction before as [|o before IH]; intros after this H; [exact H|].
  destruct H as [_ H]. rewrite exec_cons. now apply IH.
Qed.

(** Versions along a run.  Along every sequence of arriving updates and
    processed acknowledgements, the stored version of each document is
    either the one the run started with or a version carried by one of the
    pushes or answers of the run: no version is ever computed locally.  If
    moreover every success answer carries a version that is not below the
    local one when it is processed, then the stored versions never
    decrease: the versions after any prefix of the run are at most those at
    its end.  Without that condition they can decrease. *)
Theorem versions_follow_the_remote_authority (before after : list op)
  (this : ApiSessionClient) :
  let ops := (before ++ after)%list in
  (metadataVersion (exec ops this) = metadataVersion this
   \/ In (metadataVersion (exec ops this)) (flat_map carried_metadataVersion ops))
  /\ (agentStateVersion (exec ops this) = agentStateVersion this
      \/ In (agentStateVersion (exec ops this)) (flat_map carried_agentStateVersion ops))
  /\ (all_confirm_forward JSON_parse safeParse consumers ops this ->
      (metadataVersion (exec before this) <= metadataVersion (exec ops this))%Z
      /\ (agentStateVersion (exec before this) <= agentStateVersion (exec ops this))%Z).
Proof.
  cbv zeta. destruct (exec_versions (before ++ after) this) as [[Hm Ha] _].
  split; [exact Hm|]. split; [exact Ha|].
  intros Hall. rewrite exec_app.
  apply (proj2 (exec_versions after (exec before this))).
  now apply all_confirm_forward_app.
Qed.

(** *** The retry loop *)

Lemma backoff_retries {A} (attempt : M ApiSessionClient A) later this e :
  out (attempt this) = Throw e ->
  Sync.backoff (attempt :: later) this
  = let r := Sync.backoff later (post (attempt this)) in
    Res (out r) (post r) (evs (attempt this) ++ evs r).
Proof.
  intros Ho. cbn [Sync.backoff]. unfold try_catch, bind. rewrite Ho. reflexivity.
Qed.

Lemma backoff_settles {A} (attempt : M ApiSessionClient A) later this a :
  out (attempt this) = Ret a ->
  Sync.backoff (attempt :: later) this
  = Res (Ret (Some a)) (post (attempt this)) (evs (attempt this) ++ []).
Proof.
  intros Ho. cbn [Sync.backoff]. unfold try_catch, bind. rewrite Ho. reflexivity.
Qed.

Lemma backoff_returns {A} (attempts : list (M ApiSessionClient A)) : forall this,
  exists a, out (Sync.backoff attempts this) = Ret a.
Proof.
  induction attempts as [|attempt later IH]; intros this.
  - now exists None.
  - destruct (out (attempt this)) as [a|e] eqn:Ho.
    + rewrite (backoff_settles _ _ _ _ Ho). now exists (Some a).
    + rewrite (backoff_retries _ _ _ _ Ho). cbn. apply IH.
Qed.

Lemma updateMetadata_run handler acks this :
  let r := Session.updateMetadata JSON_parse handler acks this in
  let loop := Sync.backoff (map (Session.metadata_attempt JSON_parse handler) acks) this in
  out r = Ret tt /\ post r = post loop /\ evs r = evs loop.
Proof.
  cbv zeta. unfold Session.updateMetadata, Sync.inLock, bind.
  destruct (backoff_returns (map (Session.metadata_attempt JSON_parse handler) acks) this)
    as [a Ho].
  rewrite Ho. cbn. rewrite app_nil_r. auto.
Qed.

Lemma updateAgentState_run handler acks this :
  let r := Session.updateAgentState JSON_parse handler acks this in
  let loop := Sync.backoff (map (Session.agentState_attempt JSON_parse handler) acks) this in
  out r = Ret tt /\ post r = post loop
  /\ evs r = Log "Updating agent state" :: evs loop.
Proof.
  cbv zeta. unfold Session.updateAgentState, Sync.inLock, bind, log, tell.
  cbn [out post evs].
  destruct (backoff_returns (map (Session.agentState_attempt JSON_parse handler) acks) this)
    as [a Ho].
  rewrite Ho. cbn. rewrite app_nil_r. auto.
Qed.

Lemma metadata_attempt_run handler ack this :
  let r := Session.metadata_attempt JSON_parse handler ack this in
  let received := Session.metadata_receive JSON_parse ack this in
  out r = out received /\ post r = post received
  /\ evs r = SocketEmitWithAck (socket this) "update-metadata"
               (Session.update_metadata_request this (handler (metadata this)))
             :: evs received.
Proof.
  cbv zeta. unfold Session.metadata_attempt, Session.metadata_send, bind, get, tell.
  cbn [out post evs]. destruct (out (Session.metadata_receive JSON_parse ack this)); auto.
Qed.

Lemma agentState_attempt_run handler ack this :
  let r := Session.agentState_attempt JSON_parse handler ack this in
  let received := Session.agentState_receive JSON_parse ack this in
  let base := if JS.truthy (agentState this) then agentState this else VObj [] in
  out r = out received /\ post r = post received
  /\ evs r = SocketEmitWithAck (socket this) "update-state"
               (Session.update_state_request this (handler base))
             :: evs received.
Proof.
  cbv zeta. unfold Session.agentState_attempt, Session.agentState_send, bind, get, tell.
  cbn [out post evs]. destruct (out (Session.agentState_receive JSON_parse ack this)); auto.
Qed.


Lemma backoff_starts {A} (attempt : M ApiSessionClient A) later this :
  exists rest, evs (Sync.backoff (attempt :: later) this) = (evs (attempt this) ++ rest)%list.
Proof.
  destruct (out (attempt this)) as [a|e] eqn:Ho.
  - rewrite (backoff_settles _ _ _ _ Ho). now exists [].
  - rewrite (backoff_retries _ _ _ _ Ho). cbn. eauto.
Qed.

(** C2, as amended. Let a conditional write be answered
    ['version-mismatch'] with a version strictly greater than the local one
    and an attached value that decodes to [v].  The attempt then stores
    that version and [v] as the
    local document and fails with the mismatch error; the backoff loop
    goes on from the adopted state, so the whole call does what its first
    request followed by the same call on the adopted state does, and the
    next request, if the run has one, carries the adopted version as
    [expectedVersion] and the mutator applied to [v].  This holds for
    [updateMetadata] and for [updateAgentState]. *)
Theorem mismatch_adopts_then_retries (handler : value -> value) (answer : Answer)
  (later : list Ack) (this : ApiSessionClient) (v : value) :
  result answer = "version-mismatch" ->
  ((answer_version answer > metadataVersion this)%Z ->
   decoded_metadata (answer_doc answer) = Some v ->
   let first := Session.metadata_attempt JSON_parse handler (Answered answer) this in
   let adopted := set_metadata v (set_metadataVersion (answer_version answer) this) in
   let whole := Session.updateMetadata JSON_parse handler (Answered answer :: later) this in
   let retry := Session.updateMetadata JSON_parse handler later adopted in
   out first = Throw (ErrorObj "Metadata version mismatch")
   /\ post first = adopted
   /\ post whole = post retry
   /\ evs whole
      = SocketEmitWithAck (socket this) "update-metadata"
          (Session.update_metadata_request this (handler (metadata this)))
        :: evs retry
   /\ (later <> [] ->
       exists rest,
         evs retry
         = SocketEmitWithAck (socket this) "update-metadata"
             (VObj [("sid", VStr (sessionId this));
                    ("expectedVersion", VNum (answer_version answer));
                    ("metadata", JSON.stringify_value (handler v))])
           :: rest))
  /\ ((answer_version answer > agentStateVersion this)%Z ->
      decoded_agentState (answer_doc answer) = Some v ->
      let first := Session.agentState_attempt JSON_parse handler (Answered answer) this in
      let adopted := set_agentState v (set_agentStateVersion (answer_version answer) this) in
      let whole := Session.updateAgentState JSON_parse handler (Answered answer :: later) this in
      let retry := Session.updateAgentState JSON_parse handler later adopted in
      let updated := handler (if JS.truthy v then v else VObj []) in
      out first = Throw (ErrorObj "Agent state version mismatch")
      /\ post first = adopted
      /\ post whole = post retry
      /\ (exists request,
            evs whole = Log "Updating agent state" :: request :: tl (evs retry)
            /\ request
               = SocketEmitWithAck (socket this) "update-state"
                   (Session.update_state_request this
                      (handler (if JS.truthy (agentState this)
                                then agentState this else VObj []))))
      /\ (later <> [] ->
          exists rest,
            evs retry
            = Log "Updating agent state"
              :: SocketEmitWithAck (socket this) "update-state"
                   (VObj [("sid", VStr (sessionId this));
                          ("expectedVersion", VNum (answer_version answer));
                          ("agentState",
                           if JS.truthy updated then JSON.stringify_value updated
                           else VNull)])
              :: rest)).
Proof.
  intros Hres. split.
  - intros Hgt Hd. cbv zeta.
    destruct (metadata_attempt_run handler (Answered answer) this) as (Ho & Hp & He).
    rewrite metadata_receive_run, Hres, Hd in Ho, Hp, He.
    change (String.eqb "version-mismatch" "success") with false in Ho, Hp, He.
    change (String.eqb "version-mismatch" "version-mismatch") with true in Ho, Hp, He.
    assert ((answer_version answer >? metadataVersion this)%Z = true) as Hb
      by (apply Z.gtb_lt; lia).
    rewrite Hb in Ho, Hp, He. cbn [out post evs] in Ho, Hp, He.
    split; [exact Ho|]. split; [exact Hp|].
    destruct (updateMetadata_run handler (Answered answer :: later) this) as (_ & Hwp & Hwe).
    destruct (updateMetadata_run handler later
                (set_metadata v (set_metadataVersion (answer_version answer) this)))
      as (_ & Hrp & Hre).
    cbv zeta in *. rewrite Hwp, Hwe, Hrp, Hre. cbn [map].
    rewrite (backoff_retries _ _ _ _ Ho), Hp, He. cbn [out post evs app].
    split; [reflexivity|]. split; [reflexivity|].
    intros Hne. destruct later as [|ack later]; [contradiction|]. cbn [map].
    destruct (backoff_starts
                (Session.metadata_attempt JSON_parse handler ack)
                (map (Session.metadata_attempt JSON_parse handler) later)
                (set_metadata v (set_metadataVersion (answer_version answer) this)))
      as [rest Hrest].
    rewrite Hrest.
    destruct (metadata_attempt_run handler ack
                (set_metadata v (set_metadataVersion (answer_version answer) this)))
      as (_ & _ & He').
    cbv zeta in He'. rewrite He'. cbn. eauto.
  - intros Hgt Hd. cbv zeta.
    destruct (agentState_attempt_run handler (Answered answer) this) as (Ho & Hp & He).
    cbv zeta in Ho, Hp, He.
    rewrite agentState_receive_run, Hres, Hd in Ho, Hp, He.
    change (String.eqb "version-mismatch" "success") with false in Ho, Hp, He.
    change (String.eqb "version-mismatch" "version-mismatch") with true in Ho, Hp, He.
    assert ((answer_version answer >? agentStateVersion this)%Z = true) as Hb
      by (apply Z.gtb_lt; lia).
    rewrite Hb in Ho, Hp, He. cbn [out post evs] in Ho, Hp, He.
    split; [exact Ho|]. split; [exact Hp|].
    destruct (updateAgentState_run handler (Answered answer :: later) this)
      as (_ & Hwp & Hwe).
    destruct (updateAgentState_run handler later
                (set_agentState v (set_agentStateVersion (answer_version answer) this)))
      as (_ & Hrp & Hre).
    cbv zeta in *. rewrite Hwp, Hwe, Hrp, Hre. cbn [map].
    rewrite (backoff_retries _ _ _ _ Ho), Hp, He. cbn [out post evs app tl].
    split; [reflexivity|]. split; [eexists; split; reflexivity|].
    intros Hne. destruct later as [|ack later]; [contradiction|]. cbn [map].
    destruct (backoff_starts
                (Session.agentState_attempt JSON_parse handler ack)
                (map (Session.agentState_attempt JSON_parse handler) later)
                (set_agentState v (set_agentStateVersion (answer_version answer) this)))
      as [rest Hrest].
    rewrite Hrest.
    destruct (agentState_attempt_run handler ack
                (set_agentState v (set_agentStateVersion (answer_version answer) this)))
      as (_ & _ & He').
    cbv zeta in He'. rewrite He'. cbn. eauto.
Qed.


(** *** Sends while disconnected *)

(** Building the content of a Claude message reads the body and nothing
    else. *)
Lemma claude_content_reads_only body this :
  post (Session.claude_content body this) = this
  /\ evs (Session.claude_content body this) = [].
Proof.
  unfold Session.claude_content, bind, lift, ret, JS.prop.
  destruct (JS.nullish body); cbn [out post evs]; [auto|].
  destruct (JS.is_str "user" (JS.get "type" body)); cbn [out post evs andb].
  - destruct (JS.nullish (JS.get "message" body)); cbn [out post evs]; [auto|].
    destruct (JS.is_string _ && _ && _); cbn; auto.
  - cbn. auto.
Qed.

Lemma sendClaudeSessionMessage_disconnected body now acks content this :
  connected this = false ->
  out (Session.claude_content body this) = Ret content ->
  Session.sendClaudeSessionMessage JSON_parse body now acks this
  = Res (Ret tt) this
      [Log "[SOCKET] Sending message through socket:";
       Log "[API] Socket not connected, cannot send Claude session message. Message will be lost:"].
Proof.
  intros Hoff Hcontent.
  destruct (claude_content_reads_only body this) as [Hp He].
  unfold Session.sendClaudeSessionMessage. unfold bind at 1. cbv zeta.
  rewrite Hcontent, Hp, He.
  unfold bind, log, tell, get. cbn [out post evs].
  rewrite Hoff. reflexivity.
Qed.

(** C8, as amended. While the socket is not connected,
    [sendClaudeSessionMessage] (for a body of its declared type, from which
    the content can be built) and [sendCodexMessage] return normally, leave
    the client as it is and hand nothing to the socket: all they do is
    write logger entries (so the usage report and the summary write a
    Claude message would start are skipped as well).  [keepAlive] returns
    normally and hands the socket one volatile packet, which the transport
    may discard.  A conditional write, of the metadata or of the agent
    state, whose acknowledgement is rejected is not given up: the call goes
    on with the next attempt from the same state. *)
Theorem guarded_sends_drop_while_disconnected (this : ApiSessionClient) :
  connected this = false ->
  (forall body now acks content,
      out (Session.claude_content body this) = Ret content ->
      let r := Session.sendClaudeSessionMessage JSON_parse body now acks this in
      out r = Ret tt /\ post r = this
      /\ evs r
         = [Log "[SOCKET] Sending message through socket:";
            Log "[API] Socket not connected, cannot send Claude session message. Message will be lost:"])
  /\ (forall body,
         let r := Session.sendCodexMessage body this in
         out r = Ret tt /\ post r = this
         /\ evs r = [Log "[API] Socket not connected, cannot send message."])
  /\ (forall thinking mode debug now,
         let r := Session.keepAlive thinking mode debug now this in
         out r = Ret tt /\ post r = this
         /\ exists packet,
              effects (evs r) = [SocketVolatileEmit (socket this) "session-alive" packet])
  /\ (forall handler e later,
         let whole := Session.updateMetadata JSON_parse handler (Rejected e :: later) this in
         let rest := Session.updateMetadata JSON_parse handler later this in
         out whole = Ret tt /\ post whole = post rest
         /\ evs whole
            = SocketEmitWithAck (socket this) "update-metadata"
                (Session.update_metadata_request this (handler (metadata this)))
              :: evs rest)
  /\ (forall handler e later,
         let whole := Session.updateAgentState JSON_parse handler (Rejected e :: later) this in
         let rest := Session.updateAgentState JSON_parse handler later this in
         let base := if JS.truthy (agentState this) then agentState this else VObj [] in
         out whole = Ret tt /\ post whole = post rest
         /\ evs whole
            = Log "Updating agent state"
              :: SocketEmitWithAck (socket this) "update-state"
                   (Session.update_state_request this (handler base))
              :: tl (evs rest)).
Proof.
  intros Hoff. split; [|split; [|split; [|split]]].
  - intros body now acks content Hcontent. cbv zeta.
    now rewrite (sendClaudeSessionMessage_disconnected body now acks content this
                   Hoff Hcontent).
  - intros body. cbv zeta.
    unfold Session.sendCodexMessage, bind, log, tell, get. cbn [out post evs].
    rewrite Hoff. cbn. auto.
  - intros thinking mode debug now. cbv zeta.
    unfold Session.keepAlive, bind, log, tell, get.
    destruct debug; cbn; eauto.
  - intros handler e later. cbv zeta.
    destruct (updateMetadata_run handler (Rejected e :: later) this) as (Ho & Hp & He).
    destruct (updateMetadata_run handler later this) as (_ & Hp' & He').
    cbv zeta in *. rewrite Ho, Hp, He, Hp', He'. cbn [map].
    destruct (metadata_attempt_run handler (Rejected e) this) as (Hao & Hap & Hae).
    cbv zeta in *. rewrite metadata_receive_run in Hao, Hap, Hae.
    cbn [out post evs] in Hao, Hap, Hae.
    rewrite (backoff_retries _ _ _ _ Hao), Hap, Hae. cbn. auto.
  - intros handler e later. cbv zeta.
    destruct (updateAgentState_run handler (Rejected e :: later) this) as (Ho & Hp & He).
    destruct (updateAgentState_run handler later this) as (_ & Hp' & He').
    cbv zeta in *. rewrite Ho, Hp, He, Hp', He'. cbn [map tl].
    destruct (agentState_attempt_run handler (Rejected e) this) as (Hao & Hap & Hae).
    cbv zeta in *. rewrite agentState_receive_run in Hao, Hap, Hae.
    cbn [out post evs] in Hao, Hap, Hae.
    rewrite (backoff_retries _ _ _ _ Hao), Hap, Hae. cbn. auto.
Qed.

End WithEnvironment.
End SessionProps.

(** ** Scenarios

    The properties above at concrete inputs, run with the reference reader
    and the sample schema, together with the inputs at which a property of
    the specification does not hold as worded. *)

Module Scenarios.
Import Obs Samples.

#[local] Abbreviation on_update := (Session.on_update Reader.parse user_text_schema attentive).
#[local] Abbreviation exec := (Session.exec Reader.parse user_text_schema attentive).
#[local] Abbreviation trace := (Obs.trace Reader.parse user_text_schema attentive).

(** *** C1 *)

(** C1, at an input where the stored version decreases.  At metadata
    version 5 a conditional write is pending when a push of version 7
    arrives; the write is then answered success with version 6.  The push
    is applied, and the success branch of [updateMetadata], which assigns
    the answered version without comparing it, lowers the stored version
    from 7 to 6 and replaces the value pushed. *)
Lemma late_success_answer_lowers_the_version :
  let this := client true in
  let sent := Session.metadata_send set_summary this in
  let pushed :=
    Session.Arrive
      (push (Some {| Session.version := 7; Session.doc := VObj [("path", VStr "/new")] |})
         None) in
  let acked := Session.MetadataAck (answer "success" 6 (VObj [("path", VStr "/work")])) in
  (post sent = this
   /\ exists updated,
        evs sent
        = [SocketEmitWithAck 0 "update-metadata"
             (VObj [("sid", VStr "s1"); ("expectedVersion", VNum 5);
                    ("metadata", updated)])])
  /\ Session.metadataVersion (exec [pushed] this) = 7%Z
  /\ Session.metadata (exec [pushed] this) = VObj [("path", VStr "/new")]
  /\ Session.metadataVersion (exec [pushed; acked] this) = 6%Z
  /\ Session.metadata (exec [pushed; acked] this) = VObj [("path", VStr "/work")].
Proof. cbv zeta. split; [split; [reflexivity | eexists; reflexivity]|]. repeat split. Qed.

(** A push of version 7 and then a success answer of version 8. *)
Lemma versions_follow_the_remote_authority_witness :
  let this := client true in
  let before :=
    [Session.Arrive (push (Some {| Session.version := 7; Session.doc := VObj [] |}) None)] in
  let after := [Session.MetadataAck (answer "success" 8 (VObj []))] in
  all_confirm_forward Reader.parse user_text_schema attentive (before ++ after) this
  /\ Session.metadataVersion (exec before this) = 7%Z
  /\ Session.metadataVersion (exec (before ++ after) this) = 8%Z
  /\ (Session.metadataVersion (exec before this)
      <= Session.metadataVersion (exec (before ++ after) this))%Z.
Proof.
  cbv zeta.
  assert (all_confirm_forward Reader.parse user_text_schema attentive
            ([Session.Arrive
                (push (Some {| Session.version := 7; Session.doc := VObj [] |}) None)]
             ++ [Session.MetadataAck (answer "success" 8 (VObj []))])
            (client true)) as Hall.
  { cbn. repeat split. intros _. lia. }
  split; [exact Hall|]. split; [reflexivity|]. split; [reflexivity|].
  apply (SessionProps.versions_follow_the_remote_authority Reader.parse user_text_schema
           attentive
           [Session.Arrive
              (push (Some {| Session.version := 7; Session.doc := VObj [] |}) None)]
           [Session.MetadataAck (answer "success" 8 (VObj []))] (client true)).
  exact Hall.
Defined.

(** *** C2: Scenario A *)

(** Local version 5; the remote answers version-mismatch with version 7
    and a value, then success with version 8. *)
Lemma mismatch_adopts_then_retries_witness :
  let this := client true in
  let r := Session.updateMetadata Reader.parse set_summary
             [Session.Answered mismatch7; success8] this in
  Session.result mismatch7 = "version-mismatch"
  /\ (Session.answer_version mismatch7 > Session.metadataVersion this)%Z
  /\ decoded_metadata Reader.parse (Session.answer_doc mismatch7) = Some base7
  /\ Session.metadataVersion (post r) = 8%Z
  /\ Session.metadata (post r)
     = VObj [("path", VStr "/work"); ("title", VStr "t"); ("summary", VStr "x")]
  /\ evs r
     = [SocketEmitWithAck 0 "update-metadata"
          (VObj [("sid", VStr "s1"); ("expectedVersion", VNum 5);
                 ("metadata",
                  JSON.stringify_value
                    (VObj [("path", VStr "/work"); ("summary", VStr "x")]))]);
        SocketEmitWithAck 0 "update-metadata"
          (VObj [("sid", VStr "s1"); ("expectedVersion", VNum 7);
                 ("metadata",
                  JSON.stringify_value
                    (VObj [("path", VStr "/work"); ("title", VStr "t");
                           ("summary", VStr "x")]))])].
Proof.
  cbv zeta.
  destruct (SessionProps.mismatch_adopts_then_retries Reader.parse set_summary mismatch7
              [success8] (client true) base7 eq_refl) as [Hmetadata _].
  assert (Session.answer_version mismatch7 > Session.metadataVersion (client true))%Z
    as Hgt by reflexivity.
  destruct (Hmetadata Hgt eq_refl) as (_ & _ & Hpost & Hevs & _).
  split; [reflexivity|]. split; [exact Hgt|]. split; [reflexivity|].
  rewrite Hpost, Hevs. repeat split.
Defined.

(** At version 5, a version-mismatch answer of version 7 whose attached
    value is the string '{oops'.  The attempt stores version 7 and fails,
    but on the parse error and with the old document still in place: the
    attached value is not adopted.  The retry then asks for version 7 with
    the mutator applied to the old document, not to the value of
    version 7. *)
Lemma newer_mismatch_with_unparsable_value_adopts_the_version_only :
  let this := client true in
  let first := Session.metadata_attempt Reader.parse set_summary (Session.Answered garbled7)
                 this in
  let whole := Session.updateMetadata Reader.parse set_summary
                 [Session.Answered garbled7; success8] this in
  (Session.result garbled7 = "version-mismatch"
   /\ (Session.answer_version garbled7 > Session.metadataVersion this)%Z
   /\ Session.answer_doc garbled7 = VStr "{oops")
  /\ (out first = Throw Session.SyntaxError
      /\ Session.metadataVersion (post first) = 7%Z
      /\ Session.metadata (post first) = VObj [("path", VStr "/work")])
  /\ evs whole
     = [SocketEmitWithAck 0 "update-metadata"
          (VObj [("sid", VStr "s1"); ("expectedVersion", VNum 5);
                 ("metadata",
                  JSON.stringify_value
                    (VObj [("path", VStr "/work"); ("summary", VStr "x")]))]);
        SocketEmitWithAck 0 "update-metadata"
          (VObj [("sid", VStr "s1"); ("expectedVersion", VNum 7);
                 ("metadata",
                  JSON.stringify_value
                    (VObj [("path", VStr "/work"); ("summary", VStr "x")]))])].
Proof. cbv zeta. split; [|split]; repeat split. Qed.

(** *** C3: Scenario B, and handlers that throw *)

Lemma handleRequest_answers_every_fault_witness :
  let missing := Rpc.handleRequest Reader.parse (request "s1:unknownMethod" "{}") manager in
  let failed := Rpc.handleRequest Reader.parse (request "s1:fail" "{}") manager in
  let rejected := Rpc.handleRequest Reader.parse (request "s1:reject" "{}") manager in
  (out missing = Ret ("{" ++ q "error" ++ ":" ++ q "Method not found" ++ "}")
   /\ post missing = manager /\ invocations (evs missing) = [])
  /\ out failed = Ret ("{" ++ q "error" ++ ":" ++ q "boom" ++ "}")
  /\ out rejected = Ret ("{" ++ q "error" ++ ":" ++ q "Unknown error" ++ "}").
Proof.
  cbv zeta.
  destruct (RpcProps.handleRequest_answers_every_fault Reader.parse
              (request "s1:unknownMethod" "{}") manager) as (_ & Hpost & Hmiss & _).
  destruct (RpcProps.handleRequest_answers_every_fault Reader.parse
              (request "s1:fail" "{}") manager) as (_ & _ & _ & Hfail & _).
  destruct (RpcProps.handleRequest_answers_every_fault Reader.parse
              (request "s1:reject" "{}") manager) as (_ & _ & _ & _ & Hreject).
  destruct (Hmiss eq_refl) as [Hout Hnone].
  split; [auto|]. split.
  - exact (Hfail failing "boom" eq_refl eq_refl).
  - exact (Hreject rejecting (VStr "boom") eq_refl eq_refl).
Defined.

(** *** C9 *)

(** Params that parse reach the handler decoded; params that do not reach
    it as the raw string, and the reply is the handler's result. *)
Lemma handleRequest_passes_params_through_witness :
  let parsed := Rpc.handleRequest Reader.parse (request "s1:echo" "[1, 2]") manager in
  let raw := Rpc.handleRequest Reader.parse (request "s1:echo" "{oops") manager in
  Assoc.lookup "s1:echo" (Rpc.handlers manager) = Some echo
  /\ (invocations (evs parsed) = [("s1:echo", VArr [VNum 1; VNum 2])]
      /\ out parsed = Ret "[1,2]")
  /\ (invocations (evs raw) = [("s1:echo", VStr "{oops")]
      /\ out raw = Ret (q "{oops")).
Proof.
  cbv zeta.
  destruct (RpcProps.handleRequest_passes_params_through Reader.parse
              (request "s1:echo" "[1, 2]") manager echo eq_refl) as [Hparsed _].
  destruct (RpcProps.handleRequest_passes_params_through Reader.parse
              (request "s1:echo" "{oops") manager echo eq_refl) as [_ Hraw].
  split; [reflexivity|]. split.
  - exact (Hparsed (VArr [VNum 1; VNum 2]) eq_refl).
  - exact (Hraw eq_refl).
Defined.

(** *** C6 *)

(** Three methods registered (one of them twice) before a disconnect are
    announced once each on the socket of the reconnect. *)
Lemma reconnect_announces_each_handler_once_witness :
  let before := Rpc.exec Reader.parse three_registrations (Rpc.new config) in
  let up := Rpc.onSocketConnect 1 (post (Rpc.onSocketDisconnect before)) in
  evs up
  = [SocketEmit 1 "rpc-register" (VObj [("method", VStr "s1:echo")]);
     SocketEmit 1 "rpc-register" (VObj [("method", VStr "s1:fail")]);
     SocketEmit 1 "rpc-register" (VObj [("method", VStr "s1:reject")])]
  /\ exists names,
       evs up
       = map (fun k => SocketEmit 1 "rpc-register" (VObj [("method", VStr k)])) names
       /\ count_occ string_dec names "s1:echo" = 1
       /\ count_occ string_dec names "s1:fail" = 1
       /\ count_occ string_dec names "s1:reject" = 1.
Proof.
  cbv zeta. split; [reflexivity|].
  destruct (RpcProps.reconnect_announces_each_handler_once Reader.parse config
              three_registrations 1) as (_ & _ & names & Hevs & Honce & _).
  exists names. split; [exact Hevs|].
  split; [|split].
  - apply (Honce "echo"). cbn. auto.
  - apply (Honce "fail"). cbn. auto.
  - apply (Honce "reject"). cbn. auto.
Defined.

(** *** C4 *)

Lemma buffered_messages_reach_the_consumer_in_order_witness :
  let waiting := exec (map Session.Arrive early) (client true) in
  let attach := Session.onUserMessage attentive 7 waiting in
  Session.pendingMessageCallback (client true) = None
  /\ Forall2 (fun data m => user_message_of Reader.parse user_text_schema data = Some m)
       early [m1; m2; m3]
  /\ Forall (fun m => attentive 7 m = Ret tt)
       (Session.pendingMessages (client true) ++ [m1; m2; m3])
  /\ Session.pendingMessages waiting = [m1; m2; m3]
  /\ deliveries (evs attach) = [(7, m1); (7, m2); (7, m3)]
  /\ Session.pendingMessages (post attach) = []
  /\ deliveries (trace [Session.Arrive (new_message m4)] (post attach)) = [(7, m4)]
  /\ Session.pendingMessages (exec [Session.Arrive (new_message m4)] (post attach)) = [].
Proof.
  cbv zeta.
  assert (Forall2 (fun data m => user_message_of Reader.parse user_text_schema data = Some m)
            early [m1; m2; m3]) as Hearly
    by (repeat constructor).
  assert (Forall2 (fun data m => user_message_of Reader.parse user_text_schema data = Some m)
            [new_message m4] [m4]) as Hlate
    by (repeat constructor).
  assert (Forall (fun m => attentive 7 m = Ret tt)
            (Session.pendingMessages (client true) ++ [m1; m2; m3])) as Hreturns
    by (repeat constructor).
  destruct (SessionProps.buffered_messages_reach_the_consumer_in_order
              Reader.parse user_text_schema attentive (client true) early [new_message m4]
              [m1; m2; m3] [m4] 7 eq_refl Hearly Hlate Hreturns)
    as ((_ & Hbuf) & (_ & Hdel & Hempty & _) & (Hlater & Hsame)).
  split; [reflexivity|]. split; [exact Hearly|]. split; [exact Hreturns|].
  split; [exact Hbuf|].
  split; [exact Hdel|]. split; [exact Hempty|]. split; [exact Hlater|].
  cbn [map] in Hsame. rewrite Hsame. exact Hempty.
Defined.

(** A consumer that throws on the second of three buffered messages: the
    attachment ends there, with the third message still in the buffer,
    where it stays while a message that arrives later is handed to the
    consumer. *)
Lemma throwing_consumer_strands_the_buffer :
  let waiting := Session.exec Reader.parse user_text_schema fragile
                   (map Session.Arrive early) (client true) in
  let attach := Session.onUserMessage fragile 7 waiting in
  let later := Session.on_update Reader.parse user_text_schema fragile (new_message m4)
                 (post attach) in
  Session.pendingMessages waiting = [m1; m2; m3]
  /\ out attach = Throw (ErrorObj "cannot handle 'two'")
  /\ deliveries (evs attach) = [(7, m1); (7, m2)]
  /\ Session.pendingMessages (post attach) = [m3]
  /\ Session.pendingMessageCallback (post attach) = Some 7
  /\ deliveries (evs later) = [(7, m4)]
  /\ Session.pendingMessages (post later) = [m3].
Proof. cbv zeta. repeat split. Qed.

(** *** C5 and C10 *)

(** At version 5, a metadata push of version 7 whose value does not parse
    changes nothing, although 7 is strictly greater than 5. *)
Lemma newer_push_with_unparsable_value_is_ignored :
  let this := client true in
  let r := on_update (push (Some unparsable7) None) this in
  (Session.version unparsable7 > Session.metadataVersion this)%Z
  /\ post r = this.
Proof. split; reflexivity. Qed.

Lemma push_applies_iff_newer_and_decodable_witness :
  let this := client true in
  let r := on_update (push (Some unparsable7) (Some object7)) this in
  (Session.metadata (post r) = Session.metadata this
   /\ Session.metadataVersion (post r) = 5%Z)
  /\ (Session.agentState (post r) = VObj [("state", VStr "idle")]
      /\ Session.agentStateVersion (post r) = 7%Z).
Proof.
  cbv zeta.
  destruct (SessionProps.push_applies_iff_newer_and_decodable Reader.parse user_text_schema
              attentive
              (Some unparsable7) (Some object7) (client true))
    as (_ & _ & _ & _ & Hstate & _).
  split; [split; reflexivity|].
  exact (Hstate object7 (VObj [("state", VStr "idle")]) eq_refl eq_refl eq_refl).
Defined.

Lemma malformed_push_changes_neither_value_nor_version_witness :
  let this := client true in
  let r := on_update (push (Some unparsable7) (Some object7)) this in
  Reader.parse "{oops" = None
  /\ Session.metadata (post r) = Session.metadata this
  /\ Session.metadataVersion (post r) = Session.metadataVersion this.
Proof.
  cbv zeta.
  destruct (SessionProps.malformed_push_changes_neither_value_nor_version
              Reader.parse user_text_schema attentive (Some unparsable7) (Some object7)
              (client true))
    as (Hmetadata & _).
  split; [reflexivity|].
  exact (Hmetadata unparsable7 "{oops" eq_refl eq_refl eq_refl).
Defined.

(** *** C7: Scenario C, and a wrapper inside a wrapper *)

Lemma wrapper_routes_like_its_payload_witness :
  let wrapped := on_update (new_message (wrapper hi_text)) (client true) in
  let direct := on_update (new_message hi) (client true) in
  Reader.parse hi_text = Some hi
  /\ JS.nullish hi = false
  /\ JS.get "t" hi <> VStr "encrypted"
  /\ post wrapped = post direct
  /\ effects (evs wrapped) = effects (evs direct)
  /\ effects (evs direct) = [EmitLocal "message" hi].
Proof.
  cbv zeta.
  assert (JS.get "t" hi <> VStr "encrypted") as Hplain by discriminate.
  destruct (SessionProps.wrapper_routes_like_its_payload Reader.parse user_text_schema
              attentive
              (wrapper hi_text) hi_text (client true) eq_refl eq_refl) as (_ & Hsame & _).
  destruct (Hsame hi eq_refl eq_refl Hplain) as (_ & Hpost & Heffects).
  split; [reflexivity|]. split; [reflexivity|]. split; [exact Hplain|]. split; [exact Hpost|].
  split; [exact Heffects|reflexivity].
Defined.

(** When the wrapped text is itself the JSON of a wrapper, the wrapped
    update emits that inner wrapper as a generic message, while an update
    whose content is the inner wrapper unwraps it and buffers the user
    message it holds.  When the wrapped text is [null], the wrapped update
    emits [null] as a generic message, while an update whose content is
    [null] fails on reading [content.t] and emits nothing. *)
Lemma wrapped_wrapper_routes_differently :
  let wrapped := on_update (new_message (wrapper inner_wrapper_text)) (client true) in
  let direct := on_update (new_message inner_wrapper) (client true) in
  let wrapped_null := on_update (new_message (wrapper "null")) (client true) in
  let direct_null := on_update (new_message VNull) (client true) in
  (Reader.parse inner_wrapper_text = Some inner_wrapper
   /\ effects (evs wrapped) = [EmitLocal "message" inner_wrapper]
   /\ Session.pendingMessages (post wrapped) = []
   /\ effects (evs direct) = []
   /\ Session.pendingMessages (post direct) = [m1])
  /\ (Reader.parse "null" = Some VNull
      /\ effects (evs wrapped_null) = [EmitLocal "message" VNull]
      /\ effects (evs direct_null) = []).
Proof. repeat split. Qed.

(** *** C8 *)

(** On a client whose socket is not connected, [sendAgentMessage] and
    [sendUsageData] hand their packet to [socket.emit] all the same. *)
Lemma unguarded_sends_reach_the_socket_while_disconnected :
  let this := client false in
  Session.connected this = false
  /\ (exists packet,
        effects (evs (Session.sendAgentMessage "claude" acp_message this))
        = [SocketEmit 0 "message" packet])
  /\ (exists report,
        effects (evs (Session.sendUsageData usage this))
        = [SocketEmit 0 "usage-report" report]).
Proof. split; [reflexivity|]. split; eexists; reflexivity. Qed.

Lemma guarded_sends_drop_while_disconnected_witness :
  let this := client false in
  Session.connected this = false
  /\ (exists content, out (Session.claude_content assistant_message this) = Ret content)
  /\ effects (evs (Session.sendClaudeSessionMessage Reader.parse assistant_message
                     0 [] this)) = []
  /\ effects (evs (Session.sendCodexMessage acp_message this)) = []
  /\ post (Session.sendCodexMessage acp_message this) = this.
Proof.
  cbv zeta.
  destruct (SessionProps.guarded_sends_drop_while_disconnected Reader.parse (client false)
              eq_refl) as (Hclaude & Hcodex & _).
  split; [reflexivity|]. split; [eexists; reflexivity|]. split; [|split].
  - destruct (Hclaude assistant_message 0%Z [] _ eq_refl) as (_ & _ & Hevs).
    rewrite Hevs. reflexivity.
  - destruct (Hcodex acp_message) as (_ & _ & Hevs). rewrite Hevs. reflexivity.
  - destruct (Hcodex acp_message) as (_ & Hpost & _). exact Hpost.
Defined.

End Scenarios.

(** * Further properties *)

(** ** Tables: what is read after a write *)

Module AssocLaws.
Section Table.
Context {V : Type}.
Implicit Types (t : list (string * V)) (k : string) (v : V).

Lemma lookup_set_same k v t : Assoc.lookup k (Assoc.set k v t) = Some v.
Proof.
  induction t as [|[k' v'] t IH]; cbn.
  - now rewrite String.eqb_refl.
  - destruct (String.eqb_spec k k') as [->|Hne]; cbn.
    + now rewrite String.eqb_refl.
    + destruct (String.eqb_spec k k'); [contradiction | exact IH].
Qed.

Lemma lookup_set_other k k' v t :
  k' <> k -> Assoc.lookup k' (Assoc.set k v t) = Assoc.lookup k' t.
Proof.
  intros Hne. induction t as [|[k0 v0] t IH]; cbn.
  - destruct (String.eqb_spec k' k); [contradiction | reflexivity].
  - destruct (String.eqb_spec k k0) as [->|Hk]; cbn.
    + destruct (String.eqb_spec k' k0); [contradiction | reflexivity].
    + destruct (String.eqb_spec k' k0); [reflexivity | exact IH].
Qed.

Lemma length_set k v t :
  List.length (Assoc.set k v t)
  = match Assoc.lookup k t with
    | Some _ => List.length t
    | None => S (List.length t)
    end.
Proof.
  induction t as [|[k' v'] t IH]; cbn; [reflexivity|].
  destruct (String.eqb_spec k k'); cbn; [reflexivity|].
  rewrite IH. now destruct (Assoc.lookup k t).
Qed.
End Table.
End AssocLaws.

(** ** The RPC handler registry, continued *)

Module RpcMore.
Import Obs.

Lemma tracks_new config : tracks (Rpc.new config) [].
Proof.
  split; cbn; [constructor|]. intros k. split; [intros [] | intros (m & [] & _)].
Qed.

Lemma append_injective (p a b : string) : p ++ a = p ++ b -> a = b.
Proof. induction p as [|c p IH]; cbn; [auto|]. intros [= H]. auto. Qed.

Lemma getPrefixedMethod_injective prefix a b :
  Rpc.getPrefixedMethod prefix a = Rpc.getPrefixedMethod prefix b -> a = b.
Proof.
  unfold Rpc.getPrefixedMethod. intros H.
  apply append_injective in H. now apply (append_injective ":") in H.
Qed.

Lemma NoDup_map_injective {A B} (f : A -> B) (l : list A) :
  (forall x y, f x = f y -> x = y) -> NoDup l -> NoDup (map f l).
Proof.
  intros Hinj. induction 1 as [|a l Hna Hnd IH]; cbn; constructor; [|exact IH].
  rewrite in_map_iff. intros (x & Hx & Hin). apply Hinj in Hx. now subst.
Qed.

Lemma prefix_append (p s : string) : String.prefix p (p ++ s) = true.
Proof.
  induction p as [|c p IH]; cbn; [now destruct s|].
  destruct (Ascii.ascii_dec c c); [exact IH | contradiction].
Qed.

Lemma prefix_getPrefixedMethod prefix method :
  String.prefix (prefix ++ ":") (Rpc.getPrefixedMethod prefix method) = true.
Proof.
  unfold Rpc.getPrefixedMethod.
  replace (prefix ++ ":" ++ method) with ((prefix ++ ":") ++ method).
  - apply prefix_append.
  - induction prefix as [|c p IH]; cbn; [reflexivity | now rewrite IH].
Qed.

Section WithJSON.
Variable JSON_parse : string -> option value.

(** What a request makes the manager do, by the handler found. *)
Lemma handleRequest_events request this :
  evs (Rpc.handleRequest JSON_parse request this)
  = match Assoc.lookup (Rpc.method request) (Rpc.handlers this) with
    | None => [Log "[RPC] [ERROR] Method not found"]
    | Some handler =>
        Log "[RPC] Calling handler"
        :: Invoke (Rpc.method request) (Rpc.decode_params JSON_parse (Rpc.params request))
        :: match handler (Rpc.decode_params JSON_parse (Rpc.params request)) with
           | Ret v =>
               [Log "[RPC] Handler returned";
                match JSON.stringify v with
                | Some _ => Log "[RPC] Sending response"
                | None => Log "[RPC] [ERROR] Error handling request"
                end]
           | Throw _ => [Log "[RPC] [ERROR] Error handling request"]
           end
    end.
Proof.
  cbv [Rpc.handleRequest Rpc.call try_catch bind get log tell ret throw out post evs app].
  destruct (Assoc.lookup (Rpc.method request) (Rpc.handlers this)) as [h|]; [|reflexivity].
  destruct (h _) as [v|e]; [|reflexivity].
  destruct (JSON.stringify v); reflexivity.
Qed.

(** What a request is answered depends on the manager only through the
    handler found under the method of the request. *)
Lemma handleRequest_by_lookup request this other :
  Assoc.lookup (Rpc.method request) (Rpc.handlers other)
  = Assoc.lookup (Rpc.method request) (Rpc.handlers this) ->
  out (Rpc.handleRequest JSON_parse request other)
  = out (Rpc.handleRequest JSON_parse request this)
  /\ evs (Rpc.handleRequest JSON_parse request other)
     = evs (Rpc.handleRequest JSON_parse request this).
Proof.
  intros Hsame. rewrite !handleRequest_events, Hsame. split; [|reflexivity].
  destruct (Assoc.lookup (Rpc.method request) (Rpc.handlers this)) as [h|] eqn:Hl.
  - destruct (RpcProps.handleRequest_hit JSON_parse request this h Hl) as [-> _].
    now destruct (RpcProps.handleRequest_hit JSON_parse request other h Hsame) as [-> _].
  - destruct (RpcProps.handleRequest_miss JSON_parse request this Hl) as [-> _].
    now destruct (RpcProps.handleRequest_miss JSON_parse request other Hsame) as [-> _].
Qed.

(** X1. After [registerHandler(method, handler)], whatever the manager held
    before: [hasHandler(method)] is true; a request for the prefixed method
    calls [handler], once, and is answered from its outcome (a handler
    registered earlier under the same method is replaced); and a request
    for any other method is answered exactly as before the registration. *)
Theorem registered_handler_answers (this : Rpc.RpcHandlerManager) (method : string)
  (handler : Rpc.RpcHandler) (request : Rpc.RpcRequest) :
  let after := post (Rpc.registerHandler method handler this) in
  let key := Rpc.getPrefixedMethod (Rpc.scopePrefix this) method in
  let arg := Rpc.decode_params JSON_parse (Rpc.params request) in
  Rpc.hasHandler method after = true
  /\ (Rpc.method request = key ->
      out (Rpc.handleRequest JSON_parse request after) = Ret (reply_of (handler arg))
      /\ invocations (evs (Rpc.handleRequest JSON_parse request after)) = [(key, arg)])
  /\ (Rpc.method request <> key ->
      out (Rpc.handleRequest JSON_parse request after)
      = out (Rpc.handleRequest JSON_parse request this)
      /\ evs (Rpc.handleRequest JSON_parse request after)
         = evs (Rpc.handleRequest JSON_parse request this)).
Proof.
  cbv zeta. rewrite RpcProps.registerHandler_post.
  split; [|split].
  - unfold Rpc.hasHandler. cbn [Rpc.scopePrefix Rpc.handlers Rpc.set_handlers].
    now rewrite AssocLaws.lookup_set_same.
  - intros Hkey.
    assert (Assoc.lookup (Rpc.method request)
              (Rpc.handlers
                 (Rpc.set_handlers
                    (Assoc.set (Rpc.getPrefixedMethod (Rpc.scopePrefix this) method) handler
                       (Rpc.handlers this)) this)) = Some handler) as Hl.
    { cbn [Rpc.handlers Rpc.set_handlers]. rewrite Hkey. apply AssocLaws.lookup_set_same. }
    destruct (RpcProps.handleRequest_hit JSON_parse request _ handler Hl) as [Ho Hi].
    rewrite Ho, Hi, Hkey. auto.
  - intros Hother. apply handleRequest_by_lookup.
    cbn [Rpc.handlers Rpc.set_handlers]. now apply AssocLaws.lookup_set_other.
Qed.

(** X2. [getHandlerCount] counts methods, not registrations: in a manager
    built by any sequence of calls it is the number of distinct methods
    registered since the last [clearHandlers]. *)
Theorem handler_count_counts_distinct_methods (config : Rpc.RpcHandlerConfig)
  (ops : list Rpc.op) :
  Rpc.getHandlerCount (Rpc.exec JSON_parse ops (Rpc.new config))
  = List.length (nodup string_dec (Rpc.registered ops)).
Proof.
  destruct (RpcProps.exec_tracks JSON_parse ops _ _ (tracks_new config)) as [Hs [Hnd Hkeys]].
  cbn in Hs. fold (Rpc.registered ops) in Hkeys.
  set (this := Rpc.exec JSON_parse ops (Rpc.new config)) in *.
  unfold Rpc.getHandlerCount.
  replace (List.length (Rpc.handlers this)) with (List.length (Assoc.keys (Rpc.handlers this)))
    by apply length_map.
  rewrite <- (length_map (Rpc.getPrefixedMethod (Rpc.scopePrefix this))
                (nodup string_dec (Rpc.registered ops))).
  assert (forall k, In k (Assoc.keys (Rpc.handlers this)) <->
                    In k (map (Rpc.getPrefixedMethod (Rpc.scopePrefix this))
                            (nodup string_dec (Rpc.registered ops)))) as Hsame.
  { intros k. rewrite Hkeys, in_map_iff. split.
    - intros (m & Hm & ->). exists m. split; [reflexivity | now apply nodup_In].
    - intros (m & <- & Hm). exists m. split; [now apply nodup_In in Hm | reflexivity]. }
  apply Nat.le_antisymm; apply NoDup_incl_length.
  - exact Hnd.
  - intros k. apply Hsame.
  - apply NoDup_map_injective; [apply getPrefixedMethod_injective | apply NoDup_nodup].
  - intros k. apply Hsame.
Qed.

(** X3. [clearHandlers] forgets every handler and nothing else: the count
    is zero, no method is registered, every request is answered 'Method
    not found' with no handler called, and a reconnection announces
    nothing; the socket marker is kept, so a registration made afterwards
    on a connected manager is still announced at once. *)
Theorem clearHandlers_forgets_every_handler (this : Rpc.RpcHandlerManager) :
  let cleared := post (Rpc.clearHandlers this) in
  out (Rpc.clearHandlers this) = Ret tt
  /\ effects (evs (Rpc.clearHandlers this)) = []
  /\ Rpc.getHandlerCount cleared = 0
  /\ Rpc.socket cleared = Rpc.socket this
  /\ Rpc.scopePrefix cleared = Rpc.scopePrefix this
  /\ (forall method, Rpc.hasHandler method cleared = false)
  /\ (forall request,
         out (Rpc.handleRequest JSON_parse request cleared)
         = Ret (error_payload "Method not found")
         /\ invocations (evs (Rpc.handleRequest JSON_parse request cleared)) = [])
  /\ (forall sock, evs (Rpc.onSocketConnect sock cleared) = []).
Proof.
  cbv zeta.
  replace (post (Rpc.clearHandlers this)) with (Rpc.set_handlers [] this) by reflexivity.
  do 6 (split; [reflexivity|]). split.
  - intros request.
    destruct (RpcProps.handleRequest_miss JSON_parse request
                (Rpc.set_handlers [] this) eq_refl) as [Ho He].
    now rewrite Ho, He.
  - intros sock. now destruct (RpcProps.onSocketConnect_run sock (Rpc.set_handlers [] this))
      as (_ & _ & ->).
Qed.

(** X4. A registration is announced at once or not at all: on a manager
    that holds a socket, [registerHandler] emits exactly one
    ['rpc-register'] packet on that socket, with the payload
    [{method: prefixed method}]; on a manager without a socket it emits
    nothing.  In both cases the socket marker is unchanged and the same
    packet is among those the next [onSocketConnect] emits. *)
Theorem registration_is_announced_at_once_or_on_connect
  (this : Rpc.RpcHandlerManager) (method : string) (handler : Rpc.RpcHandler) :
  let r := Rpc.registerHandler method handler this in
  let key := Rpc.getPrefixedMethod (Rpc.scopePrefix this) method in
  out r = Ret tt
  /\ Rpc.socket (post r) = Rpc.socket this
  /\ evs r = match Rpc.socket this with
             | Some sock => [SocketEmit sock "rpc-register" (VObj [("method", VStr key)])]
             | None => []
             end
  /\ forall sock,
       In (SocketEmit sock "rpc-register" (VObj [("method", VStr key)]))
          (evs (Rpc.onSocketConnect sock (post r))).
Proof.
  cbv zeta. rewrite RpcProps.registerHandler_post.
  unfold Rpc.registerHandler, bind, get, modify, tell, ret. cbn [out post evs].
  split; [now destruct (Rpc.socket this)|].
  split; [reflexivity|].
  split; [now destruct (Rpc.socket this)|].
  intros sock.
  destruct (RpcProps.onSocketConnect_run sock
              (Rpc.set_handlers
                 (Assoc.set (Rpc.getPrefixedMethod (Rpc.scopePrefix this) method) handler
                    (Rpc.handlers this)) this)) as (_ & _ & ->).
  apply (in_map (fun k => SocketEmit sock "rpc-register" (Rpc.announcement k))).
  cbn [Rpc.handlers Rpc.set_handlers].
  apply AssocFacts.in_keys_set. now left.
Qed.

(** X5. The handler map of a manager only ever holds keys that start with
    its scope prefix and a colon.  So a request whose method does not
    start that way is answered 'Method not found' and reaches no handler,
    whatever has been registered. *)
Theorem requests_outside_the_scope_reach_no_handler (config : Rpc.RpcHandlerConfig)
  (ops : list Rpc.op) (request : Rpc.RpcRequest) :
  String.prefix (Rpc.cfg_scopePrefix config ++ ":") (Rpc.method request) = false ->
  let r := Rpc.handleRequest JSON_parse request (Rpc.exec JSON_parse ops (Rpc.new config)) in
  out r = Ret (error_payload "Method not found")
  /\ invocations (evs r) = [].
Proof.
  intros Hout. cbv zeta.
  destruct (RpcProps.exec_tracks JSON_parse ops _ _ (tracks_new config)) as [Hs [_ Hkeys]].
  cbn in Hs.
  set (this := Rpc.exec JSON_parse ops (Rpc.new config)) in *.
  assert (Assoc.lookup (Rpc.method request) (Rpc.handlers this) = None) as Hmiss.
  { apply AssocFacts.lookup_none_iff. intros Hin. apply Hkeys in Hin.
    destruct Hin as (m & _ & Hm). rewrite Hm, Hs in Hout.
    now rewrite prefix_getPrefixedMethod in Hout. }
  destruct (RpcProps.handleRequest_miss JSON_parse request this Hmiss) as [Ho He].
  now rewrite Ho, He.
Qed.

(** X6. A handler that returns [undefined] does not get an empty or a
    missing response: [JSON.stringify(undefined)] is [undefined], reading
    its [length] throws inside the [try] block, and the caller is answered
    a structured error payload although the handler ran, once, and did not
    fail. *)
Theorem undefined_result_is_answered_as_an_error (this : Rpc.RpcHandlerManager)
  (request : Rpc.RpcRequest) (handler : Rpc.RpcHandler) :
  Assoc.lookup (Rpc.method request) (Rpc.handlers this) = Some handler ->
  handler (Rpc.decode_params JSON_parse (Rpc.params request)) = Ret VUndefined ->
  let r := Rpc.handleRequest JSON_parse request this in
  (exists message, out r = Ret (error_payload message))
  /\ invocations (evs r)
     = [(Rpc.method request, Rpc.decode_params JSON_parse (Rpc.params request))].
Proof.
  intros Hl Hu. cbv zeta.
  destruct (RpcProps.handleRequest_hit JSON_parse request this handler Hl) as [Ho Hi].
  rewrite Ho, Hi, Hu. split; [|reflexivity].
  eexists. reflexivity.
Qed.
End WithJSON.
End RpcMore.

(** ** The session client, continued *)

Module SessionMore.
Import Obs Session.

Section WithEnvironment.
Variable JSON_parse : string -> option value.
Variable safeParse : value -> option value.
Variable consumers : nat -> value -> outcome unit.

#[local] Abbreviation decoded_metadata := (Obs.decoded_metadata JSON_parse).
#[local] Abbreviation decoded_agentState := (Obs.decoded_agentState JSON_parse).
#[local] Abbreviation on_update := (Session.on_update JSON_parse safeParse consumers).
#[local] Abbreviation step := (Session.step JSON_parse safeParse consumers).
#[local] Abbreviation exec := (Session.exec JSON_parse safeParse consumers).
#[local] Abbreviation trace := (Obs.trace JSON_parse safeParse consumers).
#[local] Abbreviation carries m :=
  (fun data => Obs.user_message_of JSON_parse safeParse data = Some m).
#[local] Abbreviation push_metadata := (Session.push_metadata JSON_parse).
#[local] Abbreviation push_agentState := (Session.push_agentState JSON_parse).

(** *** Inbound updates *)

(** An update with no body, and an ['update-machine'] update, do
    nothing; an update with any other unknown tag is re-emitted. *)
Lemma on_update_other data this :
  (forall content, body data <> Some (NewMessage content)) ->
  (forall m a, body data <> Some (UpdateSession m a)) ->
  out (on_update data this) = Ret tt
  /\ post (on_update data this) = this
  /\ effects (evs (on_update data this))
     = match body data with
       | Some (OtherBody b) => [EmitLocal "message" b]
       | _ => []
       end.
Proof.
  intros Hn Hs. destruct data as [[[content|m a| |b]|]]; cbn; auto.
  - now destruct (Hn content).
  - now destruct (Hs m a).
Qed.

Lemma update_handler_returns data this : out (on_update data this) = Ret tt.
Proof.
  destruct data as [[[content|m a| |b]|]]; try reflexivity.
  - now destruct (SessionProps.on_update_new_message JSON_parse safeParse consumers content this).
  - now destruct (SessionProps.on_update_session JSON_parse safeParse consumers m a this).
Qed.

(** X7. The handler of ['update'] never throws, whatever arrives: every
    failure inside it ends in a logger call.  An update without a body and
    an ['update-machine'] update change nothing and have no effect; an
    update with a tag the client does not know is emitted as a generic
    ['message'] event with the client unchanged. *)
Theorem update_handler_always_returns (data : Update) (this : ApiSessionClient) :
  let r := on_update data this in
  out r = Ret tt
  /\ (body data = None \/ body data = Some UpdateMachine ->
      post r = this /\ effects (evs r) = [])
  /\ (forall b, body data = Some (OtherBody b) ->
                post r = this /\ effects (evs r) = [EmitLocal "message" b]).
Proof.
  cbv zeta. split; [|split].
  - apply update_handler_returns.
  - intros [H|H]; destruct data as [[[content|m a| |b]|]]; try discriminate; cbn; auto.
  - intros b H. destruct data as [[[content|m a| |b']|]]; try discriminate.
    injection H as ->. cbn. auto.
Qed.

Lemma push_metadata_frame pushed this :
  let c := post (push_metadata pushed this) in
  sessionId c = sessionId this /\ socket c = socket this /\ connected c = connected this
  /\ pendingMessages c = pendingMessages this
  /\ pendingMessageCallback c = pendingMessageCallback this.
Proof.
  cbv zeta. rewrite SessionProps.push_metadata_run.
  destruct pushed as [m|]; [|now cbn].
  destruct (version m >? _)%Z; [|now cbn].
  destruct (decoded_metadata (doc m)); now cbn.
Qed.

Lemma push_agentState_frame pushed this :
  let c := post (push_agentState pushed this) in
  sessionId c = sessionId this /\ socket c = socket this /\ connected c = connected this
  /\ pendingMessages c = pendingMessages this
  /\ pendingMessageCallback c = pendingMessageCallback this.
Proof.
  cbv zeta. rewrite SessionProps.push_agentState_run.
  destruct pushed as [a|]; [|now cbn].
  destruct (version a >? _)%Z; [|now cbn].
  destruct (decoded_agentState (doc a)); now cbn.
Qed.

(** X8. Each kind of update keeps to its part of the client.  No update
    changes the session id, the socket or the consumer.  Only an
    ['update-session'] can change a document or a version, and it neither
    touches the message buffer nor calls the consumer nor emits anything.
    Only a ['new-message'] can change the buffer, and all it can do to it
    is append one message at its end: nothing buffered is ever dropped or
    reordered by an update, and nothing is appended while a consumer is
    attached. *)
Theorem updates_keep_to_their_part_of_the_client (data : Update)
  (this : ApiSessionClient) :
  let r := on_update data this in
  (sessionId (post r) = sessionId this /\ socket (post r) = socket this
   /\ connected (post r) = connected this
   /\ pendingMessageCallback (post r) = pendingMessageCallback this)
  /\ ((forall m a, body data <> Some (UpdateSession m a)) ->
      metadata (post r) = metadata this
      /\ metadataVersion (post r) = metadataVersion this
      /\ agentState (post r) = agentState this
      /\ agentStateVersion (post r) = agentStateVersion this)
  /\ ((forall content, body data <> Some (NewMessage content)) ->
      pendingMessages (post r) = pendingMessages this /\ deliveries (evs r) = [])
  /\ (forall m a, body data = Some (UpdateSession m a) -> effects (evs r) = [])
  /\ (exists tail, pendingMessages (post r) = (pendingMessages this ++ tail)%list
                   /\ List.length tail <= 1
                   /\ (pendingMessageCallback this <> None -> tail = [])).
Proof.
  cbv zeta.
  destruct data as [[[content|m a| |b]|]].
  2:{ (* update-session *)
    destruct (SessionProps.on_update_session JSON_parse safeParse consumers m a this)
      as (_ & Hp & He).
    cbv zeta in Hp.
    destruct (push_metadata_frame m this) as (M1 & M2 & M3 & M4 & M5).
    destruct (push_agentState_frame a (post (push_metadata m this)))
      as (A1 & A2 & A3 & A4 & A5).
    cbv zeta in *. rewrite Hp.
    split; [repeat split; congruence|].
    split; [intros H; now destruct (H m a)|].
    split; [intros _; split; [congruence|]|].
    { rewrite <- SessionProps.deliveries_effects, He. reflexivity. }
    split; [intros; exact He|].
    exists []. rewrite app_nil_r. split; [congruence|]. split; [cbn; lia | reflexivity]. }
  1:{ (* new-message *)
    destruct (SessionProps.on_update_new_message JSON_parse safeParse consumers content this)
      as (_ & Hp & He). cbv zeta in Hp, He.
    rewrite Hp.
    assert (post (Session.on_new_message JSON_parse safeParse consumers content this) = this
            \/ (pendingMessageCallback this = None
                /\ exists m, post (Session.on_new_message JSON_parse safeParse consumers content this)
                             = set_pendingMessages (pendingMessages this ++ [m]) this))
      as Hcases.
    { unfold Session.on_new_message, bind, lift, JS.prop.
      destruct (JS.nullish content); cbn [out post evs]; [now left|].
      assert (forall payload,
                 post (Session.route safeParse consumers payload this) = this
                 \/ (pendingMessageCallback this = None
                     /\ exists m, post (Session.route safeParse consumers payload this)
                                  = set_pendingMessages (pendingMessages this ++ [m]) this))
        as Hroute.
      { intros payload. rewrite SessionProps.route_run.
        destruct (safeParse payload) as [m|]; [|now left].
        destruct (pendingMessageCallback this) eqn:Hcb; [now left | right].
        split; [reflexivity | now exists m]. }
      destruct (JS.is_str "encrypted" (JS.get "t" content)).
      - destruct (JSON_parse _) as [payload|]; [|now left].
        unfold log, tell. cbn [out post evs]. apply Hroute.
      - apply Hroute. }
    destruct Hcases as [->|(Hcb & m & ->)].
    - split; [auto|]. split; [auto|].
      split; [intros H; now destruct (H content)|].
      split; [discriminate|].
      exists []. rewrite app_nil_r. split; [reflexivity|]. split; [cbn; lia | reflexivity].
    - split; [cbn; auto|]. split; [cbn; auto|].
      split; [intros H; now destruct (H content)|].
      split; [discriminate|].
      exists [m]. split; [reflexivity|]. split; [cbn; lia|]. intros H. now destruct H. }
  all: cbn; (split; [auto|]); (split; [auto|]); (split; [auto|]);
    (split; [discriminate|]);
    exists []; rewrite app_nil_r; (split; [reflexivity|]); split; [cbn; lia | reflexivity].
Qed.

(** X9. A message that does not match the user-message schema is never
    queued and never handed to the consumer: whether a consumer is attached
    or not, it is emitted as a generic ['message'] event and the client
    stays as it was.  This holds for the plain content and for the payload
    of the legacy wrapper alike. *)
Theorem message_outside_the_schema_is_emitted_not_queued (content payload : value)
  (this : ApiSessionClient) :
  JS.nullish content = false ->
  (if JS.is_str "encrypted" (JS.get "t" content)
   then JSON_parse (JS.ToString (JS.get "c" content))
   else Some content) = Some payload ->
  safeParse payload = None ->
  let r := on_update {| body := Some (NewMessage content) |} this in
  out r = Ret tt /\ post r = this /\ effects (evs r) = [EmitLocal "message" payload].
Proof.
  intros Hnull Hpayload Hschema. cbv zeta.
  destruct (SessionProps.on_update_new_message JSON_parse safeParse consumers content this)
    as (Ho & Hp & He). cbv zeta in Hp, He.
  rewrite Ho, Hp, He. split; [reflexivity|].
  unfold Session.on_new_message, bind, lift, JS.prop. rewrite Hnull. cbn [out post evs].
  destruct (JS.is_str "encrypted" (JS.get "t" content)).
  - rewrite Hpayload. unfold log, tell. cbn [out post evs].
    rewrite SessionProps.route_run, Hschema. cbn. auto.
  - injection Hpayload as <-. rewrite SessionProps.route_run, Hschema. cbn. auto.
Qed.

Lemma handed_left_behind callback waiting :
  (Observe.handed consumers callback waiting
   ++ Observe.left_behind consumers callback waiting)%list
  = waiting.
Proof.
  induction waiting as [|first rest IH]; [reflexivity|]. cbn.
  destruct (consumers callback first); [now rewrite IH | reflexivity].
Qed.

(** The loop of [onUserMessage], whatever the consumer does. *)
Lemma drain_any callback : forall waiting this fuel,
  pendingMessages this = waiting ->
  List.length waiting <= fuel ->
  let r := Session.drain consumers fuel callback this in
  post r = set_pendingMessages (Observe.left_behind consumers callback waiting) this
  /\ evs r = map (Deliver callback) (Observe.handed consumers callback waiting)
  /\ (out r = Ret tt -> Observe.left_behind consumers callback waiting = []).
Proof.
  induction waiting as [|first rest IH]; intros this fuel Hw Hf; cbv zeta.
  - assert (Session.drain consumers fuel callback this = Res (Ret tt) this []) as ->.
    { destruct fuel; [reflexivity|]. cbn [Session.drain]. unfold bind, get.
      cbn [out post evs]. now rewrite Hw. }
    cbn. split; [|auto]. destruct this; cbn in *; now subst.
  - destruct fuel; cbn in Hf; [lia|].
    rewrite (SessionProps.drain_step consumers callback first rest this fuel Hw).
    cbn [Observe.handed Observe.left_behind].
    destruct (consumers callback first) as [[]|e].
    + destruct (IH (set_pendingMessages rest this) fuel eq_refl) as (Hp & He & Ho); [lia|].
      cbv zeta in *. cbn [out post evs]. rewrite Hp, He. cbn. auto.
    + cbn. split; [reflexivity|]. split; [reflexivity | discriminate].
Qed.

(** X10. Attaching a consumer replaces the one attached before.  A
    consumer is handed the buffered messages, oldest first, until it throws
    on one; the messages after that one stay in the buffer.  The later
    consumer is handed, when it is attached, only what the earlier one left
    there, so no message is handed to both and nothing at all when the
    earlier attachment returned; from then on every user message that
    arrives goes to the later consumer only. *)
Theorem later_consumer_replaces_the_earlier_one (this : ApiSessionClient)
  (earlier later : nat) (between after : list Update)
  (between_messages after_messages : list value) :
  Forall2 (fun data m => carries m data) between between_messages ->
  Forall2 (fun data m => carries m data) after after_messages ->
  let first := Session.onUserMessage consumers earlier this in
  let attached := post first in
  let again := Session.onUserMessage consumers later (exec (map Arrive between) attached) in
  (deliveries (evs first)
   = map (pair earlier) (Observe.handed consumers earlier (pendingMessages this))
   /\ pendingMessages attached = Observe.left_behind consumers earlier (pendingMessages this)
   /\ (Observe.handed consumers earlier (pendingMessages this) ++ pendingMessages attached)%list
      = pendingMessages this
   /\ (out first = Ret tt -> pendingMessages attached = []))
  /\ (deliveries (trace (map Arrive between) attached) = map (pair earlier) between_messages
      /\ exec (map Arrive between) attached = attached)
  /\ (deliveries (evs again)
      = map (pair later) (Observe.handed consumers later (pendingMessages attached))
      /\ (out first = Ret tt -> evs again = [])
      /\ pendingMessageCallback (post again) = Some later)
  /\ deliveries (trace (map Arrive after) (post again)) = map (pair later) after_messages.
Proof.
  intros Hbetween Hafter. cbv zeta.
  rewrite (SessionProps.onUserMessage_unfold consumers earlier this).
  destruct (drain_any earlier (pendingMessages this)
              (set_pendingMessageCallback (Some earlier) this)
              (List.length (pendingMessages this)) eq_refl (le_n _)) as (Hp & He & Ho).
  cbv zeta in Hp, He, Ho. rewrite Hp, He.
  cbn [pendingMessages set_pendingMessages].
  set (attached := set_pendingMessages _ (set_pendingMessageCallback (Some earlier) this)).
  destruct (SessionProps.arrivals_pass JSON_parse safeParse consumers between between_messages
              Hbetween attached earlier eq_refl) as (Hsame & Hd).
  rewrite Hsame.
  rewrite (SessionProps.onUserMessage_unfold consumers later attached).
  destruct (drain_any later (pendingMessages attached)
              (set_pendingMessageCallback (Some later) attached)
              (List.length (pendingMessages attached)) eq_refl (le_n _)) as (Hp' & He' & _).
  cbv zeta in Hp', He'. rewrite Hp', He'.
  split; [|split; [|split]].
  - split; [apply SessionProps.deliveries_Deliver|]. split; [reflexivity|].
    split; [apply handed_left_behind | exact Ho].
  - split; [exact Hd | reflexivity].
  - split; [apply SessionProps.deliveries_Deliver|]. split; [|reflexivity].
    intros Hret. unfold attached. cbn [pendingMessages set_pendingMessages].
    now rewrite (Ho Hret).
  - now destruct (SessionProps.arrivals_pass JSON_parse safeParse consumers after
                    after_messages Hafter
                    (set_pendingMessages
                       (Observe.left_behind consumers later (pendingMessages attached))
                       (set_pendingMessageCallback (Some later) attached))
                    later eq_refl).
Qed.
End WithEnvironment.
End SessionMore.

(** ** Pushes in any order *)

Module PushOrder.
Import Obs Session Observe.

Section WithEnvironment.
Variable JSON_parse : string -> option value.
Variable safeParse : value -> option value.
Variable consumers : nat -> value -> outcome unit.

#[local] Abbreviation decoded_metadata := (Obs.decoded_metadata JSON_parse).
#[local] Abbreviation decoded_agentState := (Obs.decoded_agentState JSON_parse).
#[local] Abbreviation on_update := (Session.on_update JSON_parse safeParse consumers).
#[local] Abbreviation exec := (Session.exec JSON_parse safeParse consumers).
#[local] Abbreviation pm p c := (post (Session.push_metadata JSON_parse p c)).
#[local] Abbreviation pa p c := (post (Session.push_agentState JSON_parse p c)).

Ltac by_cases :=
  repeat match goal with
         | |- context [(?a >? ?b)%Z] => destruct (Z.gtb_spec a b)
         | |- context [Obs.decoded_metadata JSON_parse ?d] =>
             destruct (Obs.decoded_metadata JSON_parse d)
         | |- context [Obs.decoded_agentState JSON_parse ?d] =>
             destruct (Obs.decoded_agentState JSON_parse d)
         end;
  cbn [post metadataVersion agentStateVersion set_metadataVersion set_metadata
       set_agentStateVersion set_agentState] in *.

Lemma push_metadata_commutes p q this :
  versions_differ p q -> pm q (pm p this) = pm p (pm q this).
Proof.
  intros Hd. rewrite !SessionProps.push_metadata_run.
  destruct p as [x|], q as [y|]; cbn [post versions_differ] in *;
    rewrite ?SessionProps.push_metadata_run; cbn [post]; try reflexivity.
  - destruct (Z.gtb_spec (version x) (metadataVersion this));
      destruct (Z.gtb_spec (version y) (metadataVersion this));
      destruct (decoded_metadata (doc x)); destruct (decoded_metadata (doc y));
        cbn [post]; rewrite ?SessionProps.push_metadata_run; cbn [post];
          by_cases; try reflexivity; try lia.
Qed.

Lemma push_agentState_commutes p q this :
  versions_differ p q -> pa q (pa p this) = pa p (pa q this).
Proof.
  intros Hd. rewrite !SessionProps.push_agentState_run.
  destruct p as [x|], q as [y|]; cbn [post versions_differ] in *;
    rewrite ?SessionProps.push_agentState_run; cbn [post]; try reflexivity.
  - destruct (Z.gtb_spec (version x) (agentStateVersion this));
      destruct (Z.gtb_spec (version y) (agentStateVersion this));
      destruct (decoded_agentState (doc x)); destruct (decoded_agentState (doc y));
        cbn [post]; rewrite ?SessionProps.push_agentState_run; cbn [post];
          by_cases; try reflexivity; try lia.
Qed.

(** The pushes of the two documents do not see each other. *)
Lemma pushes_swap m a this : pa a (pm m this) = pm m (pa a this).
Proof.
  rewrite (SessionProps.push_metadata_run JSON_parse m this).
  rewrite (SessionProps.push_agentState_run JSON_parse a this).
  destruct m as [x|], a as [y|]; cbn [post];
    rewrite ?SessionProps.push_metadata_run, ?SessionProps.push_agentState_run;
    cbn [post]; try reflexivity.
  destruct (version x >? metadataVersion this)%Z eqn:Hx;
    destruct (version y >? agentStateVersion this)%Z eqn:Hy;
    destruct (decoded_metadata (doc x)) eqn:Dx;
    destruct (decoded_agentState (doc y)) eqn:Dy;
    cbn [post];
    rewrite ?SessionProps.push_metadata_run, ?SessionProps.push_agentState_run;
    cbn [post metadataVersion agentStateVersion set_metadataVersion set_metadata
         set_agentStateVersion set_agentState];
    rewrite ?Hx, ?Hy, ?Dx, ?Dy; reflexivity.
Qed.

Lemma push_metadata_again p this : pm p (pm p this) = pm p this.
Proof.
  rewrite (SessionProps.push_metadata_run JSON_parse p this).
  destruct p as [x|]; cbn [post]; rewrite SessionProps.push_metadata_run; [|reflexivity].
  destruct (Z.gtb_spec (version x) (metadataVersion this)) as [Hgt|Hle].
  - destruct (decoded_metadata (doc x)) eqn:Hd; cbn [post].
    + cbn [metadataVersion set_metadataVersion].
      destruct (Z.gtb_spec (version x) (version x)); [lia | reflexivity].
    + destruct (Z.gtb_spec (version x) (metadataVersion this)); reflexivity.
  - cbn [post]. destruct (Z.gtb_spec (version x) (metadataVersion this)); [lia | reflexivity].
Qed.

Lemma push_agentState_again p this : pa p (pa p this) = pa p this.
Proof.
  rewrite (SessionProps.push_agentState_run JSON_parse p this).
  destruct p as [x|]; cbn [post]; rewrite SessionProps.push_agentState_run; [|reflexivity].
  destruct (Z.gtb_spec (version x) (agentStateVersion this)) as [Hgt|Hle].
  - destruct (decoded_agentState (doc x)) eqn:Hd; cbn [post].
    + cbn [agentStateVersion set_agentStateVersion].
      destruct (Z.gtb_spec (version x) (version x)); [lia | reflexivity].
    + destruct (Z.gtb_spec (version x) (agentStateVersion this)); reflexivity.
  - cbn [post]. destruct (Z.gtb_spec (version x) (agentStateVersion this)); [lia | reflexivity].
Qed.

Lemma exec_two (first second : op) this :
  exec [first; second] this
  = post (Session.step JSON_parse safeParse consumers second
            (post (Session.step JSON_parse safeParse consumers first this))).
Proof. now rewrite !SessionProps.exec_cons. Qed.

Lemma step_push m a this :
  post (Session.step JSON_parse safeParse consumers
          (Arrive {| body := Some (UpdateSession m a) |}) this)
  = pa a (pm m this).
Proof.
  cbn [Session.step].
  now destruct (SessionProps.on_update_session JSON_parse safeParse consumers m a this)
    as (_ & -> & _).
Qed.

(** X11. ['update-session'] pushes can arrive duplicated and out of order.
    Handling the same push twice leaves the client as handling it once
    does.  Two pushes whose versions differ, document by document, leave
    the client in the same state whichever arrives first. *)
Theorem pushes_commute (m1 a1 m2 a2 : option Versioned) (this : ApiSessionClient) :
  let first := Arrive {| body := Some (UpdateSession m1 a1) |} in
  let second := Arrive {| body := Some (UpdateSession m2 a2) |} in
  exec [first; first] this = exec [first] this
  /\ (versions_differ m1 m2 -> versions_differ a1 a2 ->
      exec [first; second] this = exec [second; first] this).
Proof.
  cbv zeta. split.
  - rewrite exec_two, SessionProps.exec_cons, !step_push.
    rewrite <- (pushes_swap m1 a1 (pm m1 this)), push_metadata_again.
    now rewrite push_agentState_again.
  - intros Hm Ha. rewrite !exec_two, !step_push.
    rewrite <- (pushes_swap m2 a1 (pm m1 this)).
    rewrite (push_metadata_commutes m1 m2 this Hm).
    rewrite (push_agentState_commutes a1 a2 _ Ha).
    now rewrite (pushes_swap m1 a2 (pm m2 this)).
Qed.
End WithEnvironment.
End PushOrder.

(** ** Conditional writes, continued *)

Module Writes.
Import Obs Session Observe.

Lemma requests_app es es' : requests (es ++ es') = (requests es ++ requests es')%list.
Proof.
  induction es as [|e es IH]; [reflexivity|].
  destruct e; cbn; rewrite ?IH; reflexivity.
Qed.

(** The retry loop ends with the first attempt that returns: what is
    listed after it is never run. *)
Lemma backoff_stops {S A} (before : list (M S A)) (attempt : M S A) (after : list (M S A)) :
  (forall c, exists a, out (attempt c) = Ret a) ->
  forall this,
    Sync.backoff (before ++ attempt :: after) this = Sync.backoff (before ++ [attempt]) this.
Proof.
  intros Hreturns. induction before as [|x before IH]; intros this; cbn [app Sync.backoff].
  - unfold try_catch, bind. destruct (Hreturns this) as [a Ha]. now rewrite Ha.
  - unfold try_catch, bind.
    destruct (out (x this)); cbn [out post evs]; [reflexivity|]. now rewrite IH.
Qed.

Section WithEnvironment.
Variable JSON_parse : string -> option value.
Variable safeParse : value -> option value.
Variable consumers : nat -> value -> outcome unit.

#[local] Abbreviation decoded_metadata := (Obs.decoded_metadata JSON_parse).
#[local] Abbreviation decoded_agentState := (Obs.decoded_agentState JSON_parse).
#[local] Abbreviation updateMetadata := (Session.updateMetadata JSON_parse).
#[local] Abbreviation updateAgentState := (Session.updateAgentState JSON_parse).
#[local] Abbreviation metadata_attempt := (Session.metadata_attempt JSON_parse).
#[local] Abbreviation agentState_attempt := (Session.agentState_attempt JSON_parse).

Lemma metadata_settles a :
  settles decoded_metadata a ->
  forall c, exists u, out (Session.metadata_receive JSON_parse (Answered a) c) = Ret u.
Proof.
  intros Hs c. rewrite SessionProps.metadata_receive_run.
  destruct Hs as [[Hr Hd]|[Hr Hr']].
  - rewrite Hr. cbn. destruct (decoded_metadata (answer_doc a)); [now exists tt | contradiction].
  - destruct (String.eqb_spec (result a) "success"); [contradiction|].
    destruct (String.eqb_spec (result a) "version-mismatch"); [contradiction|]. now exists tt.
Qed.

Lemma agentState_settles a :
  settles decoded_agentState a ->
  forall c, exists u, out (Session.agentState_receive JSON_parse (Answered a) c) = Ret u.
Proof.
  intros Hs c. rewrite SessionProps.agentState_receive_run.
  destruct Hs as [[Hr Hd]|[Hr Hr']].
  - rewrite Hr. cbn. destruct (decoded_agentState (answer_doc a)); [now exists tt | contradiction].
  - destruct (String.eqb_spec (result a) "success"); [contradiction|].
    destruct (String.eqb_spec (result a) "version-mismatch"); [contradiction|]. now exists tt.
Qed.

Lemma metadata_attempt_requests handler ack this :
  requests (evs (metadata_attempt handler ack this))
  = [Session.update_metadata_request this (handler (metadata this))].
Proof.
  destruct (SessionProps.metadata_attempt_run JSON_parse handler ack this) as (_ & _ & ->).
  cbn. rewrite SessionProps.metadata_receive_run.
  destruct ack as [a|e]; [|reflexivity].
  destruct (String.eqb (result a) "success");
    [now destruct (decoded_metadata (answer_doc a))|].
  destruct (String.eqb (result a) "version-mismatch"); [|reflexivity].
  destruct (answer_version a >? _)%Z; [|reflexivity].
  now destruct (decoded_metadata (answer_doc a)).
Qed.

Lemma agentState_attempt_requests handler ack this :
  requests (evs (agentState_attempt handler ack this))
  = [Session.update_state_request this
       (handler (if JS.truthy (agentState this) then agentState this else VObj []))].
Proof.
  destruct (SessionProps.agentState_attempt_run JSON_parse handler ack this) as (_ & _ & ->).
  cbn. rewrite SessionProps.agentState_receive_run.
  destruct ack as [a|e]; [|reflexivity].
  destruct (String.eqb (result a) "success");
    [now destruct (decoded_agentState (answer_doc a))|].
  destruct (String.eqb (result a) "version-mismatch"); [|reflexivity].
  destruct (answer_version a >? _)%Z; [|reflexivity].
  now destruct (decoded_agentState (answer_doc a)).
Qed.

(** One request per attempt made, and no more attempts than
    acknowledgements. *)
Lemma backoff_requests (attempt : Ack -> M ApiSessionClient unit) :
  (forall ack c, List.length (requests (evs (attempt ack c))) = 1) ->
  forall acks this,
    List.length (requests (evs (Sync.backoff (map attempt acks) this))) <= List.length acks.
Proof.
  intros Hone. induction acks as [|ack acks IH]; intros this; [cbn; lia|].
  cbn [map List.length]. specialize (Hone ack this).
  destruct (out (attempt ack this)) eqn:Ho.
  - rewrite (SessionProps.backoff_settles _ _ _ _ Ho). cbn [evs]. rewrite app_nil_r. lia.
  - rewrite (SessionProps.backoff_retries _ _ _ _ Ho). cbn [evs].
    rewrite requests_app, length_app. specialize (IH (post (attempt ack this))). lia.
Qed.

Lemma map_app_cons {A B} (f : A -> B) before a after :
  map f (before ++ a :: after) = (map f before ++ f a :: map f after)%list.
Proof. now rewrite map_app. Qed.

(** X12. A conditional write ends with the first answer its attempt
    accepts: a success whose document decodes, or a result other than
    'success' and 'version-mismatch'.  Whatever would have been answered to
    later requests plays no part, because no later request is made: the
    call sends at most one request per answer up to that one.  This holds
    for [updateMetadata] and for [updateAgentState]. *)
Theorem write_ends_with_the_first_answer_it_accepts (handler : value -> value)
  (before after : list Ack) (a a' : Answer) (this : ApiSessionClient) :
  settles decoded_metadata a ->
  settles decoded_agentState a' ->
  (updateMetadata handler (before ++ Answered a :: after) this
   = updateMetadata handler (before ++ [Answered a]) this
   /\ List.length (requests (evs (updateMetadata handler (before ++ Answered a :: after) this)))
      <= S (List.length before))
  /\ (updateAgentState handler (before ++ Answered a' :: after) this
      = updateAgentState handler (before ++ [Answered a']) this
      /\ List.length
           (requests (evs (updateAgentState handler (before ++ Answered a' :: after) this)))
         <= S (List.length before)).
Proof.
  intros Hm Ha. split.
  - assert (Session.updateMetadata JSON_parse handler (before ++ Answered a :: after) this
            = Session.updateMetadata JSON_parse handler (before ++ [Answered a]) this) as Heq.
    { unfold Session.updateMetadata, Sync.inLock, bind.
      rewrite !map_app_cons. cbn [map].
      rewrite (backoff_stops (map (metadata_attempt handler) before)
                 (metadata_attempt handler (Answered a))).
      - reflexivity.
      - intros c. destruct (SessionProps.metadata_attempt_run JSON_parse handler (Answered a) c)
          as (Ho & _). cbv zeta in Ho. rewrite Ho. now apply metadata_settles. }
    split; [exact Heq|]. rewrite Heq.
    destruct (SessionProps.updateMetadata_run JSON_parse handler (before ++ [Answered a]) this)
      as (_ & _ & ->).
    etransitivity; [apply backoff_requests|].
    + intros ack c. now rewrite metadata_attempt_requests.
    + rewrite length_app. cbn. lia.
  - assert (Session.updateAgentState JSON_parse handler (before ++ Answered a' :: after) this
            = Session.updateAgentState JSON_parse handler (before ++ [Answered a']) this) as Heq.
    { unfold Session.updateAgentState, Sync.inLock, bind.
      rewrite !map_app_cons. cbn [map].
      rewrite (backoff_stops (map (agentState_attempt handler) before)
                 (agentState_attempt handler (Answered a'))).
      - reflexivity.
      - intros c.
        destruct (SessionProps.agentState_attempt_run JSON_parse handler (Answered a') c)
          as (Ho & _). cbv zeta in Ho. rewrite Ho. now apply agentState_settles. }
    split; [exact Heq|]. rewrite Heq.
    destruct (SessionProps.updateAgentState_run JSON_parse handler (before ++ [Answered a']) this)
      as (_ & _ & ->).
    cbn [requests].
    etransitivity; [apply backoff_requests|].
    + intros ack c. now rewrite agentState_attempt_requests.
    + rewrite length_app. cbn. lia.
Qed.

(** A call of [updateMetadata] in terms of its first attempt. *)
Lemma updateMetadata_first handler ack later this :
  let received := Session.metadata_receive JSON_parse ack this in
  let whole := updateMetadata handler (ack :: later) this in
  let request :=
    SocketEmitWithAck (socket this) "update-metadata"
      (Session.update_metadata_request this (handler (metadata this))) in
  out whole = Ret tt
  /\ match out received with
     | Ret _ => post whole = post received /\ evs whole = request :: evs received
     | Throw _ =>
         let retry := updateMetadata handler later (post received) in
         post whole = post retry
         /\ evs whole = (request :: evs received ++ evs retry)%list
     end.
Proof.
  cbv zeta.
  destruct (SessionProps.updateMetadata_run JSON_parse handler (ack :: later) this)
    as (Ho & Hp & He).
  destruct (SessionProps.metadata_attempt_run JSON_parse handler ack this) as (Hao & Hap & Hae).
  cbv zeta in *. split; [exact Ho|]. rewrite Hp, He. cbn [map].
  destruct (out (Session.metadata_receive JSON_parse ack this)) as [u|e] eqn:Hr.
  - rewrite (SessionProps.backoff_settles _ _ _ _ Hao), Hap, Hae. cbn [post evs].
    now rewrite app_nil_r.
  - rewrite (SessionProps.backoff_retries _ _ _ _ Hao), Hap, Hae. cbn [post evs].
    destruct (SessionProps.updateMetadata_run JSON_parse handler later
                (post (Session.metadata_receive JSON_parse ack this))) as (_ & Hp' & He').
    cbv zeta in *. now rewrite Hp', He'.
Qed.

(** A call of [updateAgentState] in terms of its first attempt. *)
Lemma updateAgentState_first handler ack later this :
  let received := Session.agentState_receive JSON_parse ack this in
  let whole := updateAgentState handler (ack :: later) this in
  let request :=
    SocketEmitWithAck (socket this) "update-state"
      (Session.update_state_request this
         (handler (if JS.truthy (agentState this) then agentState this else VObj []))) in
  out whole = Ret tt
  /\ match out received with
     | Ret _ =>
         post whole = post received
         /\ evs whole = Log "Updating agent state" :: request :: evs received
     | Throw _ =>
         let retry := updateAgentState handler later (post received) in
         post whole = post retry
         /\ evs whole
            = (Log "Updating agent state" :: request :: evs received ++ tl (evs retry))%list
     end.
Proof.
  cbv zeta.
  destruct (SessionProps.updateAgentState_run JSON_parse handler (ack :: later) this)
    as (Ho & Hp & He).
  destruct (SessionProps.agentState_attempt_run JSON_parse handler ack this)
    as (Hao & Hap & Hae).
  cbv zeta in *. split; [exact Ho|]. rewrite Hp, He. cbn [map].
  destruct (out (Session.agentState_receive JSON_parse ack this)) as [u|e] eqn:Hr.
  - rewrite (SessionProps.backoff_settles _ _ _ _ Hao), Hap, Hae. cbn [post evs].
    now rewrite app_nil_r.
  - rewrite (SessionProps.backoff_retries _ _ _ _ Hao), Hap, Hae. cbn [post evs].
    destruct (SessionProps.updateAgentState_run JSON_parse handler later
                (post (Session.agentState_receive JSON_parse ack this))) as (_ & Hp' & He').
    cbv zeta in *. now rewrite Hp', He'.
Qed.

(** X13. An answer whose result is neither 'success' nor
    'version-mismatch' (an 'error' result, say) ends the write at once:
    the call returns normally after its one request, the local document
    and version are as before, and nothing is retried, whatever the mutator
    wanted to change. *)
Theorem unknown_result_ends_the_write_unchanged (handler : value -> value)
  (a : Answer) (later : list Ack) (this : ApiSessionClient) :
  result a <> "success" ->
  result a <> "version-mismatch" ->
  let m := updateMetadata handler (Answered a :: later) this in
  let s := updateAgentState handler (Answered a :: later) this in
  (out m = Ret tt /\ post m = this
   /\ evs m = [SocketEmitWithAck (socket this) "update-metadata"
                 (Session.update_metadata_request this (handler (metadata this)))])
  /\ (out s = Ret tt /\ post s = this
      /\ effects (evs s)
         = [SocketEmitWithAck (socket this) "update-state"
              (Session.update_state_request this
                 (handler (if JS.truthy (agentState this)
                           then agentState this else VObj [])))]).
Proof.
  intros Hs Hm. cbv zeta. split.
  - destruct (updateMetadata_first handler (Answered a) later this) as (Ho & Hrest).
    cbv zeta in *. rewrite SessionProps.metadata_receive_run in Hrest.
    destruct (String.eqb_spec (result a) "success"); [contradiction|].
    destruct (String.eqb_spec (result a) "version-mismatch"); [contradiction|].
    cbn [out post evs] in Hrest. destruct Hrest as [Hp He]. auto.
  - destruct (updateAgentState_first handler (Answered a) later this) as (Ho & Hrest).
    cbv zeta in *. rewrite SessionProps.agentState_receive_run in Hrest.
    destruct (String.eqb_spec (result a) "success"); [contradiction|].
    destruct (String.eqb_spec (result a) "version-mismatch"); [contradiction|].
    cbn [out post evs] in Hrest. destruct Hrest as [Hp He].
    rewrite He. auto.
Qed.

Lemma metadata_fails_early ack this :
  fails_early decoded_metadata (metadataVersion this) ack ->
  exists e, Session.metadata_receive JSON_parse ack this = Res (Throw e) this [].
Proof.
  intros Hf. rewrite SessionProps.metadata_receive_run.
  destruct ack as [a|e]; [|eauto].
  destruct Hf as [[Hr Hd]|[Hr Hv]]; rewrite Hr.
  - cbn. rewrite Hd. eauto.
  - cbn. destruct (Z.gtb_spec (answer_version a) (metadataVersion this)); [lia | eauto].
Qed.

Lemma agentState_fails_early ack this :
  fails_early decoded_agentState (agentStateVersion this) ack ->
  exists e, Session.agentState_receive JSON_parse ack this = Res (Throw e) this [].
Proof.
  intros Hf. rewrite SessionProps.agentState_receive_run.
  destruct ack as [a|e]; [|eauto].
  destruct Hf as [[Hr Hd]|[Hr Hv]]; rewrite Hr.
  - cbn. rewrite Hd. eauto.
  - cbn. destruct (Z.gtb_spec (answer_version a) (agentStateVersion this)); [lia | eauto].
Qed.

(** X14. An attempt that fails before it has assigned anything is simply
    repeated: when the emit rejects, when a success carries a document that
    does not parse, or when a version mismatch carries a version that is
    not above the local one, the client is left exactly as it was and the
    call goes on as if it had just been made, so the next request is the
    same request again. *)
Theorem failed_attempt_is_repeated_from_the_same_state (handler : value -> value)
  (ack ack' : Ack) (later : list Ack) (this : ApiSessionClient) :
  fails_early decoded_metadata (metadataVersion this) ack ->
  fails_early decoded_agentState (agentStateVersion this) ack' ->
  let m := updateMetadata handler (ack :: later) this in
  let s := updateAgentState handler (ack' :: later) this in
  ((exists e, out (metadata_attempt handler ack this) = Throw e)
   /\ post (metadata_attempt handler ack this) = this
   /\ post m = post (updateMetadata handler later this)
   /\ evs m
      = SocketEmitWithAck (socket this) "update-metadata"
          (Session.update_metadata_request this (handler (metadata this)))
        :: evs (updateMetadata handler later this))
  /\ ((exists e, out (agentState_attempt handler ack' this) = Throw e)
      /\ post (agentState_attempt handler ack' this) = this
      /\ post s = post (updateAgentState handler later this)
      /\ evs s
         = Log "Updating agent state"
           :: SocketEmitWithAck (socket this) "update-state"
                (Session.update_state_request this
                   (handler (if JS.truthy (agentState this)
                             then agentState this else VObj [])))
           :: tl (evs (updateAgentState handler later this))).
Proof.
  intros Hm Hs. cbv zeta. split.
  - destruct (metadata_fails_early ack this Hm) as [e Hr].
    destruct (SessionProps.metadata_attempt_run JSON_parse handler ack this) as (Hao & Hap & _).
    destruct (updateMetadata_first handler ack later this) as (_ & Hrest).
    cbv zeta in *. rewrite Hr in *. cbn [out post evs app] in *.
    destruct Hrest as [Hp He]. split; [eauto|]. auto.
  - destruct (agentState_fails_early ack' this Hs) as [e Hr].
    destruct (SessionProps.agentState_attempt_run JSON_parse handler ack' this)
      as (Hao & Hap & _).
    destruct (updateAgentState_first handler ack' later this) as (_ & Hrest).
    cbv zeta in *. rewrite Hr in *. cbn [out post evs app] in *.
    destruct Hrest as [Hp He]. split; [eauto|]. auto.
Qed.

(** X15. In the version-mismatch branch the version is assigned before
    the attached value is parsed.  So a mismatch answer that carries a
    greater version and a value that does not parse leaves the client with
    the new version and the old document; the attempt fails and the call
    goes on from there, its next request pairing the adopted version with
    the mutator applied to the old document. *)
Theorem mismatch_with_unparsable_value_adopts_the_version_alone
  (handler : value -> value) (a : Answer) (later : list Ack) (this : ApiSessionClient) :
  result a = "version-mismatch" ->
  ((answer_version a > metadataVersion this)%Z ->
   decoded_metadata (answer_doc a) = None ->
   let first := metadata_attempt handler (Answered a) this in
   let adopted := set_metadataVersion (answer_version a) this in
   let whole := updateMetadata handler (Answered a :: later) this in
   let retry := updateMetadata handler later adopted in
   (exists e, out first = Throw e)
   /\ post first = adopted
   /\ post whole = post retry
   /\ evs whole
      = SocketEmitWithAck (socket this) "update-metadata"
          (Session.update_metadata_request this (handler (metadata this)))
        :: evs retry
   /\ (later <> [] ->
       exists rest,
         evs retry
         = SocketEmitWithAck (socket this) "update-metadata"
             (VObj [("sid", VStr (sessionId this));
                    ("expectedVersion", VNum (answer_version a));
                    ("metadata", JSON.stringify_value (handler (metadata this)))])
           :: rest))
  /\ ((answer_version a > agentStateVersion this)%Z ->
      decoded_agentState (answer_doc a) = None ->
      let first := agentState_attempt handler (Answered a) this in
      let adopted := set_agentStateVersion (answer_version a) this in
      let whole := updateAgentState handler (Answered a :: later) this in
      let retry := updateAgentState handler later adopted in
      (exists e, out first = Throw e)
      /\ post first = adopted
      /\ agentState (post first) = agentState this
      /\ post whole = post retry
      /\ requests (evs whole)
         = Session.update_state_request this
             (handler (if JS.truthy (agentState this) then agentState this else VObj []))
           :: requests (evs retry)
      /\ (later <> [] ->
          exists rest,
            requests (evs retry)
            = Session.update_state_request adopted
                (handler (if JS.truthy (agentState this) then agentState this else VObj []))
              :: rest)).
Proof.
  intros Hres. split.
  - intros Hgt Hd. cbv zeta.
    assert (Session.metadata_receive JSON_parse (Answered a) this
            = Res (Throw SyntaxError) (set_metadataVersion (answer_version a) this) []) as Hr.
    { rewrite SessionProps.metadata_receive_run, Hres, Hd. cbn.
      destruct (Z.gtb_spec (answer_version a) (metadataVersion this)); [reflexivity | lia]. }
    destruct (SessionProps.metadata_attempt_run JSON_parse handler (Answered a) this)
      as (Hao & Hap & _).
    destruct (updateMetadata_first handler (Answered a) later this) as (_ & Hrest).
    cbv zeta in *. rewrite Hr in *. cbn [out post evs app] in *.
    destruct Hrest as [Hp He].
    split; [eauto|]. split; [exact Hap|]. split; [exact Hp|]. split; [exact He|].
    intros Hne. destruct later as [|ack later]; [contradiction|].
    destruct (updateMetadata_first handler ack later
                (set_metadataVersion (answer_version a) this)) as (_ & Hnext).
    cbv zeta in Hnext.
    destruct (out (Session.metadata_receive JSON_parse ack _));
      destruct Hnext as [_ ->]; eexists; reflexivity.
  - intros Hgt Hd. cbv zeta.
    assert (Session.agentState_receive JSON_parse (Answered a) this
            = Res (Throw SyntaxError) (set_agentStateVersion (answer_version a) this) [])
      as Hr.
    { rewrite SessionProps.agentState_receive_run, Hres, Hd. cbn.
      destruct (Z.gtb_spec (answer_version a) (agentStateVersion this)); [reflexivity | lia]. }
    destruct (SessionProps.agentState_attempt_run JSON_parse handler (Answered a) this)
      as (Hao & Hap & _).
    destruct (updateAgentState_first handler (Answered a) later this) as (_ & Hrest).
    cbv zeta in *. rewrite Hr in *. cbn [out post evs app] in *.
    destruct Hrest as [Hp He].
    split; [eauto|]. split; [exact Hap|]. split; [now rewrite Hap|]. split; [exact Hp|].
    assert (forall acks c,
               evs (Session.updateAgentState JSON_parse handler acks c)
               = Log "Updating agent state"
                 :: tl (evs (Session.updateAgentState JSON_parse handler acks c))) as Hlog.
    { intros acks c.
      destruct (SessionProps.updateAgentState_run JSON_parse handler acks c) as (_ & _ & ->).
      reflexivity. }
    split.
    + rewrite He, (Hlog later). reflexivity.
    + intros Hne. destruct later as [|ack later]; [contradiction|].
      destruct (updateAgentState_first handler ack later
                  (set_agentStateVersion (answer_version a) this)) as (_ & Hnext).
      cbv zeta in Hnext.
      destruct (out (Session.agentState_receive JSON_parse ack _));
        destruct Hnext as [_ ->]; eexists; reflexivity.
Qed.


Lemma packets_app es es' : packets (es ++ es') = (packets es ++ packets es')%list.
Proof.
  induction es as [|e es IH]; [reflexivity|].
  destruct e; cbn; rewrite ?IH; reflexivity.
Qed.

Lemma metadata_receive_keeps ack c :
  let r := Session.metadata_receive JSON_parse ack c in
  kept (post r) c
  /\ agentState (post r) = agentState c /\ agentStateVersion (post r) = agentStateVersion c
  /\ evs r = [].
Proof.
  cbv zeta. unfold kept. rewrite SessionProps.metadata_receive_run.
  destruct ack as [a|e]; [|cbn; auto 10].
  destruct (String.eqb (result a) "success");
    [destruct (decoded_metadata (answer_doc a)); cbn; auto 10|].
  destruct (String.eqb (result a) "version-mismatch"); [|cbn; auto 10].
  destruct (answer_version a >? _)%Z; [|cbn; auto 10].
  destruct (decoded_metadata (answer_doc a)); cbn; auto 10.
Qed.

Lemma agentState_receive_keeps ack c :
  let r := Session.agentState_receive JSON_parse ack c in
  kept (post r) c
  /\ metadata (post r) = metadata c /\ metadataVersion (post r) = metadataVersion c
  /\ packets (evs r) = [].
Proof.
  cbv zeta. unfold kept. rewrite SessionProps.agentState_receive_run.
  destruct ack as [a|e]; [|cbn; auto 10].
  destruct (String.eqb (result a) "success");
    [destruct (decoded_agentState (answer_doc a)); cbn; auto 10|].
  destruct (String.eqb (result a) "version-mismatch"); [|cbn; auto 10].
  destruct (answer_version a >? _)%Z; [|cbn; auto 10].
  destruct (decoded_agentState (answer_doc a)); cbn; auto 10.
Qed.

Lemma metadata_loop_keeps handler this : forall acks c,
  kept c this -> 
  let r := Sync.backoff (map (metadata_attempt handler) acks) c in
  kept (post r) this
  /\ agentState (post r) = agentState c /\ agentStateVersion (post r) = agentStateVersion c
  /\ Forall (addressed "update-metadata" this) (packets (evs r)).
Proof.
  induction acks as [|ack acks IH]; intros c Hk; cbv zeta; [cbn; auto|].
  cbn [map].
  destruct (SessionProps.metadata_attempt_run JSON_parse handler ack c) as (Hao & Hap & Hae).
  destruct (metadata_receive_keeps ack c) as (Hk' & Hs & Hv & He).
  cbv zeta in *. rewrite He in Hae.
  assert (kept (post (Session.metadata_receive JSON_parse ack c)) this) as Hk''.
  { unfold kept in *. intuition congruence. }
  assert (addressed "update-metadata" this
            (socket c, "update-metadata",
             Session.update_metadata_request c (handler (metadata c)))) as Hadd.
  { destruct Hk as (Hid & Hsock & _). unfold addressed. cbn. now rewrite Hid, Hsock. }
  destruct (out (metadata_attempt handler ack c)) as [u|e] eqn:Ho.
  - rewrite (SessionProps.backoff_settles _ _ _ _ Ho), Hap, Hae. cbn [post evs app packets].
    split; [exact Hk''|]. split; [exact Hs|]. split; [exact Hv|].
    constructor; [exact Hadd | constructor].
  - rewrite (SessionProps.backoff_retries _ _ _ _ Ho), Hap, Hae. cbn [post evs app packets].
    destruct (IH _ Hk'') as (K & S' & V' & P). cbv zeta in *.
    split; [exact K|]. split; [congruence|]. split; [congruence|].
    constructor; [exact Hadd | exact P].
Qed.

Lemma agentState_loop_keeps handler this : forall acks c,
  kept c this -> 
  let r := Sync.backoff (map (agentState_attempt handler) acks) c in
  kept (post r) this
  /\ metadata (post r) = metadata c /\ metadataVersion (post r) = metadataVersion c
  /\ Forall (addressed "update-state" this) (packets (evs r)).
Proof.
  induction acks as [|ack acks IH]; intros c Hk; cbv zeta; [cbn; auto|].
  cbn [map].
  destruct (SessionProps.agentState_attempt_run JSON_parse handler ack c)
    as (Hao & Hap & Hae).
  destruct (agentState_receive_keeps ack c) as (Hk' & Hs & Hv & He).
  cbv zeta in *.
  assert (kept (post (Session.agentState_receive JSON_parse ack c)) this) as Hk''.
  { unfold kept in *. intuition congruence. }
  assert (addressed "update-state" this
            (socket c, "update-state",
             Session.update_state_request c
               (handler (if JS.truthy (agentState c) then agentState c else VObj []))))
    as Hadd.
  { destruct Hk as (Hid & Hsock & _). unfold addressed. cbn. now rewrite Hid, Hsock. }
  destruct (out (agentState_attempt handler ack c)) as [u|e] eqn:Ho.
  - rewrite (SessionProps.backoff_settles _ _ _ _ Ho), Hap, Hae.
    cbn [post evs app packets]. rewrite app_nil_r, He.
    split; [exact Hk''|]. split; [exact Hs|]. split; [exact Hv|].
    constructor; [exact Hadd | constructor].
  - rewrite (SessionProps.backoff_retries _ _ _ _ Ho), Hap, Hae.
    cbn [post evs app packets]. rewrite packets_app, He. cbn [app].
    destruct (IH _ Hk'') as (K & S' & V' & P). cbv zeta in *.
    split; [exact K|]. split; [congruence|]. split; [congruence|].
    constructor; [exact Hadd | exact P].
Qed.

Lemma kept_refl this : kept this this.
Proof. unfold kept. auto. Qed.

Lemma updateMetadata_keeps handler acks this :
  let m := updateMetadata handler acks this in
  kept (post m) this
  /\ agentState (post m) = agentState this
  /\ agentStateVersion (post m) = agentStateVersion this.
Proof.
  cbv zeta.
  destruct (SessionProps.updateMetadata_run JSON_parse handler acks this) as (_ & -> & _).
  destruct (metadata_loop_keeps handler this acks this (kept_refl this)) as (K & S & V & _).
  auto.
Qed.

(** X16. A conditional write keeps to its document.  However it is
    answered, and however often it is retried, [updateMetadata] changes
    nothing of the client but the metadata and its version, and
    [updateAgentState] nothing but the agent state and its version: the
    other document, the message buffer and the consumer are as before.
    Every packet of the call goes to the client's own socket, is an
    ['update-metadata'] (respectively ['update-state']) request and names
    the client's session. *)
Theorem writes_keep_to_their_document (handler : value -> value) (acks : list Ack)
  (this : ApiSessionClient) :
  let m := updateMetadata handler acks this in
  let s := updateAgentState handler acks this in
  (kept (post m) this
   /\ agentState (post m) = agentState this
   /\ agentStateVersion (post m) = agentStateVersion this
   /\ Forall (addressed "update-metadata" this) (packets (evs m)))
  /\ (kept (post s) this
      /\ metadata (post s) = metadata this
      /\ metadataVersion (post s) = metadataVersion this
      /\ Forall (addressed "update-state" this) (packets (evs s))).
Proof.
  cbv zeta. split.
  - destruct (SessionProps.updateMetadata_run JSON_parse handler acks this) as (_ & -> & ->).
    apply metadata_loop_keeps, kept_refl.
  - destruct (SessionProps.updateAgentState_run JSON_parse handler acks this)
      as (_ & -> & ->).
    cbn [packets]. apply agentState_loop_keeps, kept_refl.
Qed.

End WithEnvironment.
End Writes.

(** ** Outbound sends, continued *)

Module Sends.
Import Obs Session Observe.

Section WithEnvironment.
Variable JSON_parse : string -> option value.

#[local] Abbreviation updateMetadata := (Session.updateMetadata JSON_parse).
#[local] Abbreviation sendClaudeSessionMessage := (Session.sendClaudeSessionMessage JSON_parse).

Lemma summary_is_not_assistant v :
  JS.is_str "summary" v = true -> JS.is_str "assistant" v = false.
Proof.
  destruct v; try discriminate. cbn. intros H. apply String.eqb_eq in H. now subst.
Qed.

(** [{...m, k: v}] is an object that has [v] under [k] and, under every
    other key, what [m] has as an own property: a field of an object, an
    element of an array, a character of a string. *)
Lemma spread_with_lookup m k v k' :
  Assoc.lookup k' (JS.own_properties (JS.spread_with m k v))
  = if String.eqb k' k then Some v else Assoc.lookup k' (JS.own_properties m).
Proof.
  unfold JS.spread_with. cbn [JS.own_properties].
  destruct (String.eqb_spec k' k) as [->|Hne].
  - apply AssocLaws.lookup_set_same.
  - now apply AssocLaws.lookup_set_other.
Qed.

Lemma spread_with_get m k v : JS.get k (JS.spread_with m k v) = v.
Proof.
  unfold JS.spread_with, JS.get, JS.lookup. now rewrite AssocLaws.lookup_set_same.
Qed.

Lemma sendClaudeSessionMessage_summary body content now acks this :
  connected this = true ->
  out (Session.claude_content body this) = Ret content ->
  JS.is_str "summary" (JS.get "type" body) = true ->
  JS.has "summary" body = true ->
  JS.has "leafUuid" body = true ->
  let write :=
    updateMetadata
      (fun metadata =>
         JS.spread_with metadata "summary"
           (VObj [("text", JS.get "summary" body); ("updatedAt", VNum now)]))
      acks this in
  sendClaudeSessionMessage body now acks this
  = Res (Ret tt) (post write)
      (Log "[SOCKET] Sending message through socket:"
       :: SocketEmit (socket this) "message" (Session.message_packet this content)
       :: evs write).
Proof.
  intros Hon Hcontent Htype Hsummary Hleaf. cbv zeta.
  destruct (SessionProps.claude_content_reads_only body this) as [Hp He].
  destruct (SessionProps.updateMetadata_run JSON_parse
              (fun metadata =>
                 JS.spread_with metadata "summary"
                   (VObj [("text", JS.get "summary" body); ("updatedAt", VNum now)]))
              acks this) as (Hwo & _).
  cbv zeta in Hwo.
  unfold Session.sendClaudeSessionMessage. unfold bind at 1. cbv zeta.
  rewrite Hcontent, Hp, He.
  unfold bind, log, tell, get, ret. cbn [out post evs].
  rewrite Hon. cbn [negb out post evs].
  rewrite (summary_is_not_assistant _ Htype), Htype, Hsummary, Hleaf.
  cbn [andb out post evs]. rewrite Hwo. reflexivity.
Qed.

(** X17. A summary message, sent while connected, is first sent like any
    other message and then written into the session metadata by a
    conditional write: what the call does after its ['message'] packet, and
    the state it leaves, are those of [updateMetadata] with a mutator that
    sets the [summary] property to the text of the message and the clock
    reading, and keeps every other own property of the metadata as it is
    (for metadata that is an array or a string, which the spread copies
    too, its elements or characters under their indices).  No usage report
    is sent. *)
Theorem summary_message_writes_only_the_summary (body content : value) (now : Z)
  (acks : list Ack) (this : ApiSessionClient) :
  connected this = true ->
  out (Session.claude_content body this) = Ret content ->
  JS.is_str "summary" (JS.get "type" body) = true ->
  JS.has "summary" body = true ->
  JS.has "leafUuid" body = true ->
  let r := sendClaudeSessionMessage body now acks this in
  let summary := VObj [("text", JS.get "summary" body); ("updatedAt", VNum now)] in
  let mutator := fun metadata => JS.spread_with metadata "summary" summary in
  let write := updateMetadata mutator acks this in
  out r = Ret tt
  /\ post r = post write
  /\ effects (evs r)
     = SocketEmit (socket this) "message" (Session.message_packet this content)
       :: effects (evs write)
  /\ (forall metadata, JS.get "summary" (mutator metadata) = summary)
  /\ (forall metadata k,
        k <> "summary" ->
        Assoc.lookup k (JS.own_properties (mutator metadata))
        = Assoc.lookup k (JS.own_properties metadata)).
Proof.
  intros Hon Hcontent Htype Hsummary Hleaf. cbv zeta.
  rewrite (sendClaudeSessionMessage_summary body content now acks this
             Hon Hcontent Htype Hsummary Hleaf).
  cbn [out post evs]. split; [reflexivity|]. split; [reflexivity|].
  split; [reflexivity|]. split.
  - intros metadata. apply spread_with_get.
  - intros metadata k Hk. rewrite spread_with_lookup.
    destruct (String.eqb_spec k "summary"); [contradiction | reflexivity].
Qed.

Lemma one_packet (this : ApiSessionClient) {A} (o : outcome A) ev payload :
  sends_at_most_one this (Res o this [SocketEmit (socket this) ev payload]).
Proof.
  unfold sends_at_most_one. cbn. split; [reflexivity|]. split; [lia|].
  constructor; [reflexivity | constructor].
Qed.

Lemma no_packet (this : ApiSessionClient) {A} (o : outcome A) es :
  packets es = [] -> sends_at_most_one this (Res o this es).
Proof.
  intros H. unfold sends_at_most_one. cbn [post evs]. rewrite H. cbn.
  split; [reflexivity|]. split; [lia | constructor].
Qed.

Lemma sendClaudeSessionMessage_post_run body now acks this :
  post (sendClaudeSessionMessage body now acks this)
  = match out (Session.claude_content body this) with
    | Ret _ =>
        if connected this
           && (JS.is_str "summary" (JS.get "type" body)
               && JS.has "summary" body && JS.has "leafUuid" body)
        then post (updateMetadata
                     (fun metadata =>
                        JS.spread_with metadata "summary"
                          (VObj [("text", JS.get "summary" body); ("updatedAt", VNum now)]))
                     acks this)
        else this
    | Throw _ => this
    end.
Proof.
  destruct (SessionProps.claude_content_reads_only body this) as [Hp He].
  unfold Session.sendClaudeSessionMessage. unfold bind at 1. cbv zeta.
  destruct (out (Session.claude_content body this)) as [content|e];
    rewrite Hp; cbn [out post evs]; [|reflexivity].
  unfold bind at 1. unfold log, tell. cbn [out post evs].
  unfold bind at 1. unfold get. cbn [out post evs].
  destruct (connected this); cbn [negb andb out post evs]; [|reflexivity].
  unfold bind at 1. cbn [out post evs].
  unfold bind at 1.
  assert (forall c : ApiSessionClient,
             let u := (if JS.is_str "assistant" (JS.get "type" body)
                          && JS.truthy (JS.get "usage" (JS.get "message" body))
                       then
                         try_catch
                           (Session.sendUsageData
                              (as_usage (JS.get "usage" (JS.get "message" body))))
                           (fun _ => log "[SOCKET] Failed to send usage data:")
                       else ret tt) c in
             out u = Ret tt /\ post u = c) as Husage.
  { intros c. cbv zeta. destruct (_ && _); [|now cbn].
    unfold try_catch, Session.sendUsageData, bind, log, tell, get. now cbn. }
  destruct (Husage this) as [Ho Hq]. cbv zeta in Ho, Hq. unfold log, tell in Ho, Hq.
  rewrite Ho, Hq. cbn [out post evs].
  destruct (JS.is_str "summary" (JS.get "type" body) && JS.has "summary" body
            && JS.has "leafUuid" body); reflexivity.
Qed.

Lemma sendClaudeSessionMessage_post body now acks this :
  post (sendClaudeSessionMessage body now acks this) = this
  \/ (JS.is_str "summary" (JS.get "type" body) = true
      /\ post (sendClaudeSessionMessage body now acks this)
         = post (updateMetadata
                   (fun metadata =>
                      JS.spread_with metadata "summary"
                        (VObj [("text", JS.get "summary" body); ("updatedAt", VNum now)]))
                   acks this)).
Proof.
  rewrite sendClaudeSessionMessage_post_run.
  destruct (out (Session.claude_content body this)); [|now left].
  destruct (connected this); [|now left].
  destruct (JS.is_str "summary" (JS.get "type" body)); [|now left].
  destruct (JS.has "summary" body); [|now left].
  destruct (JS.has "leafUuid" body); [|now left].
  right. split; reflexivity.
Qed.

(** X18. Sending never changes what the client holds.  [sendCodexMessage],
    [sendAgentMessage], [sendUsageData], [keepAlive], [sendSessionEvent],
    [sendSessionDeath] and [flush] leave the client exactly as it was, also
    when they throw, and hand at most one packet to the socket of the
    client.  [sendSessionEvent] and [sendSessionDeath] hand over their
    packet whatever the connection state; [flush] sends nothing while the
    socket is not connected.  [sendClaudeSessionMessage] can change the
    metadata and its version, through the write a summary message starts,
    and nothing else; for a body that is not a summary it changes
    nothing. *)
Theorem sends_leave_the_client_as_it_is (this : ApiSessionClient) :
  (forall body, sends_at_most_one this (Session.sendCodexMessage body this))
  /\ (forall provider body,
         sends_at_most_one this (Session.sendAgentMessage provider body this))
  /\ (forall usage, sends_at_most_one this (Session.sendUsageData usage this))
  /\ (forall thinking mode debug now,
         sends_at_most_one this (Session.keepAlive thinking mode debug now this))
  /\ (forall event id uuid,
         sends_at_most_one this (Lifecycle.sendSessionEvent event id uuid this)
         /\ out (Lifecycle.sendSessionEvent event id uuid this) = Ret tt
         /\ List.length (packets (evs (Lifecycle.sendSessionEvent event id uuid this))) = 1)
  /\ (forall now,
         sends_at_most_one this (Lifecycle.sendSessionDeath now this)
         /\ out (Lifecycle.sendSessionDeath now this) = Ret tt
         /\ List.length (packets (evs (Lifecycle.sendSessionDeath now this))) = 1)
  /\ (sends_at_most_one this (Lifecycle.flush this)
      /\ out (Lifecycle.flush this) = Ret tt
      /\ (connected this = false -> evs (Lifecycle.flush this) = []))
  /\ (forall body now acks,
         let r := sendClaudeSessionMessage body now acks this in
         kept (post r) this
         /\ agentState (post r) = agentState this
         /\ agentStateVersion (post r) = agentStateVersion this
         /\ (JS.is_str "summary" (JS.get "type" body) = false -> post r = this)).
Proof.
  split; [|split; [|split; [|split; [|split; [|split; [|split]]]]]].
  - intros body. unfold Session.sendCodexMessage, bind, log, tell, get. cbn [out post evs].
    destruct (connected this); cbn [negb out post evs app].
    + apply one_packet.
    + now apply no_packet.
  - intros provider body.
    unfold Session.sendAgentMessage, bind, lift, log, tell, get, JS.prop.
    destruct (JS.nullish body); cbn [out post evs]; [now apply no_packet|].
    destruct (JS.has_in "message" body); cbn [out post evs app]; [|now apply no_packet].
    unfold sends_at_most_one. cbn. split; [reflexivity|]. split; [lia|].
    constructor; [reflexivity | constructor].
  - intros usage. unfold Session.sendUsageData, bind, log, tell, get. cbn [out post evs app].
    unfold sends_at_most_one. cbn. split; [reflexivity|]. split; [lia|].
    constructor; [reflexivity | constructor].
  - intros thinking mode debug now. unfold Session.keepAlive, bind, log, tell, get, ret.
    destruct debug; cbn [out post evs app];
      (unfold sends_at_most_one; cbn; split; [reflexivity|]; split; [lia|];
       constructor; [reflexivity | constructor]).
  - intros event id uuid. unfold Lifecycle.sendSessionEvent, bind, tell, get.
    cbn [out post evs app]. split; [apply one_packet|]. split; reflexivity.
  - intros now. unfold Lifecycle.sendSessionDeath, bind, tell, get.
    cbn [out post evs app]. split; [apply one_packet|]. split; reflexivity.
  - unfold Lifecycle.flush, bind, tell, get, ret. cbn [out post evs].
    destruct (connected this); cbn [negb out post evs app].
    + split; [|split; [reflexivity | discriminate]].
      unfold sends_at_most_one. cbn. split; [reflexivity|]. split; [lia|].
      constructor; [reflexivity | constructor].
    + split; [now apply no_packet|]. split; reflexivity.
  - intros body now acks. cbv zeta.
    destruct (sendClaudeSessionMessage_post body now acks this) as [->|(Hs & ->)].
    + split; [apply Writes.kept_refl | auto].
    + destruct (Writes.updateMetadata_keeps JSON_parse
                  (fun metadata =>
                     JS.spread_with metadata "summary"
                       (VObj [("text", JS.get "summary" body); ("updatedAt", VNum now)]))
                  acks this) as (K & S & V).
      rewrite Hs. split; [exact K|]. split; [exact S|]. split; [exact V | discriminate].
Qed.

End WithEnvironment.
End Sends.

(** ** The REST client *)

Module ApiProps.
Import Api.

(** Running a task: the combinators are unfolded, the code stays. *)
Ltac run :=
  cbv [Api.bind Api.try_catch Api.axios_post Api.axios_get Api.settle Api.perform Api.debug
       Api.lift Api.ret Api.raise Api.result Api.effects Api.data Api.status JS.prop app].

(** The messages of two logger calls differ when they differ at some
    position. *)
Ltac differ H :=
  injection H as H;
  first [ apply (f_equal (String.get 6)) in H; cbn in H; discriminate H
        | apply (f_equal (String.get 12)) in H; cbn in H; discriminate H ].

Ltac not_logged :=
  let H := fresh "H" in
  cbn [In]; intros H;
  repeat (destruct H as [H|H]; [first [discriminate H | differ H]|]);
  exact H.

Ltac leaf :=
  cbn [Api.result Api.effects app];
  (split; [eexists; reflexivity|]);
  (split; [intros; first [discriminate | reflexivity]|]);
  (split; [first [ discriminate
                 | reflexivity
                 | let E := fresh in
                   let H := fresh in
                   intros ? ? E H; injection E as <- <-; first [reflexivity | now destruct H] ]|]);
  not_logged.

Section WithEnvironment.
Variable JSON_parse : string -> option value.
Variable isNetworkError : value -> bool.
Variable relayServerUrl : string.
Variable access_token : string.

#[local] Abbreviation getOrCreateSession :=
  (Api.getOrCreateSession JSON_parse isNetworkError relayServerUrl access_token).
#[local] Abbreviation getOrCreateMachine :=
  (Api.getOrCreateMachine JSON_parse isNetworkError relayServerUrl access_token).
#[local] Abbreviation registerVendorToken :=
  (Api.registerVendorToken relayServerUrl access_token).
#[local] Abbreviation getVendorToken :=
  (Api.getVendorToken JSON_parse relayServerUrl access_token).

Lemma decode_run v :
  Api.decode JSON_parse v
  = match Obs.decoded_metadata JSON_parse v with
    | Some x => Api.ret x
    | None => Api.raise (Api.of_jsError Session.SyntaxError)
    end.
Proof.
  destruct v; reflexivity.
Qed.

Lemma decode_or_null_run v :
  Api.decode_or JSON_parse v VNull
  = match Obs.decoded_agentState JSON_parse v with
    | Some x => Api.ret x
    | None => Api.raise (Api.of_jsError Session.SyntaxError)
    end.
Proof.
  unfold Api.decode_or, Obs.decoded_agentState.
  destruct (JS.truthy v); [apply decode_run | reflexivity].
Qed.

(** What the [catch] clause of [getOrCreateSession] does with an [Error]
    that has no [code] and no [response]. *)
Lemma plain_error_is_wrapped message :
  let error := Api.new_Error message in
  JS.has "code" (properties error) = false
  /\ isAxiosError error = false
  /\ JS.has "response" (properties error) = false
  /\ message_of error = message.
Proof. cbn. auto. Qed.

(** The session that an answered request returns, field by field. *)
Lemma session_of_answer tag metadata state status data session :
  result (getOrCreateSession tag metadata state (Resolves status data))
  = Fulfilled (Some session) ->
  let raw := JS.get "session" data in
  Obs.decoded_metadata JSON_parse (JS.get "metadata" raw) = Some (Types.metadata session)
  /\ Types.id session = JS.get "id" raw
  /\ Types.metadataVersion session = JS.get "metadataVersion" raw.
Proof.
  cbv zeta. unfold Api.getOrCreateSession. run.
  destruct (JS.nullish data); run; [discriminate|].
  destruct (JS.nullish (JS.get "session" data)); run; [discriminate|].
  rewrite decode_run.
  destruct (Obs.decoded_metadata JSON_parse (JS.get "metadata" (JS.get "session" data)))
    as [m|]; run; [|discriminate].
  rewrite decode_or_null_run.
  destruct (Obs.decoded_agentState JSON_parse (JS.get "agentState" (JS.get "session" data)))
    as [a|]; run; [|discriminate].
  intros [= <-]. cbn. auto.
Qed.

(** X19. When the server answers the session request, [getOrCreateSession]
    either returns a session or throws; it never returns [null] and never
    reports a connection failure.  The documents of the returned session
    are decoded just as a push decodes them (a string is parsed, a falsy
    agent state is [null]) and its id and versions are those of the
    response.  A response without a session, and a document that does not
    parse, end in an [Error] whose message starts with 'Failed to get or
    create session: '. *)
Theorem answered_session_request_is_decoded_or_refused (tag : string)
  (metadata state : value) (status : Z) (data : value) :
  let r := getOrCreateSession tag metadata state (Resolves status data) in
  let raw := JS.get "session" data in
  result r <> Fulfilled None
  /\ reports (effects r) = []
  /\ (forall session, result r = Fulfilled (Some session) ->
        Obs.decoded_metadata JSON_parse (JS.get "metadata" raw)
        = Some (Types.metadata session)
        /\ Obs.decoded_agentState JSON_parse (JS.get "agentState" raw)
           = Some (Types.agentState session)
        /\ Types.id session = JS.get "id" raw
        /\ Types.metadataVersion session = JS.get "metadataVersion" raw
        /\ Types.agentStateVersion session = JS.get "agentStateVersion" raw)
  /\ (forall error, result r = Failed error ->
        exists message,
          error = new_Error ("Failed to get or create session: " ++ message))
  /\ (JS.nullish data = false -> JS.nullish raw = false ->
      forall m a,
        Obs.decoded_metadata JSON_parse (JS.get "metadata" raw) = Some m ->
        Obs.decoded_agentState JSON_parse (JS.get "agentState" raw) = Some a ->
        exists session, result r = Fulfilled (Some session))
  /\ (JS.nullish data = true \/ JS.nullish raw = true
      \/ Obs.decoded_metadata JSON_parse (JS.get "metadata" raw) = None
      \/ Obs.decoded_agentState JSON_parse (JS.get "agentState" raw) = None ->
      exists message,
        result r = Failed (new_Error ("Failed to get or create session: " ++ message))).
Proof.
  cbv zeta. unfold Api.getOrCreateSession. run.
  destruct (JS.nullish data) eqn:Hdata; run.
  { cbn. split; [discriminate|]. split; [reflexivity|]. split; [discriminate|].
    split; [intros error [= <-]; eexists; reflexivity|].
      split; [discriminate|]. intros _. eexists. reflexivity. }
  destruct (JS.nullish (JS.get "session" data)) eqn:Hraw; run.
  { cbn. split; [discriminate|]. split; [reflexivity|]. split; [discriminate|].
    split; [intros error [= <-]; eexists; reflexivity|].
      split; [discriminate|]. intros _. eexists. reflexivity. }
  rewrite decode_run.
  destruct (Obs.decoded_metadata JSON_parse (JS.get "metadata" (JS.get "session" data)))
    as [m|] eqn:Hm; run.
  2:{ cbn. split; [discriminate|]. split; [reflexivity|]. split; [discriminate|].
      split; [intros error [= <-]; eexists; reflexivity|].
      split; [discriminate|]. intros _. eexists. reflexivity. }
  rewrite decode_or_null_run.
  destruct (Obs.decoded_agentState JSON_parse (JS.get "agentState" (JS.get "session" data)))
    as [a|] eqn:Ha; run.
  2:{ cbn. split; [discriminate|]. split; [reflexivity|]. split; [discriminate|].
      split; [intros error [= <-]; eexists; reflexivity|].
      split; [discriminate|]. intros _. eexists. reflexivity. }
  split; [discriminate|]. split; [reflexivity|]. split.
  - intros session [= <-]. cbn. auto.
  - split; [discriminate|]. split; [intros _ _ m' a' _ _; eexists; reflexivity|].
    intros [H|[H|[H|H]]]; discriminate.
Qed.

Lemma AxiosError_views message code response :
  let error := AxiosError message code response in
  isAxiosError error = true
  /\ message_of error = message
  /\ JS.truthy (properties error) = true
  /\ is_object (properties error) = true
  /\ JS.has "code" (properties error) = match code with Some _ => true | None => false end
  /\ JS.get "code" (properties error)
     = match code with Some c => VStr c | None => VUndefined end
  /\ JS.has "response" (properties error)
     = match response with Some _ => true | None => false end
  /\ response_status error
     = match response with Some s => VNum s | None => VUndefined end.
Proof. destruct code, response; cbn; auto 10. Qed.

(** X20. A session request that [axios] rejects ends in [null] exactly
    when the failure counts as the server being unreachable: its code is
    a network error, or the server answered 404 or a status from 500
    up.  The failure is then reported once to the connection state.  Any
    other rejection, a 401 or a 403 say, is thrown to the caller as an
    [Error] 'Failed to get or create session: ' followed by the message of
    the rejection, and nothing is reported.  A thrown value that is not an
    [Error] is thrown on as '... Unknown error'. *)
Theorem rejected_session_request_is_offline_or_an_error (tag : string)
  (metadata state : value) (message : string) (code : option string)
  (response : option Z) :
  let error := AxiosError message code response in
  let r := getOrCreateSession tag metadata state (Rejects error) in
  let offline :=
    match code with Some c => isNetworkError (VStr c) | None => false end
    || match response with Some s => Z.eqb s 404 || Z.leb 500 s | None => false end in
  (offline = true -> result r = Fulfilled None /\ List.length (reports (effects r)) = 1)
  /\ (offline = false ->
      result r = Failed (new_Error ("Failed to get or create session: " ++ message))
      /\ reports (effects r) = [])
  /\ (forall text,
        result (getOrCreateSession tag metadata state
                  (Rejects {| instanceof_Error := false; properties := VStr text |}))
        = Failed (new_Error "Failed to get or create session: Unknown error")).
Proof.
  cbv zeta.
  destruct (AxiosError_views message code response)
    as (Hax & Hmsg & Htruthy & Hobj & Hhas & Hcode & Hhasr & Hstatus).
  cbv zeta in *.
  assert (forall b : bool, b = true \/ b = false) as Hbool by (intros []; auto).
  split; [|split].
  3:{ intros text. unfold Api.getOrCreateSession. run.
      cbn [properties instanceof_Error is_object isAxiosError JS.has andb orb message_of].
      rewrite !andb_false_r. reflexivity. }
  all: intros Hoff; unfold Api.getOrCreateSession; run;
    rewrite Htruthy, Hobj, Hhas, Hcode, Hax, Hhasr, Hstatus, ?Hmsg; cbn [andb orb].
  - destruct code as [c|]; cbn [andb orb] in *.
    + destruct (isNetworkError (VStr c)); cbn [orb] in *; [cbn; auto|].
      destruct response as [s|]; [|discriminate]. cbn [is_num JS.truthy at_least].
      destruct (Z.eqb_spec s 404) as [->|Hne]; cbn [orb andb] in *; [cbn; auto|].
      destruct (Z.eqb_spec s 0) as [->|Hz]; [discriminate|]. cbn [negb andb].
      rewrite Hoff. cbn. auto.
    + destruct response as [s|]; [|discriminate]. cbn [is_num JS.truthy at_least].
      destruct (Z.eqb_spec s 404) as [->|Hne]; cbn [orb andb] in *; [cbn; auto|].
      destruct (Z.eqb_spec s 0) as [->|Hz]; [discriminate|]. cbn [negb andb].
      rewrite Hoff. cbn. auto.
  - destruct code as [c|]; cbn [andb orb] in *.
    + destruct (isNetworkError (VStr c)); cbn [orb] in *; [discriminate|].
      destruct response as [s|]; cbn [is_num JS.truthy at_least andb orb];
        [|cbn; auto].
      apply orb_false_elim in Hoff. destruct Hoff as [H404 H500].
      rewrite H404, H500. cbn [orb andb]. rewrite andb_false_r. cbn. auto.
    + destruct response as [s|]; cbn [is_num JS.truthy at_least andb orb];
        [|cbn; auto].
      apply orb_false_elim in Hoff. destruct Hoff as [H404 H500].
      rewrite H404, H500. cbn [orb andb]. rewrite andb_false_r. cbn. auto.
Qed.


Lemma decode_or_run v fallback :
  Api.decode_or JSON_parse v fallback
  = if JS.truthy v
    then match Obs.decoded_metadata JSON_parse v with
         | Some x => Api.ret x
         | None => Api.raise (Api.of_jsError Session.SyntaxError)
         end
    else Api.ret fallback.
Proof. unfold Api.decode_or. now rewrite decode_run. Qed.

Lemma decode_or_cases v fallback :
  (exists x, Api.decode_or JSON_parse v fallback = Api.ret x)
  \/ Api.decode_or JSON_parse v fallback = Api.raise (Api.of_jsError Session.SyntaxError).
Proof.
  unfold Api.decode_or. destruct (JS.truthy v); [|left; eauto].
  rewrite decode_run. destruct (Obs.decoded_metadata JSON_parse v); [left; eauto | now right].
Qed.

Lemma or_else_defined v : JS.nullish (or_else v (VNum 0)) = false.
Proof. unfold or_else. destruct v as [| |[]|n|t| |]; cbn; try reflexivity.
  - now destruct (n =? 0)%Z.
  - now destruct (String.eqb t "").
Qed.

(** X21. A machine registration that [axios] rejects still returns a
    machine when the failure is one the code knows: a network error code,
    or an answer 403, 409, 404 or from 500 up.  The machine is then the
    minimal one, with the id and the metadata of the request, both versions
    0 and the daemon state of the request or [null].  Every other rejection
    is thrown on as it is, not wrapped, and nothing is reported.  Whatever
    the reply, a machine that is returned has both versions defined. *)
Theorem rejected_machine_request_falls_back_or_rethrows (machineId : string)
  (metadata daemonState : value) (message : string) (code : option string)
  (response : option Z) :
  let error := AxiosError message code response in
  let r := getOrCreateMachine machineId metadata daemonState (Rejects error) in
  let minimal := createMinimalMachine machineId metadata daemonState in
  let known :=
    match code with
    | Some c => negb (String.eqb c "") && isNetworkError (VStr c)
    | None => false
    end
    || match response with
       | Some s => Z.eqb s 403 || Z.eqb s 409 || Z.eqb s 404 || Z.leb 500 s
       | None => false
       end in
  (known = true -> result r = Fulfilled minimal)
  /\ (known = false -> result r = Failed error /\ reports (effects r) = [])
  /\ (Types.machine_id minimal = VStr machineId
      /\ Types.machine_metadata minimal = metadata
      /\ Types.machine_metadataVersion minimal = VNum 0
      /\ Types.daemonStateVersion minimal = VNum 0
      /\ Types.daemonState minimal = if JS.truthy daemonState then daemonState else VNull)
  /\ (forall reply machine,
        result (getOrCreateMachine machineId metadata daemonState reply) = Fulfilled machine ->
        JS.nullish (Types.machine_metadataVersion machine) = false
        /\ JS.nullish (Types.daemonStateVersion machine) = false).
Proof.
  cbv zeta.
  destruct (AxiosError_views message code response)
    as (Hax & Hmsg & Htruthy & Hobj & Hhas & Hcode & Hhasr & Hstatus).
  cbv zeta in *.
  split; [|split; [|split]].
  3:{ cbn. auto. }
  3:{ intros reply machine. unfold Api.getOrCreateMachine. run.
      destruct reply as [status data|error]; run.
      - destruct (JS.nullish data); run; [discriminate|].
        destruct (JS.nullish (JS.get "machine" data)); run; [discriminate|].
        destruct (decode_or_cases (JS.get "metadata" (JS.get "machine" data)) metadata)
          as [[m ->]| ->]; run; [|discriminate].
        destruct (decode_or_cases (JS.get "daemonState" (JS.get "machine" data)) VNull)
          as [[d ->]| ->]; run; [|discriminate].
        intros [= <-]. cbn. split; apply or_else_defined.
      - repeat match goal with
               | |- context [if ?b then _ else _] => destruct b
               end;
          try discriminate; intros [= <-]; cbn; auto. }
  all: intros Hknown; unfold Api.getOrCreateMachine; run;
    rewrite Hax, Hcode, Hstatus; cbn [andb orb];
    destruct code as [c|], response as [s|];
    cbn [JS.truthy is_num at_least andb orb negb] in *;
    try (destruct (Z.eqb_spec s 0) as [->|Hz]; cbn [negb andb orb] in * );
    repeat match goal with
           | |- context [if ?b then _ else _] =>
               let E := fresh "E" in destruct b eqn:E; rewrite ?E in *
           end;
    cbn [andb orb] in *; rewrite ?orb_true_r, ?orb_false_r in *;
    try discriminate; try (cbn; auto; fail).
Qed.


(** X28. When the server answers the machine request, no connection
    failure is reported, no warning is printed on the console and no
    fallback is used: the machine returned has the id of
    the response, its metadata decoded or, when the response has none, the
    metadata of the request, its daemon state decoded or [null], and its
    versions or 0.  A document that does not parse makes the call throw the
    parse error itself: it is neither wrapped nor replaced by the minimal
    machine. *)
Theorem answered_machine_request_fills_the_gaps (machineId : string)
  (metadata daemonState : value) (status : Z) (data : value) :
  let r := getOrCreateMachine machineId metadata daemonState (Resolves status data) in
  let raw := JS.get "machine" data in
  reports (effects r) = []
  /\ printed (effects r) = []
  /\ (forall machine, result r = Fulfilled machine ->
        Types.machine_id machine = JS.get "id" raw
        /\ (if JS.truthy (JS.get "metadata" raw)
            then Obs.decoded_metadata JSON_parse (JS.get "metadata" raw)
                 = Some (Types.machine_metadata machine)
            else Types.machine_metadata machine = metadata)
        /\ Obs.decoded_agentState JSON_parse (JS.get "daemonState" raw)
           = Some (Types.daemonState machine)
        /\ Types.machine_metadataVersion machine
           = or_else (JS.get "metadataVersion" raw) (VNum 0)
        /\ Types.daemonStateVersion machine
           = or_else (JS.get "daemonStateVersion" raw) (VNum 0))
  /\ (JS.nullish data = false -> JS.nullish raw = false ->
      (JS.truthy (JS.get "metadata" raw) = true
       /\ Obs.decoded_metadata JSON_parse (JS.get "metadata" raw) = None)
      \/ Obs.decoded_agentState JSON_parse (JS.get "daemonState" raw) = None ->
      result r = Failed (of_jsError Session.SyntaxError)).
Proof.
  cbv zeta. unfold Api.getOrCreateMachine. run.
  destruct (JS.nullish data) eqn:Hdata; run.
  { cbn. split; [reflexivity|]. split; [reflexivity|]. split; discriminate. }
  destruct (JS.nullish (JS.get "machine" data)) eqn:Hraw; run.
  { cbn. split; [reflexivity|]. split; [reflexivity|]. split; discriminate. }
  rewrite (decode_or_run (JS.get "metadata" (JS.get "machine" data)) metadata).
  rewrite decode_or_null_run.
  destruct (JS.truthy (JS.get "metadata" (JS.get "machine" data))) eqn:Htruthy.
  - destruct (Obs.decoded_metadata JSON_parse (JS.get "metadata" (JS.get "machine" data)))
      as [m|] eqn:Hm; run.
    2:{ cbn. split; [reflexivity|]. split; [reflexivity|]. split; [discriminate|]. reflexivity. }
    destruct (Obs.decoded_agentState JSON_parse (JS.get "daemonState" (JS.get "machine" data)))
      as [d|] eqn:Hd; run.
    2:{ cbn. split; [reflexivity|]. split; [reflexivity|]. split; [discriminate|]. reflexivity. }
    cbn. split; [reflexivity|]. split; [reflexivity|]. split.
    + intros machine [= <-]. cbn. auto.
    + intros _ _ [[_ H]|H]; discriminate H.
  - run.
    destruct (Obs.decoded_agentState JSON_parse (JS.get "daemonState" (JS.get "machine" data)))
      as [d|] eqn:Hd; run.
    2:{ cbn. split; [reflexivity|]. split; [reflexivity|]. split; [discriminate|]. reflexivity. }
    cbn. split; [reflexivity|]. split; [reflexivity|]. split.
    + intros machine [= <-]. cbn. auto.
    + intros _ _ [[H _]|H]; discriminate H.
Qed.

(** X22. [getVendorToken] never throws: whatever the request ends in, the
    caller gets a token or [null].  It gets [null] whenever the request is
    rejected and whenever the status of the answer is not 200.  The branch
    that logs 'Token is null' is never taken, since it is reached only for
    a token that is truthy. *)
Theorem getVendorToken_never_throws (vendor : string) (reply : Reply) :
  let r := getVendorToken vendor reply in
  (exists token, result r = Fulfilled token)
  /\ (forall error, reply = Rejects error -> result r = Fulfilled VNull)
  /\ (forall status data,
        reply = Resolves status data -> status <> 200%Z -> result r = Fulfilled VNull)
  /\ ~ In (Debug ("[API] Token is null for " ++ vendor ++ ", treating as not found"))
          (effects r).
Proof.
  cbv zeta. unfold Api.getVendorToken.
  destruct reply as [status data|error]; run.
  2:{ destruct (_ && _); leaf. }
  destruct (Z.eqb_spec status 404) as [->|H404]; run; [leaf|].
  destruct (Z.eqb_spec status 200) as [->|H200]; cbn [negb]; run; [|leaf].
  destruct (JS.has_in "token" (or_else data (VObj []))); run;
    [|destruct (_ && _); leaf].
  destruct (JS.truthy (JS.get "token" data)) eqn:Htruthy.
  - destruct (JS.get "token" data) as [| |b|n|s|items|fields]; run;
      try discriminate Htruthy; try leaf.
    destruct (JSON_parse s) as [[| |b|n|t|items|fields]|]; run; leaf.
  - destruct (JS.truthy data && is_object data); run; [|leaf].
    destruct (is_null (JS.get "token" data) && Nat.eqb (count_keys data) 1); run; [leaf|].
    destruct data; leaf.
Qed.


(** X23. What [getVendorToken] makes of an answer 200 whose data is an
    object.  A token that is a non-empty string is parsed as JSON and, when
    it does not parse, returned as the string it is; a token of any other
    truthy kind is returned as it is.  Without a usable token the whole
    data object is returned in its place, unless it consists of nothing
    but a [null] token, which counts as no token. *)
Theorem vendor_token_is_parsed_or_passed_on (vendor : string)
  (fields : list (string * value)) :
  let data := VObj fields in
  let token := JS.get "token" data in
  let r := getVendorToken vendor (Resolves 200 data) in
  (forall s, token = VStr s -> s <> "" ->
     result r = Fulfilled match JSON_parse s with
                          | Some v => v
                          | None => VStr s
                          end)
  /\ (JS.truthy token = true -> JS.is_string token = false -> result r = Fulfilled token)
  /\ (JS.truthy token = false ->
      result r = Fulfilled (if is_null token && Nat.eqb (List.length fields) 1
                            then VNull else data)).
Proof.
  cbv zeta. unfold Api.getVendorToken. run.
  change (200 =? 404)%Z with false. change (200 =? 200)%Z with true. cbn [negb].
  cbn [or_else JS.truthy JS.has_in is_object count_keys andb]. run.
  split; [|split].
  - intros s Hs Hne. rewrite Hs. cbn [JS.truthy].
    destruct (String.eqb_spec s "") as [->|_]; [contradiction|]. cbn [negb]. run.
    destruct (JSON_parse s) as [[| |b|n|t|items|fs]|]; reflexivity.
  - intros Htruthy Hstring. rewrite Htruthy.
    destruct (JS.get "token" (VObj fields)) as [| |b|n|s|items|fs]; run;
      try discriminate; reflexivity.
  - intros Hfalsy. rewrite Hfalsy.
    destruct (is_null (JS.get "token" (VObj fields)) && Nat.eqb (List.length fields) 1);
      reflexivity.
Qed.

(** X24. [registerVendorToken] succeeds only on an answer 200 or 201.
    Every other end of the request, an answer with another status (a 204,
    say) as well as a rejection, is thrown as an [Error] whose message
    starts with 'Failed to register vendor token: '; for an unexpected
    status the message goes on 'Server returned status' and the status. *)
Theorem registerVendorToken_accepts_200_and_201_only (vendor : string) (apiKey : value)
  (reply : Reply) :
  let r := registerVendorToken vendor apiKey reply in
  (result r = Fulfilled tt <->
   exists data, reply = Resolves 200 data \/ reply = Resolves 201 data)
  /\ (forall error, result r = Failed error ->
        exists message, error = new_Error ("Failed to register vendor token: " ++ message))
  /\ (forall status data,
        reply = Resolves status data -> status <> 200%Z -> status <> 201%Z ->
        result r
        = Failed (new_Error ("Failed to register vendor token: Server returned status "
                             ++ JS.string_of_Z status)))
  /\ (forall error,
        reply = Rejects error ->
        result r
        = Failed (new_Error ("Failed to register vendor token: " ++ message_of error))).
Proof.
  cbv zeta. unfold Api.registerVendorToken.
  destruct reply as [status data|error]; run.
  - destruct (Z.eqb_spec status 200) as [->|H200]; cbn [negb andb]; run.
    { split; [split; [eauto | reflexivity]|]. split; [discriminate|].
      split; [|discriminate]. intros ? ? [= <- <-] H. now destruct H. }
    destruct (Z.eqb_spec status 201) as [->|H201]; cbn [negb andb]; run.
    { split; [split; [eauto | reflexivity]|]. split; [discriminate|].
      split; [|discriminate]. intros ? ? [= <- <-] _ H. now destruct H. }
    split; [split; [discriminate|]|].
    { intros [d [[= -> _]|[= -> _]]]; contradiction. }
    split; [intros error [= <-]; eexists; reflexivity|].
    split; [|discriminate]. intros ? ? [= <- <-] _ _. reflexivity.
  - split; [split; [discriminate | intros [d [H|H]]; discriminate H]|].
    split; [intros e [= <-]; eexists; reflexivity|].
    split; [discriminate|]. intros e [= <-]. reflexivity.
Qed.

End WithEnvironment.
End ApiProps.

(** ** The session client as a whole *)

Module Wiring.
Import Obs Observe Lifecycle.

Lemma announced_app es es' : announced (es ++ es') = (announced es ++ announced es')%list.
Proof.
  induction es as [|e es IH]; [reflexivity|].
  destruct e; cbn; rewrite ?IH; try reflexivity.
  now destruct (String.eqb ev "rpc-register").
Qed.

Lemma announced_effects es : announced (effects es) = announced es.
Proof.
  induction es as [|e es IH]; [reflexivity|].
  destruct e; cbn; fold (effects es); rewrite ?IH; reflexivity.
Qed.

Lemma announced_announcements sock keys :
  announced (map (fun k => SocketEmit sock "rpc-register" (Rpc.announcement k)) keys)
  = map VStr keys.
Proof.
  induction keys as [|k keys IH]; [reflexivity|].
  cbn [map announced]. change (String.eqb "rpc-register" "rpc-register") with true.
  cbv iota. now rewrite IH.
Qed.

Lemma bind_run {S A B} (m : M S A) (k : A -> M S B) s a :
  out (m s) = Ret a ->
  bind m k s
  = Res (out (k a (post (m s)))) (post (k a (post (m s))))
      (evs (m s) ++ evs (k a (post (m s)))).
Proof. intros H. unfold bind. now rewrite H. Qed.

(** Registering a list of handlers is a run of the manager. *)
Lemma register_all_run handlers : forall this methods,
  tracks this methods ->
  let r := register_all handlers this in
  out r = Ret tt
  /\ Rpc.scopePrefix (post r) = Rpc.scopePrefix this
  /\ Rpc.socket (post r) = Rpc.socket this
  /\ tracks (post r) (methods ++ map fst handlers)
  /\ (Rpc.socket this = None -> evs r = []).
Proof.
  induction handlers as [|[method handler] rest IH]; intros this methods Ht; cbv zeta.
  - cbn. rewrite app_nil_r. auto.
  - cbn [register_all map fst].
    assert (out (Rpc.registerHandler method handler this) = Ret tt) as Ho.
    { unfold Rpc.registerHandler, bind, get, modify, tell, ret. cbn.
      now destruct (Rpc.socket this). }
    assert (Rpc.socket (post (Rpc.registerHandler method handler this)) = Rpc.socket this)
      as Hsock by now rewrite RpcProps.registerHandler_post.
    assert (Rpc.socket this = None -> evs (Rpc.registerHandler method handler this) = [])
      as Hquiet.
    { intros Hnone. unfold Rpc.registerHandler, bind, get, modify, tell, ret. cbn.
      now rewrite Hnone. }
    rewrite (bind_run _ _ _ _ Ho). cbn [out post evs].
    destruct (RpcProps.step_tracks Reader.parse (Rpc.Register method handler) this methods Ht)
      as [Hs Ht']. cbn [Rpc.step Rpc.registered_from] in Hs, Ht'.
    destruct (IH _ _ Ht') as (IHo & IHs & IHk & IHt & IHq). cbv zeta in *.
    split; [exact IHo|]. split; [congruence|]. split; [congruence|].
    split; [now rewrite <- app_assoc in IHt|].
    intros Hnone. rewrite (Hquiet Hnone), IHq; [reflexivity | congruence].
Qed.

Section WithEnvironment.
Variable JSON_parse : string -> option value.
Variable safeParse : value -> option value.
Variable consumers : nat -> value -> outcome unit.
Variable commonHandlers : value -> list (string * Rpc.RpcHandler).

#[local] Abbreviation on := (Lifecycle.on JSON_parse safeParse consumers).
#[local] Abbreviation step := (Lifecycle.step JSON_parse safeParse consumers).
#[local] Abbreviation exec := (Lifecycle.exec JSON_parse safeParse consumers).
#[local] Abbreviation trace := (Lifecycle.trace JSON_parse safeParse consumers).
#[local] Abbreviation constructor := (Lifecycle.constructor commonHandlers).

Lemma handleRequest_announces_nothing request this :
  announced (evs (Rpc.handleRequest JSON_parse request this)) = [].
Proof.
  rewrite RpcMore.handleRequest_events.
  destruct (Assoc.lookup (Rpc.method request) (Rpc.handlers this)) as [h|]; [|reflexivity].
  destruct (h _) as [v|e]; [|reflexivity].
  destruct (JSON.stringify v); reflexivity.
Qed.

Lemma on_update_announces_nothing data this :
  announced (evs (Session.on_update JSON_parse safeParse consumers data this)) = [].
Proof.
  rewrite <- announced_effects.
  destruct data as [[[content|m a| |b]|]]; try reflexivity.
  - destruct (SessionProps.on_update_new_message JSON_parse safeParse consumers content this)
      as (_ & _ & ->).
    rewrite announced_effects.
    unfold Session.on_new_message, bind, lift, JS.prop.
    assert (forall payload, announced (evs (Session.route safeParse consumers payload this)) = [])
      as Hroute.
    { intros payload. rewrite SessionProps.route_run.
      destruct (safeParse payload); [destruct (Session.pendingMessageCallback this)|];
        reflexivity. }
    destruct (JS.nullish content); cbn [out post evs]; [reflexivity|].
    destruct (JS.is_str "encrypted" (JS.get "t" content)).
    + destruct (JSON_parse _); [|reflexivity].
      unfold log, tell. cbn [out post evs app announced]. apply Hroute.
    + apply Hroute.
  - now destruct (SessionProps.on_update_session JSON_parse safeParse consumers m a this)
      as (_ & _ & ->).
Qed.

(** One step of the client, seen from its manager. *)
Lemma step_manager o this methods :
  tracks (rpcHandlerManager this) methods ->
  let r := step o this in
  let prefix := Rpc.scopePrefix (rpcHandlerManager this) in
  Rpc.scopePrefix (rpcHandlerManager (post r)) = prefix
  /\ (exists methods', tracks (rpcHandlerManager (post r)) methods')
  /\ Forall (in_scope prefix) (announced (evs r)).
Proof.
  intros Ht. cbv zeta.
  destruct o as [[|request| | |data|]|method handler]; cbn [Lifecycle.step Lifecycle.on].
  - (* connect *)
    unfold bind, log, tell, get, ret, on_manager. cbn [out post evs].
    destruct (RpcProps.onSocketConnect_run (Session.socket (session this))
                (rpcHandlerManager this)) as (Ho & Hp & He).
    cbv zeta in *. rewrite Ho, Hp, He. cbn [out post evs rpcHandlerManager app announced].
    rewrite app_nil_r, announced_announcements.
    split; [reflexivity|]. split; [exists methods; exact Ht|].
    apply Forall_forall. intros v Hv. apply in_map_iff in Hv. destruct Hv as (k & <- & Hk).
    destruct Ht as [_ Hkeys]. apply Hkeys in Hk. destruct Hk as (m & _ & ->). now exists m.
  - (* rpc-request *)
    unfold bind, ret, on_manager. cbn [out post evs].
    pose proof (RpcProps.handleRequest_post JSON_parse request (rpcHandlerManager this)) as Hp.
    pose proof (handleRequest_announces_nothing request (rpcHandlerManager this)) as He.
    destruct (out (Rpc.handleRequest JSON_parse request (rpcHandlerManager this)));
      cbn [out post evs rpcHandlerManager]; rewrite Hp, ?app_nil_r, He;
      (split; [reflexivity|]; split; [exists methods; exact Ht | constructor]).
  - (* disconnect *)
    cbn. split; [reflexivity|]. split; [exists methods; exact Ht | constructor].
  - (* connect_error *)
    cbn. split; [reflexivity|]. split; [exists methods; exact Ht | constructor].
  - (* update *)
    unfold bind, ret, on_session. cbn [out post evs].
    pose proof (on_update_announces_nothing data (session this)) as He.
    destruct (out (Session.on_update JSON_parse safeParse consumers data (session this)));
      cbn [out post evs rpcHandlerManager]; rewrite ?app_nil_r, He;
      (split; [reflexivity|]; split; [exists methods; exact Ht | constructor]).
  - (* error *)
    cbn. split; [reflexivity|]. split; [exists methods; exact Ht | constructor].
  - (* registerHandler *)
    unfold bind, ret, on_manager. cbn [out post evs].
    destruct (RpcProps.step_tracks JSON_parse (Rpc.Register method handler)
                (rpcHandlerManager this) methods Ht) as [Hs Ht'].
    cbn [Rpc.step] in Hs, Ht'.
    assert (out (Rpc.registerHandler method handler (rpcHandlerManager this)) = Ret tt) as Ho.
    { unfold Rpc.registerHandler, bind, get, modify, tell, ret. cbn.
      now destruct (Rpc.socket (rpcHandlerManager this)). }
    rewrite Ho. cbn [out post evs rpcHandlerManager]. rewrite app_nil_r.
    split; [exact Hs|]. split; [eexists; exact Ht'|].
    unfold Rpc.registerHandler, bind, get, modify, tell, ret. cbn [out post evs].
    destruct (Rpc.socket (rpcHandlerManager this)); cbn [out post evs app announced].
    + change (String.eqb "rpc-register" "rpc-register") with true. cbv iota.
      constructor; [|constructor]. now exists method.
    + constructor.
Qed.

Lemma exec_manager ops : forall this methods,
  tracks (rpcHandlerManager this) methods ->
  let prefix := Rpc.scopePrefix (rpcHandlerManager this) in
  Rpc.scopePrefix (rpcHandlerManager (exec ops this)) = prefix
  /\ (exists methods', tracks (rpcHandlerManager (exec ops this)) methods')
  /\ Forall (in_scope prefix) (announced (trace ops this)).
Proof.
  induction ops as [|o ops IH]; intros this methods Ht; cbv zeta.
  - cbn. split; [reflexivity|]. split; [eauto | constructor].
  - destruct (step_manager o this methods Ht) as (Hs & (methods' & Ht') & Ha).
    destruct (IH _ _ Ht') as (IHs & IHt & IHa). cbv zeta in *.
    cbn [Lifecycle.exec fold_left Lifecycle.trace].
    change (fold_left (fun c o => post (Lifecycle.step JSON_parse safeParse consumers o c)) ops
              (post (step o this)))
      with (exec ops (post (step o this))).
    split; [congruence|]. split; [exact IHt|].
    rewrite announced_app. apply Forall_app. split; [exact Ha|]. now rewrite <- Hs.
Qed.

Lemma constructor_run token session sock client :
  constructor token session sock = Ret client ->
  exists path,
    JS.prop "path" (Types.metadata session) = Ret path
    /\ Lifecycle.session client
       = {| Session.sessionId := as_string (Types.id session);
            Session.metadata := Types.metadata session;
            Session.metadataVersion := as_number (Types.metadataVersion session);
            Session.agentState := Types.agentState session;
            Session.agentStateVersion := as_number (Types.agentStateVersion session);
            Session.socket := sock;
            Session.connected := false;
            Session.pendingMessages := [];
            Session.pendingMessageCallback := None |}
    /\ rpcHandlerManager client
       = post (register_all (commonHandlers path)
                 (Rpc.new {| Rpc.cfg_scopePrefix := as_string (Types.id session) |})).
Proof.
  unfold Lifecycle.constructor, Lifecycle.construction. cbv zeta.
  cbn [Session.metadata Session.sessionId].
  destruct (JS.prop "path" (Types.metadata session)) as [path|e]; cbn [out];
    [|discriminate].
  intros [= <-]. exists path. auto.
Qed.

(** X25. A session client answers for its own session only.  The scope
    prefix of its handler manager is the id of the session it was built
    for, and stays so through every socket event and registration.  Every
    method it ever announces to the server starts with that id and a colon,
    and an ['rpc-request'] for a method that does not start so is called
    back with 'Method not found', whatever has been registered. *)
Theorem session_client_answers_for_its_own_session_only (token : string)
  (session : Types.Session) (sock : Socket) (client : Client) (ops : list op)
  (request : Rpc.RpcRequest) :
  constructor token session sock = Ret client ->
  let sid := as_string (Types.id session) in
  let current := exec ops client in
  Rpc.scopePrefix (rpcHandlerManager current) = sid
  /\ Forall (in_scope sid) (announced (trace ops client))
  /\ (String.prefix (sid ++ ":") (Rpc.method request) = false ->
      out (on (OnRpcRequest request) current)
      = Ret (Some (error_payload "Method not found"))).
Proof.
  intros Hnew. cbv zeta.
  destruct (constructor_run token session sock client Hnew) as (path & _ & _ & Hm).
  destruct (register_all_run (commonHandlers path)
              (Rpc.new {| Rpc.cfg_scopePrefix := as_string (Types.id session) |}) []
              (RpcMore.tracks_new _)) as (_ & Hs0 & _ & Ht0 & _).
  cbv zeta in *. rewrite <- Hm in Hs0, Ht0. cbn in Hs0.
  destruct (exec_manager ops client _ Ht0) as (Hs & (methods & Ht) & Ha).
  cbv zeta in *. rewrite Hs0 in Hs, Ha.
  split; [exact Hs|]. split; [exact Ha|].
  intros Hout.
  assert (Assoc.lookup (Rpc.method request) (Rpc.handlers (rpcHandlerManager (exec ops client)))
          = None) as Hmiss.
  { apply AssocFacts.lookup_none_iff. intros Hin. destruct Ht as [_ Hkeys].
    apply Hkeys in Hin. destruct Hin as (m & _ & Hk). rewrite Hk, Hs in Hout.
    now rewrite RpcMore.prefix_getPrefixedMethod in Hout. }
  destruct (RpcProps.handleRequest_miss JSON_parse request _ Hmiss) as [Ho _].
  cbn [Lifecycle.on]. unfold bind, ret, on_manager. cbn [out post evs].
  now rewrite Ho.
Qed.

Lemma NoDup_map_VStr keys : NoDup keys -> NoDup (map VStr keys).
Proof.
  apply RpcMore.NoDup_map_injective. now intros x y [= ->].
Qed.

Lemma handleRequest_returns request this :
  exists response, out (Rpc.handleRequest JSON_parse request this) = Ret response.
Proof.
  destruct (Assoc.lookup (Rpc.method request) (Rpc.handlers this)) as [h|] eqn:Hl.
  - destruct (RpcProps.handleRequest_hit JSON_parse request _ h Hl) as [H _]. eauto.
  - destruct (RpcProps.handleRequest_miss JSON_parse request _ Hl) as [H _]. eauto.
Qed.

(** What each socket event leaves of the client, and how its handler
    ends. *)
Lemma on_run ev this :
  on ev this
  = match ev with
    | OnConnect =>
        let r := Rpc.onSocketConnect (Session.socket (Lifecycle.session this))
                   (rpcHandlerManager this) in
        Res (Ret None)
          {| Lifecycle.session := Lifecycle.session this; rpcHandlerManager := post r |}
          (Log "Socket connected successfully" :: evs r)
    | OnRpcRequest request =>
        let r := Rpc.handleRequest JSON_parse request (rpcHandlerManager this) in
        Res match out r with Ret response => Ret (Some response) | Throw e => Throw e end
          this (evs r)
    | OnDisconnect =>
        Res (Ret None)
          {| Lifecycle.session := Lifecycle.session this;
             rpcHandlerManager := Rpc.set_socket None (rpcHandlerManager this) |}
          [Log "[API] Socket disconnected:"]
    | OnConnectError =>
        Res (Ret None)
          {| Lifecycle.session := Lifecycle.session this;
             rpcHandlerManager := Rpc.set_socket None (rpcHandlerManager this) |}
          [Log "[API] Socket connection error:"]
    | OnUpdate data =>
        let r := Session.on_update JSON_parse safeParse consumers data (Lifecycle.session this) in
        Res (Ret None)
          {| Lifecycle.session := post r; rpcHandlerManager := rpcHandlerManager this |}
          (evs r)
    | OnError => Res (Ret None) this [Log "[API] Socket error:"]
    end.
Proof.
  destruct ev as [|request| | |data|]; cbn [Lifecycle.on]; try reflexivity.
  - unfold bind, log, tell, get, ret, on_manager. cbn [out post evs].
    destruct (RpcProps.onSocketConnect_run (Session.socket (Lifecycle.session this))
                (rpcHandlerManager this)) as (Ho & _).
    cbv zeta in Ho. rewrite Ho. cbn [out post evs app]. now rewrite app_nil_r.
  - unfold bind, ret, on_manager. cbn [out post evs].
    rewrite RpcProps.handleRequest_post.
    destruct (out (Rpc.handleRequest JSON_parse request (rpcHandlerManager this)));
      cbn [out post evs]; rewrite ?app_nil_r; now destruct this.
  - unfold bind, ret, on_session. cbn [out post evs].
    rewrite (SessionMore.update_handler_returns JSON_parse safeParse consumers data).
    cbn [out post evs]. now rewrite app_nil_r.
Qed.

(** X29. No handler of a socket event throws, and each keeps to its part
    of the client.  An ['rpc-request'] is always called back, with a
    response, and changes nothing; ['connect'], ['disconnect'] and
    ['connect_error'] leave the session part alone, and a connection
    error leaves the client as a disconnect does; an ['update'] leaves the
    handler manager alone; an ['error'] changes nothing.  Only an
    ['rpc-request'] is called back. *)
Theorem socket_events_keep_to_their_part (ev : SocketEvent) (this : Client) :
  let r := on ev this in
  (exists answer, out r = Ret answer)
  /\ (forall request, ev = OnRpcRequest request ->
        post r = this /\ exists response, out r = Ret (Some response))
  /\ ((forall request, ev <> OnRpcRequest request) -> out r = Ret None)
  /\ ((forall data, ev <> OnUpdate data) ->
      Lifecycle.session (post r) = Lifecycle.session this)
  /\ (ev = OnError \/ (exists data, ev = OnUpdate data) ->
      rpcHandlerManager (post r) = rpcHandlerManager this)
  /\ post (on OnConnectError this) = post (on OnDisconnect this).
Proof.
  cbv zeta. rewrite !on_run. split; [|split; [|split; [|split; [|split]]]].
  - destruct ev as [|request| | |data|]; cbn [out]; eauto.
    destruct (handleRequest_returns request (rpcHandlerManager this)) as [response ->].
    eauto.
  - intros request ->. cbn [out post]. split; [reflexivity|].
    destruct (handleRequest_returns request (rpcHandlerManager this)) as [response ->].
    eauto.
  - intros Hother. destruct ev as [|request| | |data|]; try reflexivity.
    now destruct (Hother request).
  - intros Hother. destruct ev as [|request| | |data|]; try reflexivity.
    now destruct (Hother data).
  - intros [->|[data ->]]; reflexivity.
  - reflexivity.
Qed.

(** X26. The constructor needs the metadata of the session: for a session
    whose metadata is [null] it throws, reading [path].  Otherwise the
    client starts detached: not connected, with an empty message buffer and
    no consumer, and with a handler manager that holds no socket.  The
    common handlers are registered but not announced: the constructor
    hands no packet to any socket.  The first ['connect'] announces every
    handler of the manager once, each common method among them under the id
    of the session. *)
Theorem constructed_client_starts_detached (token : string) (session : Types.Session)
  (sock : Socket) :
  let sid := as_string (Types.id session) in
  let common := map fst (commonHandlers (JS.get "path" (Types.metadata session))) in
  packets (evs (Lifecycle.construction commonHandlers token session sock)) = []
  /\ (JS.nullish (Types.metadata session) = true ->
      exists e, constructor token session sock = Throw e)
  /\ (JS.nullish (Types.metadata session) = false ->
      exists client,
        constructor token session sock = Ret client
        /\ Session.connected (Lifecycle.session client) = false
        /\ Session.pendingMessages (Lifecycle.session client) = []
        /\ Session.pendingMessageCallback (Lifecycle.session client) = None
        /\ Rpc.socket (rpcHandlerManager client) = None
        /\ (forall method, In method common ->
                           Rpc.hasHandler method (rpcHandlerManager client) = true)
        /\ NoDup (announced (evs (on OnConnect client)))
        /\ (forall method,
              In method common ->
              In (VStr (Rpc.getPrefixedMethod sid method))
                 (announced (evs (on OnConnect client))))).
Proof.
  cbv zeta. unfold Lifecycle.constructor, Lifecycle.construction. cbv zeta.
  cbn [Session.metadata Session.sessionId]. unfold JS.prop.
  split; [|split; intros Hnull; rewrite Hnull; cbn [out]; [eauto|]].
  { destruct (JS.nullish (Types.metadata session)); cbn [evs]; [reflexivity|].
    destruct (register_all_run (commonHandlers (JS.get "path" (Types.metadata session)))
                (Rpc.new {| Rpc.cfg_scopePrefix := as_string (Types.id session) |}) []
                (RpcMore.tracks_new _)) as (_ & _ & _ & _ & Hquiet).
    cbv zeta in Hquiet. now rewrite (Hquiet eq_refl). }
  eexists. split; [reflexivity|]. cbn [Lifecycle.session rpcHandlerManager].
  destruct (register_all_run (commonHandlers (JS.get "path" (Types.metadata session)))
              (Rpc.new {| Rpc.cfg_scopePrefix := as_string (Types.id session) |}) []
              (RpcMore.tracks_new _)) as (_ & Hs & Hk & [Hnd Hkeys] & _).
  cbv zeta in *. cbn [app] in Hkeys. cbn in Hs, Hk.
  set (manager := post (register_all _ _)) in *.
  do 3 (split; [reflexivity|]). split; [exact Hk|].
  assert (forall method,
             In method (map fst (commonHandlers (JS.get "path" (Types.metadata session)))) ->
             In (Rpc.getPrefixedMethod (as_string (Types.id session)) method)
                (Assoc.keys (Rpc.handlers manager))) as Hin.
  { intros method Hm. apply Hkeys. exists method. split; [exact Hm | now rewrite Hs]. }
  assert (announced
            (evs (on OnConnect
                    {| Lifecycle.session :=
                         {| Session.sessionId := as_string (Types.id session);
                            Session.metadata := Types.metadata session;
                            Session.metadataVersion :=
                              as_number (Types.metadataVersion session);
                            Session.agentState := Types.agentState session;
                            Session.agentStateVersion :=
                              as_number (Types.agentStateVersion session);
                            Session.socket := sock;
                            Session.connected := false;
                            Session.pendingMessages := [];
                            Session.pendingMessageCallback := None |};
                       rpcHandlerManager := manager |}))
          = map VStr (Assoc.keys (Rpc.handlers manager))) as Hup.
  { cbn [Lifecycle.on]. unfold bind, log, tell, get, ret, on_manager.
    cbn [out post evs Lifecycle.session rpcHandlerManager Session.socket].
    destruct (RpcProps.onSocketConnect_run sock manager) as (Ho & _ & He).
    cbv zeta in *. rewrite Ho, He. cbn [out post evs app announced].
    now rewrite app_nil_r, announced_announcements. }
  split; [|split].
  - intros method Hm. unfold Rpc.hasHandler. rewrite Hs.
    destruct (Assoc.lookup _ _) eqn:Hl; [reflexivity|].
    apply AssocFacts.lookup_none_iff in Hl. now destruct (Hl (Hin method Hm)).
  - rewrite Hup. now apply NoDup_map_VStr.
  - intros method Hm. rewrite Hup. apply in_map. now apply Hin.
Qed.

(** X27. A client built for a session that [getOrCreateSession] returned
    starts from what the server said: its metadata is the decoded document
    of the response, and the first conditional write it sends carries the
    id and the metadata version of the response as [sid] and
    [expectedVersion], with the mutator applied to that document. *)
Theorem created_session_client_starts_at_the_server_version
  (isNetworkError : value -> bool) (relayServerUrl access_token tag : string)
  (metadata state : value) (status : Z) (data : value) (session : Types.Session)
  (sock : Socket) (client : Client) (sid : string) (version : Z)
  (handler : value -> value) (ack : Session.Ack) (later : list Session.Ack) :
  Api.result (Api.getOrCreateSession JSON_parse isNetworkError relayServerUrl access_token
                tag metadata state (Api.Resolves status data))
  = Api.Fulfilled (Some session) ->
  JS.get "id" (JS.get "session" data) = VStr sid ->
  JS.get "metadataVersion" (JS.get "session" data) = VNum version ->
  Api.sessionSyncClient access_token commonHandlers session sock = Ret client ->
  let this := Lifecycle.session client in
  Obs.decoded_metadata JSON_parse (JS.get "metadata" (JS.get "session" data))
  = Some (Session.metadata this)
  /\ Session.sessionId this = sid
  /\ Session.metadataVersion this = version
  /\ exists rest,
       evs (Session.updateMetadata JSON_parse handler (ack :: later) this)
       = SocketEmitWithAck sock "update-metadata"
           (VObj [("sid", VStr sid);
                  ("expectedVersion", VNum version);
                  ("metadata", JSON.stringify_value (handler (Session.metadata this)))])
         :: rest.
Proof.
  intros Hcreated Hid Hversion Hclient. cbv zeta.
  destruct (ApiProps.session_of_answer JSON_parse isNetworkError relayServerUrl access_token
              tag metadata state status data session Hcreated) as (Hm & Hi & Hv).
  cbv zeta in Hm, Hi, Hv.
  unfold Api.sessionSyncClient in Hclient.
  destruct (constructor_run access_token session sock client) as (path & _ & Hs & _).
  all: try exact Hclient.
  rewrite Hs. cbn [Session.metadata Session.sessionId Session.metadataVersion].
  rewrite Hi, Hv, Hid, Hversion. cbn [as_string as_number].
  split; [exact Hm|]. split; [reflexivity|]. split; [reflexivity|].
  destruct (Writes.updateMetadata_first JSON_parse handler ack later
              {| Session.sessionId := sid;
                 Session.metadata := Types.metadata session;
                 Session.metadataVersion := version;
                 Session.agentState := Types.agentState session;
                 Session.agentStateVersion := as_number (Types.agentStateVersion session);
                 Session.socket := sock;
                 Session.connected := false;
                 Session.pendingMessages := [];
                 Session.pendingMessageCallback := None |}) as (_ & Hrest).
  cbv zeta in Hrest.
  destruct (out (Session.metadata_receive JSON_parse ack _)); destruct Hrest as [_ ->];
    eexists; reflexivity.
Qed.

End WithEnvironment.
End Wiring.

(** ** Further scenarios *)

Module MoreScenarios.
Import Obs Observe Samples MoreSamples.

(** A request under another scope misses, although [echo] is registered. *)
Lemma requests_outside_the_scope_reach_no_handler_witness :
  let this := Rpc.exec Reader.parse three_registrations (Rpc.new config) in
  String.prefix "s1:" "s2:echo" = false
  /\ Rpc.hasHandler "echo" this = true
  /\ out (Rpc.handleRequest Reader.parse (request "s2:echo" "{}") this)
     = Ret (error_payload "Method not found").
Proof.
  cbv zeta. split; [reflexivity|]. split; [reflexivity|].
  now destruct (RpcMore.requests_outside_the_scope_reach_no_handler Reader.parse config
                  three_registrations (request "s2:echo" "{}") eq_refl).
Defined.

(** The handler [silent] returns [undefined]; its caller is answered an
    error. *)
Lemma undefined_result_is_answered_as_an_error_witness :
  let r := Rpc.handleRequest Reader.parse (request "s1:silent" "{}") quiet_manager in
  Assoc.lookup "s1:silent" (Rpc.handlers quiet_manager) = Some silent
  /\ (exists message, out r = Ret (error_payload message))
  /\ invocations (evs r) = [("s1:silent", VObj [])].
Proof.
  cbv zeta. split; [reflexivity|].
  exact (RpcMore.undefined_result_is_answered_as_an_error Reader.parse quiet_manager
           (request "s1:silent" "{}") silent eq_refl eq_refl).
Defined.

(** An agent message arrives while a consumer is attached: it is emitted,
    not delivered. *)
Lemma message_outside_the_schema_is_emitted_not_queued_witness :
  let this := post (Session.onUserMessage attentive 7 (client true)) in
  let r := Session.on_update Reader.parse user_text_schema attentive
             (new_message agent_output) this in
  user_text_schema agent_output = None
  /\ post r = this
  /\ effects (evs r) = [EmitLocal "message" agent_output].
Proof.
  cbv zeta. split; [reflexivity|].
  now destruct (SessionMore.message_outside_the_schema_is_emitted_not_queued Reader.parse
                  user_text_schema attentive agent_output agent_output
                  (post (Session.onUserMessage attentive 7 (client true)))
                  eq_refl eq_refl eq_refl) as (_ & Hp & He).
Defined.

(** Three messages are buffered.  Consumer 7 throws on the second and
    leaves the third in the buffer; it is handed the message that arrives
    next.  Consumer 8, attached then, is handed the third message, and the
    message that arrives afterwards. *)
Lemma later_consumer_replaces_the_earlier_one_witness :
  let waiting := Session.exec Reader.parse user_text_schema fragile
                   (map Session.Arrive early) (client true) in
  let first := Session.onUserMessage fragile 7 waiting in
  let again := Session.onUserMessage fragile 8
                 (Session.exec Reader.parse user_text_schema fragile
                    (map Session.Arrive [new_message m4]) (post first)) in
  Forall2 (fun data m => user_message_of Reader.parse user_text_schema data = Some m)
    [new_message m4] [m4]
  /\ Forall2 (fun data m => user_message_of Reader.parse user_text_schema data = Some m)
       [new_message m1] [m1]
  /\ deliveries (evs first) = [(7, m1); (7, m2)]
  /\ deliveries (Obs.trace Reader.parse user_text_schema fragile
                   (map Session.Arrive [new_message m4]) (post first))
     = [(7, m4)]
  /\ deliveries (evs again) = [(8, m3)]
  /\ deliveries (Obs.trace Reader.parse user_text_schema fragile
                   (map Session.Arrive [new_message m1]) (post again))
     = [(8, m1)].
Proof.
  cbv zeta.
  assert (Forall2 (fun data m => user_message_of Reader.parse user_text_schema data = Some m)
            [new_message m4] [m4]) as H4 by (constructor; [reflexivity | constructor]).
  assert (Forall2 (fun data m => user_message_of Reader.parse user_text_schema data = Some m)
            [new_message m1] [m1]) as H1 by (constructor; [reflexivity | constructor]).
  destruct (SessionMore.later_consumer_replaces_the_earlier_one Reader.parse user_text_schema
              fragile
              (Session.exec Reader.parse user_text_schema fragile
                 (map Session.Arrive early) (client true))
              7 8 [new_message m4] [new_message m1] [m4] [m1] H4 H1)
    as ((Hfirst & _) & (Hbetween & _) & (Hagain & _) & Hlater).
  split; [exact H4|]. split; [exact H1|].
  split; [etransitivity; [exact Hfirst | vm_compute; reflexivity]|].
  split; [exact Hbetween|].
  split; [etransitivity; [exact Hagain | vm_compute; reflexivity]|].
  exact Hlater.
Defined.

(** A rejected emit, then the success of version 8: two requests, and
    what would have been answered afterwards is never asked for. *)
Lemma write_ends_with_the_first_answer_it_accepts_witness :
  let before := [Session.Rejected (ErrorObj "timeout")] in
  let after := [Session.Answered garbled7] in
  let whole := Session.updateMetadata Reader.parse set_summary
                 (before ++ Session.Answered accepted8 :: after) (client true) in
  settles (Obs.decoded_metadata Reader.parse) accepted8
  /\ settles (Obs.decoded_agentState Reader.parse) refused
  /\ Session.metadataVersion (post whole) = 8%Z
  /\ List.length (requests (evs whole)) <= 2.
Proof.
  cbv zeta.
  assert (settles (Obs.decoded_metadata Reader.parse) accepted8) as Hm.
  { left. split; [reflexivity|]. vm_compute. discriminate. }
  assert (settles (Obs.decoded_agentState Reader.parse) refused) as Ha.
  { right. split; discriminate. }
  destruct (Writes.write_ends_with_the_first_answer_it_accepts Reader.parse set_summary
              [Session.Rejected (ErrorObj "timeout")] [Session.Answered garbled7]
              accepted8 refused (client true) Hm Ha) as ((Heq & Hlen) & _).
  split; [exact Hm|]. split; [exact Ha|]. split; [|exact Hlen].
  rewrite Heq. reflexivity.
Defined.

(** An answer ['error'] ends the write; the summary is not set. *)
Lemma unknown_result_ends_the_write_unchanged_witness :
  let r := Session.updateMetadata Reader.parse set_summary
             [Session.Answered refused; success8] (client true) in
  Session.result refused <> "success"
  /\ Session.result refused <> "version-mismatch"
  /\ post r = client true
  /\ List.length (evs r) = 1.
Proof.
  cbv zeta.
  assert (Session.result refused <> "success") as Hs by discriminate.
  assert (Session.result refused <> "version-mismatch") as Hm by discriminate.
  destruct (Writes.unknown_result_ends_the_write_unchanged Reader.parse set_summary refused
              [success8] (client true) Hs Hm) as ((_ & Hp & He) & _).
  split; [exact Hs|]. split; [exact Hm|]. split; [exact Hp|]. now rewrite He.
Defined.

(** A mismatch that is not ahead of the client changes nothing and the
    same request is sent again. *)
Lemma failed_attempt_is_repeated_from_the_same_state_witness :
  let r := Session.updateMetadata Reader.parse set_summary
             [Session.Answered stale5; Session.Answered refused] (client true) in
  fails_early (Obs.decoded_metadata Reader.parse) 5 (Session.Answered stale5)
  /\ fails_early (Obs.decoded_agentState Reader.parse) 5 (Session.Rejected (ErrorObj "timeout"))
  /\ post r = client true
  /\ requests (evs r)
     = [Session.update_metadata_request (client true) (set_summary (VObj [("path", VStr "/work")]));
        Session.update_metadata_request (client true) (set_summary (VObj [("path", VStr "/work")]))].
Proof.
  cbv zeta.
  assert (fails_early (Obs.decoded_metadata Reader.parse) 5 (Session.Answered stale5)) as Hm.
  { right. split; [reflexivity | cbn; lia]. }
  assert (fails_early (Obs.decoded_agentState Reader.parse) 5
            (Session.Rejected (ErrorObj "timeout"))) as Ha by exact I.
  destruct (Writes.failed_attempt_is_repeated_from_the_same_state Reader.parse set_summary
              (Session.Answered stale5) (Session.Rejected (ErrorObj "timeout"))
              [Session.Answered refused] (client true) Hm Ha) as ((_ & _ & Hp & He) & _).
  split; [exact Hm|]. split; [exact Ha|]. split.
  - rewrite Hp. reflexivity.
  - rewrite He. reflexivity.
Defined.

(** A mismatch of version 7 with a value that is not JSON: the client is
    at version 7 with the metadata of version 5. *)
Lemma mismatch_with_unparsable_value_adopts_the_version_alone_witness :
  let first := Session.metadata_attempt Reader.parse set_summary (Session.Answered garbled7)
                 (client true) in
  Session.result garbled7 = "version-mismatch"
  /\ Obs.decoded_metadata Reader.parse (Session.answer_doc garbled7) = None
  /\ Session.metadataVersion (post first) = 7%Z
  /\ Session.metadata (post first) = Session.metadata (client true).
Proof.
  cbv zeta.
  destruct (Writes.mismatch_with_unparsable_value_adopts_the_version_alone Reader.parse
              set_summary garbled7 [] (client true) eq_refl) as (Hm & _).
  assert ((Session.answer_version garbled7 > Session.metadataVersion (client true))%Z) as Hgt
    by (cbn; lia).
  destruct (Hm Hgt eq_refl) as (_ & Hp & _).
  split; [reflexivity|]. split; [reflexivity|]. rewrite Hp. split; reflexivity.
Defined.

(** A summary line sent while connected and answered with a success. *)
Lemma summary_message_writes_only_the_summary_witness :
  let r := Session.sendClaudeSessionMessage Reader.parse summary_message 1000
             [success8] (client true) in
  Session.connected (client true) = true
  /\ (exists content, out (Session.claude_content summary_message (client true)) = Ret content)
  /\ out r = Ret tt
  /\ List.length (effects (evs r)) = 2.
Proof.
  cbv zeta.
  destruct (Sends.summary_message_writes_only_the_summary Reader.parse summary_message
              _ 1000 [success8] (client true)
              eq_refl eq_refl eq_refl eq_refl eq_refl) as (Ho & _ & He & _).
  split; [reflexivity|]. split; [eexists; reflexivity|]. split; [exact Ho|].
  rewrite He. reflexivity.
Defined.

(** The client built for session [s1] announces under [s1] and refuses a
    method of [s2]. *)
Lemma session_client_answers_for_its_own_session_only_witness :
  let current := Lifecycle.exec Reader.parse user_text_schema attentive day built in
  Lifecycle.constructor commonHandlers "token" session 0 = Ret built
  /\ announced (Lifecycle.trace Reader.parse user_text_schema attentive day built)
     = [VStr "s1:bash"; VStr "s1:abort"]
  /\ out (Lifecycle.on Reader.parse user_text_schema attentive
            (Lifecycle.OnRpcRequest (request "s2:bash" "{}")) current)
     = Ret (Some (error_payload "Method not found")).
Proof.
  cbv zeta. split; [reflexivity|]. split; [reflexivity|].
  destruct (Wiring.session_client_answers_for_its_own_session_only Reader.parse
              user_text_schema attentive commonHandlers "token" session 0 built day
              (request "s2:bash" "{}") eq_refl) as (_ & _ & Hmiss).
  exact (Hmiss eq_refl).
Defined.

(** The session the server describes at version 5, and the first write of
    the client built for it. *)
Lemma created_session_client_starts_at_the_server_version_witness :
  let created := Api.getOrCreateSession Reader.parse never_offline "https://relay" "token"
                   "tag" (VObj [("path", VStr "/work")]) VNull
                   (Api.Resolves 200 session_response) in
  Api.result created = Api.Fulfilled (Some session)
  /\ Api.sessionSyncClient "token" commonHandlers session 0 = Ret built
  /\ exists rest,
       evs (Session.updateMetadata Reader.parse set_summary [success8]
              (Lifecycle.session built))
       = SocketEmitWithAck 0 "update-metadata"
           (VObj [("sid", VStr "s1");
                  ("expectedVersion", VNum 5);
                  ("metadata",
                   JSON.stringify_value (set_summary (VObj [("path", VStr "/work")])))])
         :: rest.
Proof.
  cbv zeta.
  assert (Api.result (Api.getOrCreateSession Reader.parse never_offline "https://relay" "token"
                        "tag" (VObj [("path", VStr "/work")]) VNull
                        (Api.Resolves 200 session_response))
          = Api.Fulfilled (Some session)) as Hcreated by (vm_compute; reflexivity).
  destruct (Wiring.created_session_client_starts_at_the_server_version Reader.parse
              commonHandlers never_offline "https://relay" "token" "tag"
              (VObj [("path", VStr "/work")]) VNull 200 session_response session 0 built
              "s1" 5 set_summary success8 [] Hcreated eq_refl eq_refl eq_refl)
    as (_ & _ & _ & Hfirst).
  split; [exact Hcreated|]. split; [reflexivity|]. exact Hfirst.
Defined.

End MoreScenarios.
